(** * Career Hub engagement ledger: a shallow embedding of [app.py]

    The development follows the in-memory stores and the route handlers of
    [app.py] that implement post likes, company votes, badges, content
    moderation, private-message conversations, favourites and offer likes.

    Conventions.
    - A Python [str] is the list of its Unicode code points ([list N]); the
      operators [in], [<], [split], [join] and slicing act on code points.
    - A Python [int] is a [Z].
    - A naive [datetime] is a calendar day together with the microseconds
      elapsed since midnight; [isoformat]/[fromisoformat] round-trip such a
      value, so the stores keep the value itself.
    - Dictionaries whose iteration order no handler depends on are [gmap]s;
      dictionaries that are iterated with [.items()] to build a result are
      insertion-ordered association lists.
    - Every read of the wall clock ([datetime.now()]) is an explicit argument
      of the handler that performs it, in the order the reads happen. *)

From Stdlib Require Import ZArith NArith Ascii String.
From stdpp Require Import base option list gmap fin_maps.
From Stdlib Require Import Sorted.

Local Open Scope Z_scope.

(* ===================================================================== *)
(** ** Python strings *)
(* ===================================================================== *)

Abbreviation str := (list N).

(** An ASCII literal as a [str]. *)
Definition lit (s : string) : str :=
  (λ a, N_of_ascii a) <$> list_ascii_of_string s.

(** [t.startswith(w)]. *)
Fixpoint starts_with (w t : str) : bool :=
  match w, t with
  | [], _ => true
  | _ :: _, [] => false
  | a :: w', b :: t' => (a =? b)%N && starts_with w' t'
  end.

(** [w in t] for strings: [w] occurs in [t] at some offset. *)
Fixpoint str_in (w t : str) : bool :=
  starts_with w t ||
  match t with
  | [] => false
  | _ :: t' => str_in w t'
  end.

(** [a < b] on strings: lexicographic on code points. *)
Fixpoint str_ltb (a b : str) : bool :=
  match a, b with
  | _, [] => false
  | [], _ :: _ => true
  | x :: a', y :: b' => (x <? y)%N || ((x =? y)%N && str_ltb a' b')
  end.

(** [s.split(c)] for a one-character separator [c]. *)
Fixpoint split_on (c : N) (s : str) : list str :=
  match s with
  | [] => [[]]
  | x :: s' =>
      if (x =? c)%N then [] :: split_on c s'
      else match split_on c s' with
           | [] => [[x]]
           | piece :: rest => (x :: piece) :: rest
           end
  end.

(** [sep.join(l)]. *)
Fixpoint join (sep : str) (l : list str) : str :=
  match l with
  | [] => []
  | [x] => x
  | x :: rest => x ++ sep ++ join sep rest
  end.

(** [sorted(l)] / [l.sort()]: the stable sort. Each element is placed before
    the first element it is strictly below, hence after its equals. *)
Fixpoint sorted_insert {A} (lt : A → A → bool) (x : A) (l : list A) : list A :=
  match l with
  | [] => [x]
  | y :: l' => if lt x y then x :: l else y :: sorted_insert lt x l'
  end.

Definition sorted {A} (lt : A → A → bool) (l : list A) : list A :=
  foldl (λ acc x, sorted_insert lt x acc) [] l.

(** [l.remove(x)] on a list that contains [x]: drops the first occurrence.
    (On a list without [x] Python raises; every call below is guarded by a
    membership test, and the model leaves such a list unchanged.) *)
Fixpoint list_remove_first (x : str) (l : list str) : list str :=
  match l with
  | [] => []
  | y :: l' => if bool_decide (y = x) then l' else y :: list_remove_first x l'
  end.

Definition underscore : N := 95%N.

(* ===================================================================== *)
(** ** Content moderation *)
(* ===================================================================== *)

(** ["广告", "微信", "加我", "买卖", "代写", "代考", "赚钱", "兼职刷单",
    "招代理"], as code points. *)
Definition PROHIBITED_WORDS : list str :=
  [ [24191; 21578]; [24494; 20449]; [21152; 25105]; [20080; 21334];
    [20195; 20889]; [20195; 32771]; [36186; 38065];
    [20860; 32844; 21047; 21333]; [25307; 20195; 29702] ]%N.

Definition prohibited_prefix : str := lit "Content contains prohibited word: ".

(** The [for word in words] loop of [check_content_moderation]. *)
Fixpoint moderation_scan (words : list str) (text : str) : bool * str :=
  match words with
  | [] => (true, [])
  | word :: words' =>
      if str_in word text then (false, prohibited_prefix ++ word)
      else moderation_scan words' text
  end.

Definition check_content_moderation (text : str) : bool * str :=
  moderation_scan PROHIBITED_WORDS text.

(* ===================================================================== *)
(** ** Wall-clock values *)
(* ===================================================================== *)

(** A naive [datetime]: the ordinal of its date and the microseconds since
    midnight of that date. *)
Record datetime := Datetime { dt_day : Z; dt_us : N }.

(** [now.replace(hour=0, minute=0, second=0, microsecond=0)]. *)
Definition start_of_day (now : datetime) : datetime :=
  {| dt_day := dt_day now; dt_us := 0%N |}.

(** [a >= b] on datetimes. *)
Definition dt_geb (a b : datetime) : bool :=
  (dt_day b <? dt_day a) || ((dt_day a =? dt_day b) && (dt_us b <=? dt_us a)%N).

(* ===================================================================== *)
(** ** The in-memory stores *)
(* ===================================================================== *)

(** A value of [users_db]. Only the keys read by the modelled handlers are
    kept; [u_name] is [profile.get('name')]. *)
Record user := User {
  u_user_id : str;
  u_name : option str;
  u_verified : option bool
}.

(** The cookie session: the two keys the handlers look at. *)
Record session := Session {
  s_user_id : option str;
  s_email : option str
}.

(** An element of [experience_posts]. A key that a handler reads with
    [.get] or tests with [in] is optional. *)
Record post := Post {
  p_id : str;
  p_author_id : option str;
  p_likes : Z;
  p_liked_by : option (list str)
}.

(** An element of [dream_companies]. *)
Record company := Company { c_id : str; c_votes : Z }.

(** An element of [offer_showcase]. *)
Record offer := Offer { o_id : str; o_likes : option Z }.

(** A value of [user_achievements]. *)
Record achievement := Achievement {
  a_badges : list str;
  a_points : Z;
  a_votes_cast : Z;
  a_offers_shared : Z
}.

(** An element of a conversation in [private_messages]. *)
Record message := Message {
  m_id : str;
  m_sender_id : str;
  m_receiver_id : str;
  m_content : str;
  m_read : option bool;
  m_created_at : str
}.

Record state := State {
  users_db : list (str * user);
  user_likes : gmap str (gmap str datetime);
  company_votes : gmap str (gmap str datetime);
  user_achievements : gmap str achievement;
  offer_showcase : list offer;
  user_favorites : gmap str (list str);
  private_messages : list (str * list message);
  dream_companies : list company;
  experience_posts : list post
}.

Definition set_user_likes (v : gmap str (gmap str datetime)) (st : state) : state :=
  State (users_db st) v (company_votes st) (user_achievements st)
        (offer_showcase st) (user_favorites st) (private_messages st)
        (dream_companies st) (experience_posts st).

Definition set_company_votes (v : gmap str (gmap str datetime)) (st : state) : state :=
  State (users_db st) (user_likes st) v (user_achievements st)
        (offer_showcase st) (user_favorites st) (private_messages st)
        (dream_companies st) (experience_posts st).

Definition set_user_achievements (v : gmap str achievement) (st : state) : state :=
  State (users_db st) (user_likes st) (company_votes st) v
        (offer_showcase st) (user_favorites st) (private_messages st)
        (dream_companies st) (experience_posts st).

Definition set_offer_showcase (v : list offer) (st : state) : state :=
  State (users_db st) (user_likes st) (company_votes st) (user_achievements st)
        v (user_favorites st) (private_messages st)
        (dream_companies st) (experience_posts st).

Definition set_user_favorites (v : gmap str (list str)) (st : state) : state :=
  State (users_db st) (user_likes st) (company_votes st) (user_achievements st)
        (offer_showcase st) v (private_messages st)
        (dream_companies st) (experience_posts st).

Definition set_dream_companies (v : list company) (st : state) : state :=
  State (users_db st) (user_likes st) (company_votes st) (user_achievements st)
        (offer_showcase st) (user_favorites st) (private_messages st)
        v (experience_posts st).

Definition set_experience_posts (v : list post) (st : state) : state :=
  State (users_db st) (user_likes st) (company_votes st) (user_achievements st)
        (offer_showcase st) (user_favorites st) (private_messages st)
        (dream_companies st) v.

(** [d.get(k)] on an insertion-ordered dictionary. *)
Fixpoint assoc_get {V} (k : str) (d : list (str * V)) : option V :=
  match d with
  | [] => None
  | (k', v) :: d' => if bool_decide (k' = k) then Some v else assoc_get k d'
  end.

(** [get_current_user()]. *)
Definition get_current_user (st : state) (sess : session) : option user :=
  match s_user_id sess with
  | None => None
  | Some _ =>
      match s_email sess with
      | None => None
      | Some email => assoc_get email (users_db st)
      end
  end.

(** The first element of a list of dictionaries whose ["id"] is [k], with
    its position: the [for x in xs: if x["id"] == k:] idiom. *)
Definition find_by_id {A} (id_of : A → str) (k : str) (xs : list A) : option (nat * A) :=
  list_find (λ x, id_of x = k) xs.

(* ===================================================================== *)
(** ** Post likes *)
(* ===================================================================== *)

Definition already_liked_msg : str := lit "Today's like, cannot be repeated".
Definition daily_limit_msg : str := lit "Daily like limit reached (50/day)".

(** [user_likes[user_id]] after the [if user_id not in user_likes] guard. *)
Definition ensure_user_likes (user_id : str) (likes : gmap str (gmap str datetime))
  : gmap str (gmap str datetime) :=
  match likes !! user_id with
  | None => <[user_id := ∅]> likes
  | Some _ => likes
  end.

(** [sum(1 for ts in d.values() if ts >= today_start)]. *)
Definition count_since (today_start : datetime) (d : gmap str datetime) : Z :=
  Z.of_nat (length (List.filter (λ kv : str * datetime, dt_geb (snd kv) today_start)
                                (map_to_list d))).

(** [can_like_post(user_id, post_id)]; [now] is its clock read. *)
Definition can_like_post (st : state) (user_id post_id : str) (now : datetime)
  : state * (bool * str) :=
  let likes := ensure_user_likes user_id (user_likes st) in
  let st := set_user_likes likes st in
  let user_post_likes := default ∅ (likes !! user_id) in
  let today_start := start_of_day now in
  if match user_post_likes !! post_id with
     | Some last_like => dt_geb last_like today_start
     | None => false
     end
  then (st, (false, already_liked_msg))
  else
    let today_likes := count_since today_start user_post_likes in
    if 50 <=? today_likes then (st, (false, daily_limit_msg))
    else (st, (true, [])).

Inductive like_response :=
| LikeLoginNeeded
| LikeOk (likes : Z) (liked : bool)
| LikeDenied (message : str)
| LikePostNotFound.

(** [del user_likes[user_id][post_id]] under its two membership guards. *)
Definition forget_like (user_id post_id : str) (likes : gmap str (gmap str datetime))
  : gmap str (gmap str datetime) :=
  match likes !! user_id with
  | None => likes
  | Some d => <[user_id := delete post_id d]> likes
  end.

(** [user_likes[user_id][post_id] = stamp] after the guard that creates the
    inner dictionary. *)
Definition record_like (user_id post_id : str) (stamp : datetime)
    (likes : gmap str (gmap str datetime)) : gmap str (gmap str datetime) :=
  let likes := ensure_user_likes user_id likes in
  <[user_id := <[post_id := stamp]> (default ∅ (likes !! user_id))]> likes.

(** [api_like_post(post_id)]. [now_check] is the clock read inside
    [can_like_post], [now_stamp] the later one that dates the like. *)
Definition api_like_post (st : state) (sess : session) (post_id : str)
    (now_check now_stamp : datetime) : state * like_response :=
  match get_current_user st sess with
  | None => (st, LikeLoginNeeded)
  | Some user =>
      let user_id := u_user_id user in
      match find_by_id p_id post_id (experience_posts st) with
      | None => (st, LikePostNotFound)
      | Some (i, p) =>
          let liked_by := default [] (p_liked_by p) in
          if bool_decide (user_id ∈ liked_by) then
            let p' := Post (p_id p) (p_author_id p)
                           (Z.max 0 (p_likes p - 1))
                           (Some (list_remove_first user_id liked_by)) in
            let st := set_experience_posts (<[i := p']> (experience_posts st)) st in
            let st := set_user_likes (forget_like user_id post_id (user_likes st)) st in
            (st, LikeOk (p_likes p') false)
          else
            let p0 := Post (p_id p) (p_author_id p) (p_likes p) (Some liked_by) in
            let st := set_experience_posts (<[i := p0]> (experience_posts st)) st in
            let '(st, (can_like, msg)) := can_like_post st user_id post_id now_check in
            if negb can_like then (st, LikeDenied msg)
            else
              let p' := Post (p_id p) (p_author_id p) (p_likes p + 1)
                             (Some (liked_by ++ [user_id])) in
              let st := set_experience_posts (<[i := p']> (experience_posts st)) st in
              let st := set_user_likes
                          (record_like user_id post_id now_stamp (user_likes st)) st in
              (st, LikeOk (p_likes p') true)
      end
  end.

(* ===================================================================== *)
(** ** Points and badges *)
(* ===================================================================== *)

Definition first_vote : str := lit "first_vote".
Definition voter_10 : str := lit "voter_10".
Definition voter_50 : str := lit "voter_50".
Definition offer_shared : str := lit "offer_shared".
Definition verified_offer : str := lit "verified_offer".
Definition top_contributor : str := lit "top_contributor".

(** [ACHIEVEMENT_BADGES], reduced to the ["points"] entry of each badge. *)
Definition ACHIEVEMENT_BADGES : list (str * Z) :=
  [ (first_vote, 10); (voter_10, 50); (voter_50, 200);
    (offer_shared, 100); (verified_offer, 150); (top_contributor, 0) ].

(** [ACHIEVEMENT_BADGES[b]["points"]] for a key of the table. *)
Definition badge_points (b : str) : Z :=
  default 0 (assoc_get b ACHIEVEMENT_BADGES).

Definition fresh_achievement : achievement :=
  {| a_badges := []; a_points := 0; a_votes_cast := 0; a_offers_shared := 0 |}.

(** [badges.append(b); points += ACHIEVEMENT_BADGES[b]["points"]]. *)
Definition grant (b : str) (a : achievement) : achievement :=
  {| a_badges := a_badges a ++ [b];
     a_points := a_points a + badge_points b;
     a_votes_cast := a_votes_cast a;
     a_offers_shared := a_offers_shared a |}.

Definition has_badge (b : str) (a : achievement) : bool :=
  bool_decide (b ∈ a_badges a).

(** The block under [# Check vote badges]. *)
Definition check_vote_badges (a : achievement) : achievement :=
  let votes := a_votes_cast a in
  if (votes =? 1) && negb (has_badge first_vote a) then grant first_vote a
  else if (votes =? 10) && negb (has_badge voter_10 a) then grant voter_10 a
  else if (votes =? 50) && negb (has_badge voter_50 a) then grant voter_50 a
  else a.

(** The block under [# Check top contributor]. *)
Definition check_top_contributor (a : achievement) : achievement :=
  if (500 <=? a_points a) && negb (has_badge top_contributor a)
  then {| a_badges := a_badges a ++ [top_contributor]; a_points := a_points a;
          a_votes_cast := a_votes_cast a;
          a_offers_shared := a_offers_shared a |}
  else a.

(** The body of [award_user_points] on the user's record, after the record
    has been created when absent. *)
Definition award_on_record (points : Z) (action_type : str) (a : achievement)
  : achievement :=
  let a := {| a_badges := a_badges a; a_points := a_points a + points;
              a_votes_cast := a_votes_cast a;
              a_offers_shared := a_offers_shared a |} in
  let a :=
    if bool_decide (action_type = lit "vote") then
      check_vote_badges
        {| a_badges := a_badges a; a_points := a_points a;
           a_votes_cast := a_votes_cast a + 1;
           a_offers_shared := a_offers_shared a |}
    else if bool_decide (action_type = lit "offer") then
      let a := {| a_badges := a_badges a; a_points := a_points a;
                  a_votes_cast := a_votes_cast a;
                  a_offers_shared := a_offers_shared a + 1 |} in
      if negb (has_badge offer_shared a) then grant offer_shared a else a
    else a in
  check_top_contributor a.

(** [award_user_points(user_id, points, action_type)]. *)
Definition award_user_points (user_id : str) (points : Z) (action_type : str)
    (st : state) : state :=
  let a := default fresh_achievement (user_achievements st !! user_id) in
  set_user_achievements
    (<[user_id := award_on_record points action_type a]> (user_achievements st)) st.

(* ===================================================================== *)
(** ** Company votes *)
(* ===================================================================== *)

Definition already_voted_msg : str := lit "You already voted for this company today".

(** [company_votes[company_id]] after the [not in] guard. *)
Definition ensure_company_votes (company_id : str)
    (votes : gmap str (gmap str datetime)) : gmap str (gmap str datetime) :=
  match votes !! company_id with
  | None => <[company_id := ∅]> votes
  | Some _ => votes
  end.

(** [can_vote_for_company(user_id, company_id)]; [now] is its clock read. *)
Definition can_vote_for_company (st : state) (user_id company_id : str)
    (now : datetime) : state * (bool * str) :=
  let votes := ensure_company_votes company_id (company_votes st) in
  let st := set_company_votes votes st in
  let today_start := start_of_day now in
  if match default ∅ (votes !! company_id) !! user_id with
     | Some last_vote => dt_geb last_vote today_start
     | None => false
     end
  then (st, (false, already_voted_msg))
  else (st, (true, [])).

Inductive vote_response :=
| VoteLoginNeeded
| VoteOk (votes : Z)
| VoteDenied (message : str)
| VoteCompanyNotFound.

(** [api_vote_company(company_id)]. [now_check] is the clock read inside
    [can_vote_for_company], [now_stamp] the one that dates the vote. *)
Definition api_vote_company (st : state) (sess : session) (company_id : str)
    (now_check now_stamp : datetime) : state * vote_response :=
  match get_current_user st sess with
  | None => (st, VoteLoginNeeded)
  | Some user =>
      let user_id := u_user_id user in
      let '(st, (can_vote, msg)) := can_vote_for_company st user_id company_id now_check in
      if negb can_vote then (st, VoteDenied msg)
      else
        match find_by_id c_id company_id (dream_companies st) with
        | None => (st, VoteCompanyNotFound)
        | Some (i, c) =>
            let c' := Company (c_id c) (c_votes c + 1) in
            let st := set_dream_companies (<[i := c']> (dream_companies st)) st in
            let votes := ensure_company_votes company_id (company_votes st) in
            let votes :=
              <[company_id := <[user_id := now_stamp]> (default ∅ (votes !! company_id))]>
                votes in
            let st := set_company_votes votes st in
            let st := award_user_points user_id 5 (lit "vote") st in
            (st, VoteOk (c_votes c'))
        end
  end.

(* ===================================================================== *)
(** ** Favourites and post deletion *)
(* ===================================================================== *)

Inductive favorite_response :=
| FavLoginNeeded
| FavOk (favorited : bool).

(** [api_toggle_favorite(post_id)]. The decorator [login_required] rejects a
    session without ["user_id"]; [get_current_user] covers that test. *)
Definition api_toggle_favorite (st : state) (sess : session) (post_id : str)
  : state * favorite_response :=
  match get_current_user st sess with
  | None => (st, FavLoginNeeded)
  | Some user =>
      let uid := u_user_id user in
      let favs := default [] (user_favorites st !! uid) in
      if bool_decide (post_id ∈ favs) then
        (set_user_favorites
           (<[uid := list_remove_first post_id favs]> (user_favorites st)) st,
         FavOk false)
      else
        (set_user_favorites (<[uid := favs ++ [post_id]]> (user_favorites st)) st,
         FavOk true)
  end.

Inductive delete_response :=
| DeleteLoginNeeded
| DeleteNotOwner
| DeleteOk
| DeletePostNotFound.

(** [api_delete_post(post_id)]. As for [api_toggle_favorite], the refusal of
    [login_required] and that of [if not user] are one answer. *)
Definition api_delete_post (st : state) (sess : session) (post_id : str)
  : state * delete_response :=
  match get_current_user st sess with
  | None => (st, DeleteLoginNeeded)
  | Some user =>
      let uid := u_user_id user in
      match find_by_id p_id post_id (experience_posts st) with
      | None => (st, DeletePostNotFound)
      | Some (i, p) =>
          if bool_decide (p_author_id p ≠ Some uid) then (st, DeleteNotOwner)
          else
            let st := set_experience_posts (delete i (experience_posts st)) st in
            let st := set_user_favorites
                        (list_remove_first post_id <$> user_favorites st) st in
            (st, DeleteOk)
      end
  end.

(* ===================================================================== *)
(** ** Offer likes *)
(* ===================================================================== *)

Inductive offer_like_response :=
| OfferLoginNeeded
| OfferLikeOk (likes : Z)
| OfferNotFound.

(** [api_like_offer(offer_id)]; [login_required] and [if not user] refuse
    with one answer. *)
Definition api_like_offer (st : state) (sess : session) (offer_id : str)
  : state * offer_like_response :=
  match get_current_user st sess with
  | None => (st, OfferLoginNeeded)
  | Some _ =>
      match find_by_id o_id offer_id (offer_showcase st) with
      | None => (st, OfferNotFound)
      | Some (i, o) =>
          let likes := default 0 (o_likes o) + 1 in
          let o' := Offer (o_id o) (Some likes) in
          (set_offer_showcase (<[i := o']> (offer_showcase st)) st, OfferLikeOk likes)
      end
  end.

(* ===================================================================== *)
(** ** Private messages *)
(* ===================================================================== *)

(** [get_conversation_id(user1_id, user2_id)]. *)
Definition get_conversation_id (user1_id user2_id : str) : str :=
  join (lit "_") (sorted str_ltb [user1_id; user2_id]).

(** [sum(1 for m in messages if m['receiver_id'] == uid and not m.get('read', False))]. *)
Definition unread_for (uid : str) (messages : list message) : Z :=
  Z.of_nat (length (List.filter
    (λ m, bool_decide (m_receiver_id m = uid) && negb (default false (m_read m)))
    messages)).

(** Whether [uid in conv_id.split("_")]. *)
Definition takes_part (uid conv_id : str) : bool :=
  bool_decide (uid ∈ split_on underscore conv_id).

Inductive unread_response :=
| UnreadLoginNeeded
| UnreadCount (count : Z).

(** The loop of [api_messages_unread_count]. *)
Fixpoint total_unread (uid : str) (pm : list (str * list message)) : Z :=
  match pm with
  | [] => 0
  | (conv_id, messages) :: pm' =>
      (if takes_part uid conv_id then unread_for uid messages else 0)
      + total_unread uid pm'
  end.

(** [api_messages_unread_count()], with its [login_required] wrapper. *)
Definition api_messages_unread_count (st : state) (sess : session) : unread_response :=
  match s_user_id sess with
  | None => UnreadLoginNeeded
  | Some _ =>
      match get_current_user st sess with
      | None => UnreadCount 0
      | Some user => UnreadCount (total_unread (u_user_id user) (private_messages st))
      end
  end.

(** An entry of the list built by [api_get_conversations]. *)
Record conversation := Conversation {
  cv_id : str;
  cv_other_user_id : str;
  cv_other_user_name : str;
  cv_other_user_verified : bool;
  cv_last_message : str;
  cv_last_message_time : str;
  cv_unread_count : Z
}.

(** The user record reached through
    [next((email for email, u in users_db.items() if u.get('user_id') == other_id), None)];
    [None] stands for the empty dictionary. *)
Fixpoint user_by_id (other_id : str) (db : list (str * user)) : option user :=
  match db with
  | [] => None
  | (_, u) :: db' =>
      if bool_decide (u_user_id u = other_id) then Some u else user_by_id other_id db'
  end.

(** [content[:50] + ('...' if len(content) > 50 else '')]. *)
Definition preview (content : str) : str :=
  take 50 content ++ (if (50 <? length content)%nat then lit "..." else []).

(** The loop of [api_get_conversations]; [None] is the [IndexError] raised by
    [[u for u in conv_id.split("_") if u != uid][0]] on an empty list. *)
Fixpoint collect_conversations (db : list (str * user)) (uid : str)
    (pm : list (str * list message)) : option (list conversation) :=
  match pm with
  | [] => Some []
  | (conv_id, messages) :: pm' =>
      if takes_part uid conv_id then
        match last messages with
        | None => collect_conversations db uid pm'
        | Some last_msg =>
            match List.filter (λ u, negb (bool_decide (u = uid)))
                              (split_on underscore conv_id) with
            | [] => None
            | other_id :: _ =>
                let other_user := user_by_id other_id db in
                let entry :=
                  {| cv_id := conv_id;
                     cv_other_user_id := other_id;
                     cv_other_user_name :=
                       default (lit "User") (other_user ≫= u_name);
                     cv_other_user_verified :=
                       default false (other_user ≫= u_verified);
                     cv_last_message := preview (m_content last_msg);
                     cv_last_message_time := m_created_at last_msg;
                     cv_unread_count := unread_for uid messages |} in
                cons entry <$> collect_conversations db uid pm'
            end
        end
      else collect_conversations db uid pm'
  end.

Inductive conversations_response :=
| ConvLoginNeeded
| ConvList (success : bool) (conversations : list conversation)
| ConvIndexError.

(** [api_get_conversations()], with its [login_required] wrapper. The final
    [sort(key=last_message_time, reverse=True)] is the stable sort on the
    reversed comparison. *)
Definition api_get_conversations (st : state) (sess : session) : conversations_response :=
  match s_user_id sess with
  | None => ConvLoginNeeded
  | Some _ =>
      match get_current_user st sess with
      | None => ConvList false []
      | Some user =>
          match collect_conversations (users_db st) (u_user_id user)
                                      (private_messages st) with
          | None => ConvIndexError
          | Some cs =>
              ConvList true
                (sorted (λ x y, str_ltb (cv_last_message_time y) (cv_last_message_time x)) cs)
          end
      end
  end.

(* ===================================================================== *)
(** ** Post creation and the initial stores *)
(* ===================================================================== *)

Inductive create_response :=
| CreateRejected (message : str)
| CreateOk (p : post).

(** [api_create_post()], for the keys of the post that the handlers above
    use; [new_id] is [str(uuid.uuid4())[:8]]. *)
Definition api_create_post (st : state) (sess : session) (new_id title content : str)
  : state * create_response :=
  let user := get_current_user st sess in
  let '(ok, msg) := check_content_moderation (title ++ lit " " ++ content) in
  if negb ok then (st, CreateRejected (lit "Post rejected: " ++ msg))
  else
    let p := {| p_id := new_id;
                p_author_id := Some (from_option u_user_id (lit "anonymous") user);
                p_likes := 0;
                p_liked_by := Some [] |} in
    (set_experience_posts (p :: experience_posts st) st, CreateOk p).

Definition seed_post (id : string) (likes : Z) : post :=
  {| p_id := lit id; p_author_id := Some (lit "system");
     p_likes := likes; p_liked_by := Some [] |}.

(** The module-level literals of [app.py]. *)
Definition initial_state : state :=
  {| users_db := [];
     user_likes := ∅;
     company_votes := ∅;
     user_achievements :=
       list_to_map
         [ (lit "demo_user1", Achievement [first_vote; voter_10; voter_50; offer_shared; top_contributor] 850 65 3);
           (lit "demo_user2", Achievement [first_vote; voter_10; offer_shared; verified_offer] 520 35 2);
           (lit "demo_user3", Achievement [first_vote; voter_10; voter_50; top_contributor] 480 52 1);
           (lit "demo_user4", Achievement [first_vote; voter_10; offer_shared] 320 28 2);
           (lit "demo_user5", Achievement [first_vote; voter_10] 180 15 0);
           (lit "demo_user6", Achievement [first_vote; offer_shared] 160 8 1);
           (lit "demo_user7", Achievement [first_vote; voter_10] 140 12 0);
           (lit "demo_user8", Achievement [first_vote] 95 6 0);
           (lit "demo_user9", Achievement [first_vote; offer_shared] 120 5 1);
           (lit "demo_user10", Achievement [first_vote] 75 4 0) ];
     offer_showcase :=
       [ Offer (lit "offer1") (Some 45); Offer (lit "offer2") (Some 67);
         Offer (lit "offer3") (Some 38); Offer (lit "offer4") (Some 52);
         Offer (lit "offer5") (Some 28) ];
     user_favorites := ∅;
     private_messages := [];
     dream_companies :=
       [ Company (lit "google") 156; Company (lit "goldman") 134;
         Company (lit "mckinsey") 128; Company (lit "meta") 112;
         Company (lit "jpmorgan") 105; Company (lit "hsbc") 98;
         Company (lit "tencent") 95; Company (lit "bcg") 89;
         Company (lit "apple") 87; Company (lit "deloitte") 82 ];
     experience_posts :=
       [ seed_post "1" 42; seed_post "2" 67; seed_post "3" 35;
         seed_post "4" 89; seed_post "5" 28 ] |}.

(** The store effect of a successful [api_register()]: a new entry of
    [users_db]; [user_id] is [str(uuid.uuid4())[:8]]. *)
Definition register (email user_id : str) (st : state) : state :=
  State (users_db st ++ [(email, User user_id None (Some false))])
        (user_likes st) (company_votes st) (user_achievements st)
        (offer_showcase st) (user_favorites st) (private_messages st)
        (dream_companies st) (experience_posts st).

(** The session that [api_register()] and [api_login()] set up. *)
Definition session_of (email user_id : str) : session :=
  {| s_user_id := Some user_id; s_email := Some email |}.

(* ===================================================================== *)
(** ** Vocabulary of the statements *)
(* ===================================================================== *)

(** [w] is a substring of [t]. *)
Definition occurs (w t : str) : Prop := ∃ pre post, t = pre ++ w ++ post.

(** The session belongs to the registered user with ID [uid]. *)
Definition logged_in (st : state) (sess : session) (uid : str) : Prop :=
  ∃ user, get_current_user st sess = Some user ∧ u_user_id user = uid.

(** The like count [offer.get("likes", 0)] of the offer that
    [api_like_offer] finds for [offer_id]. *)
Definition offer_like_count (st : state) (offer_id : str) : option Z :=
  (λ io, default 0 (o_likes (snd io))) <$> find_by_id o_id offer_id (offer_showcase st).

(** [n] consecutive calls of [api_like_offer], with their answers in order. *)
Fixpoint like_offer_times (n : nat) (st : state) (sess : session) (offer_id : str)
  : state * list offer_like_response :=
  match n with
  | O => (st, [])
  | S n' =>
      let '(st1, r) := api_like_offer st sess offer_id in
      let '(st2, rs) := like_offer_times n' st1 sess offer_id in
      (st2, r :: rs)
  end.


(** The stores after a registration on the initial ones. *)
Definition campus : state :=
  register (lit "kim@link.cuhk.edu.hk") (lit "7c2e9b41") initial_state.

Definition kim : session := session_of (lit "kim@link.cuhk.edu.hk") (lit "7c2e9b41").

(** The achievement record of a user, or the record that
    [award_user_points] would create. *)
Definition achievement_of (uid : str) (st : state) : achievement :=
  default fresh_achievement (user_achievements st !! uid).

(** One [award_user_points(uid, p, "vote")] call for each [p] of [ps]. *)
Definition cast_votes (uid : str) (ps : list Z) (st : state) : state :=
  foldl (λ st p, award_user_points uid p (lit "vote") st) st ps.

Definition sum_Z (ps : list Z) : Z := foldr Z.add 0 ps.

(** The bonuses of a list of badges. *)
Definition sum_points (bs : list str) : Z := sum_Z (badge_points <$> bs).

(** The vote badges due after [n] votes. *)
Definition vote_badges_for (n : Z) : list str :=
  (if decide (1 ≤ n) then [first_vote] else [])
  ++ (if decide (10 ≤ n) then [voter_10] else [])
  ++ (if decide (50 ≤ n) then [voter_50] else []).

(** The badges of a record other than [top_contributor]. *)
Definition earned_badges (a : achievement) : list str :=
  filter (λ b, b ≠ top_contributor) (a_badges a).

(** What holds of a record that only [award_user_points(_, p, "vote")] calls
    with [0 <= p] have touched since its creation. *)
Definition vote_run_inv (a : achievement) : Prop :=
  0 ≤ a_votes_cast a
  ∧ earned_badges a = vote_badges_for (a_votes_cast a)
  ∧ (top_contributor ∈ a_badges a ↔ 500 ≤ a_points a)
  ∧ 0 ≤ a_points a.

(** The test of [can_vote_for_company]: the user has a vote for the company
    dated today. *)
Definition voted_today (st : state) (company_id user_id : str) (now : datetime) : bool :=
  match default ∅ (company_votes st !! company_id) !! user_id with
  | Some last_vote => dt_geb last_vote (start_of_day now)
  | None => false
  end.

(** [post.get("liked_by", [])]. *)
Definition liked_list (p : post) : list str := default [] (p_liked_by p).

(** By how much the like counter of a post exceeds the length of its
    [liked_by] list. *)
Definition like_surplus (p : post) : Z :=
  p_likes p - Z.of_nat (length (liked_list p)).

(** The first test of [can_like_post]: the user has a like of the post
    dated today. *)
Definition liked_today (st : state) (user_id post_id : str) (now : datetime) : bool :=
  match default ∅ (user_likes st !! user_id) !! post_id with
  | Some last_like => dt_geb last_like (start_of_day now)
  | None => false
  end.

(** The number [today_likes] of [can_like_post]. *)
Definition likes_today (st : state) (user_id : str) (now : datetime) : Z :=
  count_since (start_of_day now) (default ∅ (user_likes st !! user_id)).

(** One request to [api_like_post]: the session, the post ID and the two
    clock reads. *)
Record like_call := LikeCall {
  lc_session : session;
  lc_post_id : str;
  lc_now_check : datetime;
  lc_now_stamp : datetime
}.

Definition do_like (st : state) (c : like_call) : state * like_response :=
  api_like_post st (lc_session c) (lc_post_id c) (lc_now_check c) (lc_now_stamp c).

(** The stores after a sequence of [api_like_post] requests. *)
Definition run_like_calls (st : state) (calls : list like_call) : state :=
  foldl (λ st c, fst (do_like st c)) st calls.

(** 09:30 and 21:45 on one day, 00:05 on the next. *)
Definition morning : datetime := Datetime 739620 34200000000.
Definition evening : datetime := Datetime 739620 78300000000.
Definition next_day : datetime := Datetime 739621 300000000.

(** A post whose [liked_by] lists no user twice and whose like counter is at
    least the length of [liked_by]: every post literal of [app.py] and every
    post made by [api_create_post]. *)
Definition post_ok (p : post) : Prop :=
  NoDup (liked_list p) ∧ 0 ≤ like_surplus p.

(** [p'] is a later version of the post [p] with the same surplus. *)
Definition keeps_surplus (p p' : post) : Prop :=
  post_ok p' ∧ p_id p' = p_id p ∧ like_surplus p' = like_surplus p.

(** The stores after [kim] has published a post. *)
Definition campus_with_post : state :=
  fst (api_create_post campus kim (lit "a1b2c3d4") (lit "Mock interviews")
         (lit "Book the career centre early.")).

(** Three requests of [kim]: like seeded post 1, like the new post, take the
    like of post 1 back. *)
Definition kim_calls : list like_call :=
  [ LikeCall kim (lit "1") morning morning;
    LikeCall kim (lit "a1b2c3d4") morning morning;
    LikeCall kim (lit "1") evening evening ].

(** Whether a session belongs to the registered user with ID [uid]. *)
Definition is_user (st : state) (uid : str) (sess : session) : bool :=
  match get_current_user st sess with
  | Some user => bool_decide (u_user_id user = uid)
  | None => false
  end.

(** The answers to a sequence of [api_like_post] requests, in order. *)
Fixpoint like_responses (st : state) (calls : list like_call) : list like_response :=
  match calls with
  | [] => []
  | c :: calls' => snd (do_like st c) :: like_responses (fst (do_like st c)) calls'
  end.

(** The requests of a sequence that come from the user [uid]. *)
Definition calls_of (st : state) (uid : str) (calls : list like_call) : list like_call :=
  List.filter (λ c, is_user st uid (lc_session c)) calls.

(** [d[post_id] = stamp] for each request of a list, in order. *)
Definition stamp_all (calls : list like_call) (d : gmap str datetime) : gmap str datetime :=
  foldl (λ d c, <[lc_post_id c := lc_now_stamp c]> d) d calls.

(** Post IDs ["p0"], ["p1"], ... (one code point after the letter). *)
Definition post_no (n : nat) : str := lit "p" ++ [N.of_nat (48 + n)].

(** The stores after [kim] has published 51 posts. *)
Definition busy_campus : state :=
  foldl (λ st n, fst (api_create_post st kim (post_no n) (lit "Tip") (lit "Apply early.")))
        campus (seq 0 51).

(** [kim] likes the first 50 of them in one morning. *)
Definition fifty_likes : list like_call :=
  (λ n, LikeCall kim (post_no n) morning morning) <$> seq 0 50.

(** No favourites list names a post twice: true of the initial stores and
    kept by [api_toggle_favorite] and [api_delete_post]. *)
Definition favorites_ok (st : state) : Prop :=
  map_Forall (λ _ favs, NoDup favs) (user_favorites st).

(** The stores after [kim] has put the new post among the favourites. *)
Definition campus_with_favorite : state :=
  fst (api_toggle_favorite campus_with_post kim (lit "a1b2c3d4")).

(* ===================================================================== *)
(** ** Notifications *)
(* ===================================================================== *)

(** An element of a list of [user_notifications]. *)
Record notification := Notification {
  n_id : str;
  n_type : str;
  n_content : str;
  n_source_user : str;
  n_post_id : option str;
  n_read : option bool;
  n_created_at : datetime
}.

(** [add_notification(user_id, notif_type, content, source_user_id, post_id)]
    on the store [user_notifications]; [new_id] is [str(uuid.uuid4())[:8]]
    and [now] the clock read. *)
Definition add_notification (user_id notif_type content source_user_id : str)
    (post_id : option str) (new_id : str) (now : datetime)
    (notifs : gmap str (list notification)) : gmap str (list notification) :=
  let notif := {| n_id := new_id; n_type := notif_type; n_content := content;
                  n_source_user := source_user_id; n_post_id := post_id;
                  n_read := Some false; n_created_at := now |} in
  <[user_id := take 100 (notif :: default [] (notifs !! user_id))]> notifs.

(** [sum(1 for n in notifs if not n.get("read"))]. *)
Definition unread_notifications (l : list notification) : Z :=
  Z.of_nat (length (List.filter (λ n, negb (default false (n_read n))) l)).

Inductive notifications_response :=
| NotifLoginNeeded
| NotifList (success : bool) (notifications : list notification) (unread_count : Z).

(** [api_get_notifications()], with its [login_required] wrapper. *)
Definition api_get_notifications (st : state) (notifs : gmap str (list notification))
    (sess : session) : notifications_response :=
  match s_user_id sess with
  | None => NotifLoginNeeded
  | Some _ =>
      match get_current_user st sess with
      | None => NotifList false [] 0
      | Some user =>
          let l := default [] (notifs !! u_user_id user) in
          NotifList true (take 50 l) (unread_notifications l)
      end
  end.

Definition mark_read (n : notification) : notification :=
  {| n_id := n_id n; n_type := n_type n; n_content := n_content n;
     n_source_user := n_source_user n; n_post_id := n_post_id n;
     n_read := Some true; n_created_at := n_created_at n |}.

(** The loop body of [api_mark_notifications_read]:
    [if not notif_ids or notif["id"] in notif_ids: notif["read"] = True]. *)
Definition mark_if_listed (notif_ids : list str) (n : notification) : notification :=
  if bool_decide (notif_ids = []) || bool_decide (n_id n ∈ notif_ids)
  then mark_read n else n.

Inductive mark_response :=
| MarkLoginNeeded
| MarkDone (success : bool).

(** [api_mark_notifications_read()], with its [login_required] wrapper;
    [notif_ids] is [data.get("ids", [])]. *)
Definition api_mark_notifications_read (st : state)
    (notifs : gmap str (list notification)) (sess : session) (notif_ids : list str)
  : gmap str (list notification) * mark_response :=
  match s_user_id sess with
  | None => (notifs, MarkLoginNeeded)
  | Some _ =>
      match get_current_user st sess with
      | None => (notifs, MarkDone false)
      | Some user =>
          let uid := u_user_id user in
          match notifs !! uid with
          | None => (notifs, MarkDone true)
          | Some l => (<[uid := mark_if_listed notif_ids <$> l]> notifs, MarkDone true)
          end
      end
  end.

(** A sequence of [add_notification] calls, as their arguments. *)
Record notify_call := NotifyCall {
  nc_user_id : str;
  nc_type : str;
  nc_content : str;
  nc_source : str;
  nc_post_id : option str;
  nc_new_id : str;
  nc_now : datetime
}.

Definition run_notify (notifs : gmap str (list notification)) (calls : list notify_call)
  : gmap str (list notification) :=
  foldl (λ ns c, add_notification (nc_user_id c) (nc_type c) (nc_content c)
                   (nc_source c) (nc_post_id c) (nc_new_id c) (nc_now c) ns)
        notifs calls.

(** A like notification for [kim], and 120 of them in a row. *)
Definition ping (n : nat) : notify_call :=
  NotifyCall (lit "7c2e9b41") (lit "comment") (lit "New comment on your post")
             (lit "3f9a1c07") (Some (lit "a1b2c3d4")) (post_no n) morning.

Definition many_pings : list notify_call := ping <$> seq 0 120.

(* ===================================================================== *)
(** ** Custom tags *)
(* ===================================================================== *)

(** The character class [[a-zA-Z0-9一-龥]]. *)
Definition is_tag_char (c : N) : bool :=
  ((97 <=? c) && (c <=? 122) || (65 <=? c) && (c <=? 90)
   || (48 <=? c) && (c <=? 57) || (19968 <=? c) && (c <=? 40869))%N.

Definition newline : N := 10%N.

(** [re.match(r'^[a-zA-Z0-9一-龥]+$', s)]: one or more characters
    of the class up to the end of the string, where [$] also matches just
    before a newline that ends the string. *)
Fixpoint tag_pattern_matches (s : str) : bool :=
  match s with
  | [] => false
  | c :: s' =>
      is_tag_char c &&
      match s' with
      | [] => true
      | [c'] => (c' =? newline)%N || tag_pattern_matches s'
      | _ => tag_pattern_matches s'
      end
  end.

Definition tag_length_msg : str := lit "Tag must be 2-10 characters".
Definition tag_chars_msg : str := lit "Tag can only contain Chinese, English, or numbers".

(** [validate_custom_tag(tag)]. *)
Definition validate_custom_tag (tag : str) : bool * str :=
  if bool_decide (tag = []) || (length tag <? 2)%nat || (10 <? length tag)%nat
  then (false, tag_length_msg)
  else if negb (tag_pattern_matches tag) then (false, tag_chars_msg)
  else (true, []).

(* ===================================================================== *)
(** ** Dream-job votes on posts *)
(* ===================================================================== *)

(** An element of [experience_posts], for the keys that [api_vote_post]
    uses. *)
Record dream_post := DreamPost {
  dp_id : str;
  dp_is_dream_job : option bool;
  dp_votes : option Z;
  dp_voted_by : option (list str)
}.

Inductive vote_post_response :=
| VotePostLoginNeeded
| VotePostNotDream
| VotePostAlready
| VotePostOk (votes : Z)
| VotePostNotFound.

(** [api_vote_post(post_id)] on the posts [posts]. *)
Definition api_vote_post (st : state) (posts : list dream_post) (sess : session)
    (post_id : str) : list dream_post * vote_post_response :=
  match get_current_user st sess with
  | None => (posts, VotePostLoginNeeded)
  | Some user =>
      let user_id := u_user_id user in
      match find_by_id dp_id post_id posts with
      | None => (posts, VotePostNotFound)
      | Some (i, p) =>
          if negb (default false (dp_is_dream_job p)) then (posts, VotePostNotDream)
          else if bool_decide (user_id ∈ default [] (dp_voted_by p))
          then (posts, VotePostAlready)
          else
            let votes := default 0 (dp_votes p) + 1 in
            let p' := DreamPost (dp_id p) (dp_is_dream_job p) (Some votes)
                                (Some (default [] (dp_voted_by p) ++ [user_id])) in
            (<[i := p']> posts, VotePostOk votes)
      end
  end.

(** One request to [api_vote_post]. *)
Record vote_post_call := VotePostCall { vc_session : session; vc_post_id : str }.

Definition run_vote_posts (st : state) (posts : list dream_post)
    (calls : list vote_post_call) : list dream_post :=
  foldl (λ ps c, fst (api_vote_post st ps (vc_session c) (vc_post_id c))) posts calls.

(** Two dream-job posts and an ordinary one. *)
Definition dream_board : list dream_post :=
  [ DreamPost (lit "d1") (Some true) (Some 0) (Some []);
    DreamPost (lit "1") (Some false) (Some 0) (Some []);
    DreamPost (lit "d2") (Some true) (Some 3) (Some [lit "3f9a1c07"]) ].

(** [post.get("voted_by", [])] and [post.get("votes", 0)]. *)
Definition voted_list (p : dream_post) : list str := default [] (dp_voted_by p).
Definition vote_count (p : dream_post) : Z := default 0 (dp_votes p).

(** [p'] is a later version of the post [p] under [api_vote_post]. *)
Definition vote_post_later (p p' : dream_post) : Prop :=
  dp_id p' = dp_id p
  ∧ dp_is_dream_job p' = dp_is_dream_job p
  ∧ (∃ more, voted_list p' = voted_list p ++ more
             ∧ vote_count p' = vote_count p + Z.of_nat (length more)
             ∧ (NoDup (voted_list p) → NoDup (voted_list p')))
  ∧ (default false (dp_is_dream_job p) = false → p' = p).

(* ===================================================================== *)
(** ** Sending and reading private messages *)
(* ===================================================================== *)

(** The characters that [str.strip()] removes ([str.isspace]). *)
Definition is_space (c : N) : bool :=
  ((9 <=? c) && (c <=? 13) || (28 <=? c) && (c <=? 32)
   || (c =? 133) || (c =? 160) || (c =? 5760)
   || (8192 <=? c) && (c <=? 8202)
   || (c =? 8232) || (c =? 8233) || (c =? 8239) || (c =? 8287) || (c =? 12288))%N.

(** [s.lstrip()] and [s.strip()]. *)
Fixpoint lstrip (s : str) : str :=
  match s with
  | [] => []
  | c :: s' => if is_space c then lstrip s' else s
  end.

Definition strip (s : str) : str := reverse (lstrip (reverse (lstrip s))).

(** [d[k] = v] on an insertion-ordered dictionary: a key that is present
    keeps its place, a new key goes to the end. *)
Fixpoint assoc_set {V} (k : str) (v : V) (d : list (str * V)) : list (str * V) :=
  match d with
  | [] => [(k, v)]
  | (k', v') :: d' =>
      if bool_decide (k' = k) then (k, v) :: d' else (k', v') :: assoc_set k v d'
  end.

Definition set_private_messages (v : list (str * list message)) (st : state) : state :=
  State (users_db st) (user_likes st) (company_votes st) (user_achievements st)
        (offer_showcase st) (user_favorites st) v
        (dream_companies st) (experience_posts st).

(** The store [user_settings]: for each user with an entry, the truth value
    of the ["receive_messages"] key or [None] when the entry lacks the key. *)
Definition receives_messages (settings : gmap str (option bool)) (user_id : str) : bool :=
  default true (settings !! user_id ≫= id).

Inductive settings_response :=
| SettingsLoginNeeded
| SettingsFailed
| SettingsOk (receive_messages : option bool).

(** [api_user_settings()] for a GET request: the stored entry, or
    [{"receive_messages": True}] for a user without one. *)
Definition api_user_settings_get (st : state) (settings : gmap str (option bool))
    (sess : session) : settings_response :=
  match s_user_id sess with
  | None => SettingsLoginNeeded
  | Some _ =>
      match get_current_user st sess with
      | None => SettingsFailed
      | Some user => SettingsOk (default (Some true) (settings !! u_user_id user))
      end
  end.

(** [api_user_settings()] for a POST request; [data] is the truth value of
    [data['receive_messages']], or [None] when the request lacks the key. *)
Definition api_user_settings_post (st : state) (settings : gmap str (option bool))
    (sess : session) (data : option bool)
  : gmap str (option bool) * settings_response :=
  match s_user_id sess with
  | None => (settings, SettingsLoginNeeded)
  | Some _ =>
      match get_current_user st sess with
      | None => (settings, SettingsFailed)
      | Some user =>
          let uid := u_user_id user in
          let entry := default None (settings !! uid) in
          let entry := match data with Some b => Some b | None => entry end in
          (<[uid := entry]> settings, SettingsOk entry)
      end
  end.

Inductive send_response :=
| SendLoginNeeded
| SendRefused (message : str)
| SendOk (m : message).

Definition messages_disabled_msg : str := lit "This user has disabled private messages".
Definition message_empty_msg : str := lit "Message cannot be empty".
Definition message_too_long_msg : str := lit "Message too long (max 1000 characters)".

(** [api_send_message(other_user_id)], with its [login_required] wrapper.
    [raw_content] is [data.get('content', '')]; [new_id] and [notif_id] are
    the two [str(uuid.uuid4())[:8]]; [created_at] is
    [datetime.now().strftime("%Y-%m-%d %H:%M")] and [now] the later clock
    read of [add_notification]. *)
Definition api_send_message (st : state) (settings : gmap str (option bool))
    (notifs : gmap str (list notification)) (sess : session)
    (other_user_id raw_content new_id created_at notif_id : str) (now : datetime)
  : state * gmap str (list notification) * send_response :=
  match s_user_id sess with
  | None => (st, notifs, SendLoginNeeded)
  | Some _ =>
      match get_current_user st sess with
      | None => (st, notifs, SendRefused (lit "Please login to send messages"))
      | Some user =>
          let uid := u_user_id user in
          if negb (receives_messages settings other_user_id)
          then (st, notifs, SendRefused messages_disabled_msg)
          else
            let content := strip raw_content in
            if bool_decide (content = []) then (st, notifs, SendRefused message_empty_msg)
            else if (1000 <? length content)%nat
            then (st, notifs, SendRefused message_too_long_msg)
            else
              let '(ok, msg) := check_content_moderation content in
              if negb ok
              then (st, notifs, SendRefused (lit "Message rejected: " ++ msg))
              else
                let conv_id := get_conversation_id uid other_user_id in
                let message :=
                  {| m_id := new_id; m_sender_id := uid;
                     m_receiver_id := other_user_id; m_content := content;
                     m_read := Some false; m_created_at := created_at |} in
                let messages := default [] (assoc_get conv_id (private_messages st)) in
                let st := set_private_messages
                            (assoc_set conv_id (messages ++ [message])
                                       (private_messages st)) st in
                let sender_name := default (lit "Someone") (u_name user) in
                let notifs :=
                  add_notification other_user_id (lit "message")
                    (lit "New message from " ++ sender_name ++ lit ": "
                       ++ take 30 content ++ lit "...")
                    uid None notif_id now notifs in
                (st, notifs, SendOk message)
      end
  end.

(** [msg['read'] = True] for a message received by [uid]. *)
Definition read_by (uid : str) (m : message) : message :=
  if bool_decide (m_receiver_id m = uid)
  then {| m_id := m_id m; m_sender_id := m_sender_id m;
          m_receiver_id := m_receiver_id m; m_content := m_content m;
          m_read := Some true; m_created_at := m_created_at m |}
  else m.

Inductive messages_response :=
| MessagesLoginNeeded
| MessagesFailed
| MessagesOk (messages : list message) (other_id other_name : str) (other_verified : bool).

(** [api_get_messages(other_user_id)], with its [login_required] wrapper.
    The messages of the conversation are marked in the store. *)
Definition api_get_messages (st : state) (sess : session) (other_user_id : str)
  : state * messages_response :=
  match s_user_id sess with
  | None => (st, MessagesLoginNeeded)
  | Some _ =>
      match get_current_user st sess with
      | None => (st, MessagesFailed)
      | Some user =>
          let uid := u_user_id user in
          let conv_id := get_conversation_id uid other_user_id in
          let other_user := user_by_id other_user_id (users_db st) in
          let other_name := default (lit "User") (other_user ≫= u_name) in
          let other_verified := default false (other_user ≫= u_verified) in
          match assoc_get conv_id (private_messages st) with
          | None => (st, MessagesOk [] other_user_id other_name other_verified)
          | Some messages =>
              let messages := read_by uid <$> messages in
              (set_private_messages
                 (assoc_set conv_id messages (private_messages st)) st,
               MessagesOk messages other_user_id other_name other_verified)
          end
      end
  end.

(** The stores after a second registration, and that user's session. *)
Definition two_users : state :=
  register (lit "lee@connect.ust.hk") (lit "3f9a1c07") campus.

Definition lee : session := session_of (lit "lee@connect.ust.hk") (lit "3f9a1c07").

(** The stores after [kim] has written to [lee]. *)
Definition after_hello : state * gmap str (list notification) * send_response :=
  api_send_message two_users ∅ ∅ kim (lit "3f9a1c07") (lit "  Hello Lee ")
    (lit "5b0d77e2") (lit "2026-01-15 09:30") (lit "9a8b7c6d") morning.

(** The message of [after_hello], as stored. *)
Definition hello : message :=
  Message (lit "5b0d77e2") (lit "7c2e9b41") (lit "3f9a1c07") (lit "Hello Lee")
          (Some false) (lit "2026-01-15 09:30").

(** The stores after [kim] has written a note to the own account. *)
Definition after_note : state :=
  (api_send_message two_users ∅ ∅ kim (lit "7c2e9b41") (lit "Remember the deadline")
     (lit "6c1e88f3") (lit "2026-01-15 10:00") (lit "1b2c3d4e") morning).1.1.

(* ===================================================================== *)
(** ** The company ranking *)
(* ===================================================================== *)

(** [company["id"] in company_votes and user_id in company_votes[company["id"]]]. *)
Definition has_vote_record (st : state) (company_id user_id : str) : bool :=
  match company_votes st !! company_id with
  | Some d => bool_decide (is_Some (d !! user_id))
  | None => false
  end.

(** [api_dream_companies()]: the companies by votes, highest first, each
    with its [user_voted] flag. *)
Definition api_dream_companies (st : state) (sess : session) : list (company * bool) :=
  let companies := sorted (λ x y, c_votes y <? c_votes x) (dream_companies st) in
  match get_current_user st sess with
  | Some user => (λ c, (c, has_vote_record st (c_id c) (u_user_id user))) <$> companies
  | None => (λ c, (c, false)) <$> companies
  end.

(** [sum(c["votes"] for c in dream_companies)] of [api_dream_jobs_stats]. *)
Definition total_votes (st : state) : Z := sum_Z (c_votes <$> dream_companies st).

(* ===================================================================== *)
(** ** Offers *)
(* ===================================================================== *)

(** One [award_user_points(uid, p, "offer")] call for each [p] of [ps]. *)
Definition share_offers (uid : str) (ps : list Z) (st : state) : state :=
  foldl (λ st p, award_user_points uid p (lit "offer") st) st ps.

Inductive submit_response :=
| SubmitLoginNeeded
| SubmitRefused (message : str)
| SubmitOk (o : offer).

Definition offer_fields_msg : str := lit "Company and position are required".

(** [api_submit_offer()], for the keys of the offer that [api_like_offer]
    uses; [company], [position] and [salary] are the values of
    [data.get(..., "")] and [new_id] is [str(uuid.uuid4())[:8]]. The
    decorator [login_required] and [if not user] refuse with one answer. *)
Definition api_submit_offer (st : state) (sess : session)
    (company position salary new_id : str) : state * submit_response :=
  match get_current_user st sess with
  | None => (st, SubmitLoginNeeded)
  | Some user =>
      let company := strip company in
      let position := strip position in
      let salary := strip salary in
      if bool_decide (company = []) || bool_decide (position = [])
      then (st, SubmitRefused offer_fields_msg)
      else
        let '(is_valid, msg) :=
          check_content_moderation (company ++ lit " " ++ position ++ lit " " ++ salary) in
        if negb is_valid then (st, SubmitRefused msg)
        else
          let uid := u_user_id user in
          let new_offer := {| o_id := new_id; o_likes := Some 0 |} in
          let st := set_offer_showcase (new_offer :: offer_showcase st) st in
          let st := award_user_points uid 50 (lit "offer") st in
          let st :=
            if default false (u_verified user)
               && negb (bool_decide
                          (verified_offer
                             ∈ default [] (a_badges <$> user_achievements st !! uid)))
            then
              let a := achievement_of uid st in
              set_user_achievements
                (<[uid := {| a_badges := a_badges a ++ [verified_offer];
                             a_points := a_points a + badge_points verified_offer;
                             a_votes_cast := a_votes_cast a;
                             a_offers_shared := a_offers_shared a |}]>
                   (user_achievements st)) st
            else st in
          (st, SubmitOk new_offer)
  end.

(** What holds of a record that only [award_user_points(_, p, "offer")]
    calls have touched since its creation. *)
Definition offer_run_inv (a : achievement) : Prop :=
  0 ≤ a_offers_shared a
  ∧ a_votes_cast a = 0
  ∧ earned_badges a = (if decide (1 ≤ a_offers_shared a) then [offer_shared] else []).

(** A verified graduate with 300 points, registered and logged in. *)
Definition alumni : state :=
  State (users_db campus ++ [(lit "may@alumni.hku.hk", User (lit "e5f60718") None (Some true))])
        (user_likes campus) (company_votes campus)
        (<[lit "e5f60718" := Achievement [first_vote; voter_10; voter_50] 300 50 0]>
           (user_achievements campus))
        (offer_showcase campus) (user_favorites campus) (private_messages campus)
        (dream_companies campus) (experience_posts campus).

Definition may : session := session_of (lit "may@alumni.hku.hk") (lit "e5f60718").

(* ===================================================================== *)
(** ** Listing favourites *)
(* ===================================================================== *)

Inductive favorites_response :=
| FavListLoginNeeded
| FavList (success : bool) (posts : list (post * bool)).

(** [api_get_favorites()], with its [login_required] wrapper: the posts
    whose ID is among the user's favourites, each with its [user_liked]
    flag ([user_favorited] is [True] on all of them). *)
Definition api_get_favorites (st : state) (sess : session) : favorites_response :=
  match s_user_id sess with
  | None => FavListLoginNeeded
  | Some _ =>
      match get_current_user st sess with
      | None => FavList false []
      | Some user =>
          let uid := u_user_id user in
          let fav_ids := default [] (user_favorites st !! uid) in
          let fav_posts :=
            List.filter (λ p, bool_decide (p_id p ∈ fav_ids)) (experience_posts st) in
          FavList true ((λ p, (p, bool_decide (uid ∈ liked_list p))) <$> fav_posts)
      end
  end.

(** The posts of an [api_get_favorites] answer. *)
Definition listed_posts (r : favorites_response) : list post :=
  match r with
  | FavListLoginNeeded => []
  | FavList _ posts => posts.*1
  end.

(* ===================================================================== *)
(** ** Account IDs *)
(* ===================================================================== *)






(* ===================================================================== *)
(** * Properties *)
(* ===================================================================== *)

(** ** Strings *)

Lemma starts_with_spec (w t : str) :
  starts_with w t = true ↔ ∃ post, t = w ++ post.
Proof.
  revert t. induction w as [|a w IH]; intros t; simpl.
  - split; [eauto | done].
  - destruct t as [|b t].
    + split; [done | intros [post H]; discriminate H].
    + rewrite andb_true_iff, N.eqb_eq, IH. split.
      * intros [-> [post ->]]. eauto.
      * intros [post H]. injection H as -> ->. eauto.
Qed.

Lemma str_in_spec (w t : str) : str_in w t = true ↔ occurs w t.
Proof.
  unfold occurs. induction t as [|b t IH]; simpl.
  - rewrite orb_false_r, starts_with_spec. split.
    + intros [post H]. exists [], post. done.
    + intros (pre & post & H). destruct pre; [|discriminate H]. eauto.
  - rewrite orb_true_iff, starts_with_spec, IH. split.
    + intros [[post H] | (pre & post & ->)].
      * exists [], post. done.
      * exists (b :: pre), post. done.
    + intros (pre & post & H). destruct pre as [|x pre]; simpl in H.
      * left. eauto.
      * right. injection H as _ ->. eauto.
Qed.

Lemma moderation_scan_spec (words : list str) (text : str) :
  (∃ before w after,
      words = before ++ w :: after ∧ occurs w text ∧
      Forall (λ v, ¬ occurs v text) before ∧
      moderation_scan words text = (false, prohibited_prefix ++ w))
  ∨ (Forall (λ v, ¬ occurs v text) words ∧ moderation_scan words text = (true, [])).
Proof.
  induction words as [|w words IH]; simpl.
  - right. split; [constructor | done].
  - destruct (str_in w text) eqn:E.
    + left. exists [], w, words. apply str_in_spec in E. repeat split; done.
    + assert (¬ occurs w text) as Hw.
      { rewrite <- str_in_spec. congruence. }
      destruct IH as [(before & v & after & -> & Hv & Hb & Hs) | [Hall Hs]].
      * left. exists (w :: before), v, after. repeat split; try done.
        by constructor.
      * right. split; [by constructor | done].
Qed.

(** C6. The moderation check rejects a text exactly when some word of
    [PROHIBITED_WORDS] occurs in it as a code-point-exact substring; a
    rejection names the first such word in the order of the list, an
    acceptance returns [(True, "")]. The check is a function of the text
    alone: it reads and writes no store. *)
Theorem check_content_moderation_first_match (text : str) :
  (fst (check_content_moderation text) = false
     ↔ ∃ w, w ∈ PROHIBITED_WORDS ∧ occurs w text)
  ∧ ((∃ before w after,
        PROHIBITED_WORDS = before ++ w :: after ∧ occurs w text ∧
        Forall (λ v, ¬ occurs v text) before ∧
        check_content_moderation text = (false, prohibited_prefix ++ w))
     ∨ (Forall (λ v, ¬ occurs v text) PROHIBITED_WORDS ∧
        check_content_moderation text = (true, []))).
Proof.
  unfold check_content_moderation.
  pose proof (moderation_scan_spec PROHIBITED_WORDS text) as H.
  split; [|exact H].
  destruct H as [(before & w & after & Hw & Ho & _ & ->) | [Hall ->]]; simpl.
  - split; [|done]. intros _. exists w. split; [|done].
    rewrite Hw. apply elem_of_app. right. apply list_elem_of_here.
  - split; [done|]. intros (w & Hin & Ho).
    rewrite Forall_forall in Hall. by destruct (Hall w Hin).
Qed.

(** The scenario of the specification: "请找人代写论文" is rejected citing
    "代写", "正常内容" passes. *)
Example moderation_scenario :
  check_content_moderation [35831; 25214; 20154; 20195; 20889; 35770; 25991]%N
    = (false, prohibited_prefix ++ [20195; 20889]%N)
  ∧ check_content_moderation [27491; 24120; 20869; 23481]%N = (true, []).
Proof. split; reflexivity. Qed.

Lemma str_ltb_irrefl (a : str) : str_ltb a a = false.
Proof.
  induction a as [|x a IH]; simpl; [done|].
  rewrite N.ltb_irrefl, N.eqb_refl, IH. done.
Qed.

Lemma str_ltb_asym (a b : str) : str_ltb a b = true → str_ltb b a = false.
Proof.
  revert b. induction a as [|x a IH]; intros [|y b]; simpl; try done.
  rewrite orb_true_iff, andb_true_iff, N.ltb_lt, N.eqb_eq.
  intros [Hlt | [-> Hab]].
  - apply orb_false_iff. split.
    + apply N.ltb_ge. lia.
    + apply andb_false_iff. left. apply N.eqb_neq. lia.
  - rewrite N.ltb_irrefl, N.eqb_refl. simpl. by apply IH.
Qed.

Lemma str_ltb_total (a b : str) :
  str_ltb a b = false → str_ltb b a = false → a = b.
Proof.
  revert b. induction a as [|x a IH]; intros [|y b]; simpl; try done.
  rewrite !orb_false_iff, !andb_false_iff, !N.ltb_ge, !N.eqb_neq.
  intros [H1 H1'] [H2 H2'].
  assert (x = y) as -> by lia. f_equal.
  apply IH; [destruct H1' | destruct H2']; done.
Qed.

(** C7. The conversation key does not depend on the order of the two user
    IDs: it is the smaller ID (in Python's string order), an underscore, and
    the larger one. *)
Theorem get_conversation_id_sym (a b : str) :
  get_conversation_id a b = get_conversation_id b a
  ∧ get_conversation_id a b
      = (if str_ltb b a then b ++ lit "_" ++ a else a ++ lit "_" ++ b).
Proof.
  unfold get_conversation_id, sorted. simpl.
  destruct (str_ltb b a) eqn:Hba, (str_ltb a b) eqn:Hab; simpl; split; try done.
  - apply str_ltb_asym in Hba. congruence.
  - by rewrite (str_ltb_total a b).
Qed.

(** ** Conversations *)





(** ** Offer likes *)

Lemma find_by_id_insert_same {A} (id_of : A → str) (k : str) (xs : list A) i x x' :
  find_by_id id_of k xs = Some (i, x) →
  id_of x' = k →
  find_by_id id_of k (<[i := x']> xs) = Some (i, x').
Proof.
  unfold find_by_id. intros (Hi & Hx & Hlt)%list_find_Some Hx'.
  apply list_find_Some. split_and!.
  - apply list_lookup_insert_eq. by eapply lookup_lt_Some.
  - done.
  - intros j y Hj Hji. rewrite list_lookup_insert_ne in Hj by lia. eauto.
Qed.

Lemma api_like_offer_step (st : state) (sess : session) (offer_id : str) (k : Z) :
  is_Some (get_current_user st sess) →
  offer_like_count st offer_id = Some k →
  ∃ st', api_like_offer st sess offer_id = (st', OfferLikeOk (k + 1))
         ∧ offer_like_count st' offer_id = Some (k + 1)
         ∧ users_db st' = users_db st.
Proof.
  intros [u Hu] Hk. unfold api_like_offer, offer_like_count in *. rewrite Hu.
  destruct (find_by_id o_id offer_id (offer_showcase st)) as [[i o]|] eqn:Hf;
    [|done].
  simpl in Hk. injection Hk as <-.
  eexists. split; [done|]. simpl. split; [|done].
  erewrite find_by_id_insert_same; [done|exact Hf|].
  simpl. unfold find_by_id in Hf. by apply list_find_Some in Hf as (_ & ? & _).
Qed.

(** C10. [api_like_offer] looks at the session only to require a login: for
    a logged-in user and an offer that exists, every call answers with the
    count raised by one and stores it, so [n] calls in a row raise the count
    by [n]; the new store does not depend on which logged-in user called. *)
Theorem api_like_offer_counts_every_call
    (n : nat) (st : state) (sess : session) (offer_id : str) (k : Z) :
  is_Some (get_current_user st sess) →
  offer_like_count st offer_id = Some k →
  offer_like_count (fst (like_offer_times n st sess offer_id)) offer_id
    = Some (k + Z.of_nat n)
  ∧ snd (like_offer_times n st sess offer_id)
    = (λ j, OfferLikeOk (k + Z.of_nat j)) <$> seq 1 n
  ∧ (∀ sess', is_Some (get_current_user st sess') →
       api_like_offer st sess' offer_id = api_like_offer st sess offer_id).
Proof.
  intros Hu Hk. split_and!.
  - revert st k Hu Hk. induction n as [|n IH]; intros st k Hu Hk.
    + simpl. rewrite Hk. f_equal. lia.
    + simpl. destruct (api_like_offer_step st sess offer_id k Hu Hk)
        as (st' & -> & Hk' & Hdb).
      assert (is_Some (get_current_user st' sess)) as Hu'.
      { unfold get_current_user in *. by rewrite Hdb. }
      specialize (IH st' (k + 1) Hu' Hk').
      destruct (like_offer_times n st' sess offer_id) as [st2 rs]. simpl in *.
      rewrite IH. f_equal. lia.
  - revert st k Hu Hk. induction n as [|n IH]; intros st k Hu Hk; [done|].
    simpl. destruct (api_like_offer_step st sess offer_id k Hu Hk)
      as (st' & -> & Hk' & Hdb).
    assert (is_Some (get_current_user st' sess)) as Hu'.
    { unfold get_current_user in *. by rewrite Hdb. }
    specialize (IH st' (k + 1) Hu' Hk').
    destruct (like_offer_times n st' sess offer_id) as [st2 rs]. simpl in *.
    rewrite IH. cbn [seq fmap list_fmap].
    rewrite <- (fmap_S_seq 1), <- list_fmap_compose. f_equal.
    apply list_fmap_ext. intros _ j _. simpl. f_equal. lia.
  - intros sess' [u' Hu']. destruct Hu as [u Hu].
    unfold api_like_offer. by rewrite Hu, Hu'.
Qed.

Lemma api_like_offer_counts_every_call_witness :
  offer_like_count (fst (like_offer_times 3 campus kim (lit "offer1"))) (lit "offer1")
    = Some 48
  ∧ snd (like_offer_times 3 campus kim (lit "offer1"))
    = [OfferLikeOk 46; OfferLikeOk 47; OfferLikeOk 48].
Proof.
  assert (is_Some (get_current_user campus kim)) as Hu by (eexists; reflexivity).
  assert (offer_like_count campus (lit "offer1") = Some 45) as Hk by reflexivity.
  destruct (api_like_offer_counts_every_call 3 campus kim (lit "offer1") 45 Hu Hk)
    as (H1 & H2 & _).
  split; [exact H1 | exact H2].
Defined.

(** ** Points and badges *)

Lemma NoDup_snoc_fresh (b : str) (l : list str) :
  b ∉ l → NoDup l → NoDup (l ++ [b]).
Proof.
  intros Hb Hnd. apply NoDup_app. split_and!; [done | | apply NoDup_singleton].
  intros x Hx Hx'. apply list_elem_of_singleton in Hx'. by subst.
Qed.

(** What one block may do to a record: append badges that were absent and
    add their bonuses. *)
Lemma grows_refl (a : achievement) :
  ∃ new, a_badges a = a_badges a ++ new
         ∧ a_points a = a_points a + sum_points new
         ∧ a_votes_cast a = a_votes_cast a
         ∧ (NoDup (a_badges a) → NoDup (a_badges a)).
Proof. exists []. rewrite app_nil_r. split_and!; [done | cbn; lia | done | done]. Qed.

Lemma grows_grant (b : str) (a : achievement) :
  has_badge b a = false →
  ∃ new, a_badges (grant b a) = a_badges a ++ new
         ∧ a_points (grant b a) = a_points a + sum_points new
         ∧ a_votes_cast (grant b a) = a_votes_cast a
         ∧ (NoDup (a_badges a) → NoDup (a_badges (grant b a))).
Proof.
  intros Hb. apply bool_decide_eq_false in Hb.
  exists [b]. simpl. split_and!; [done | cbn; lia | done |].
  intros Hnd. by apply NoDup_snoc_fresh.
Qed.

Lemma check_vote_badges_grows (a : achievement) :
  ∃ new, a_badges (check_vote_badges a) = a_badges a ++ new
         ∧ a_points (check_vote_badges a) = a_points a + sum_points new
         ∧ a_votes_cast (check_vote_badges a) = a_votes_cast a
         ∧ (NoDup (a_badges a) → NoDup (a_badges (check_vote_badges a))).
Proof.
  unfold check_vote_badges.
  repeat match goal with
  | |- context [if ?c && negb ?h then _ else _] =>
      destruct c; simpl; [destruct h eqn:?; simpl; [|by apply grows_grant]|]
  end; apply grows_refl.
Qed.

Lemma check_top_contributor_grows (a : achievement) :
  ∃ new, a_badges (check_top_contributor a) = a_badges a ++ new
         ∧ a_points (check_top_contributor a) = a_points a + sum_points new
         ∧ a_votes_cast (check_top_contributor a) = a_votes_cast a
         ∧ (NoDup (a_badges a) → NoDup (a_badges (check_top_contributor a))).
Proof.
  unfold check_top_contributor.
  destruct (500 <=? a_points a); simpl; [|apply grows_refl].
  destruct (has_badge top_contributor a) eqn:Hb; simpl; [apply grows_refl|].
  apply bool_decide_eq_false in Hb.
  exists [top_contributor]. split_and!; [done | | done |].
  { change (sum_points [top_contributor]) with 0. simpl. lia. }
  intros Hnd. by apply NoDup_snoc_fresh.
Qed.

Lemma sum_points_app (xs ys : list str) :
  sum_points (xs ++ ys) = sum_points xs + sum_points ys.
Proof.
  unfold sum_points, sum_Z. rewrite fmap_app, foldr_app.
  induction (badge_points <$> xs) as [|x l IH]; simpl; lia.
Qed.

Lemma award_on_record_accounting (points : Z) (action_type : str) (a : achievement) :
  ∃ new,
    a_badges (award_on_record points action_type a) = a_badges a ++ new
    ∧ a_points (award_on_record points action_type a)
      = a_points a + points + sum_points new
    ∧ (NoDup (a_badges a) → NoDup (a_badges (award_on_record points action_type a))).
Proof.
  unfold award_on_record.
  match goal with |- context [check_top_contributor ?x] => set (mid := x) end.
  assert (∃ new, a_badges mid = a_badges a ++ new
                 ∧ a_points mid = a_points a + points + sum_points new
                 ∧ (NoDup (a_badges a) → NoDup (a_badges mid))) as Hmid.
  { subst mid. repeat case_bool_decide.
    - match goal with |- context [check_vote_badges ?x] =>
        pose proof (check_vote_badges_grows x) as Hg end.
      destruct Hg as (new & H1 & H2 & _ & H4).
      exists new. cbn [a_badges a_points a_votes_cast a_offers_shared] in *.
      split_and!; assumption.
    - destruct (has_badge offer_shared _) eqn:Hb; cbn [negb].
      + exists []. rewrite app_nil_r. split_and!; [done | cbn; lia | done].
      + match goal with |- context [grant _ ?x] =>
          pose proof (grows_grant offer_shared x Hb) as Hg end.
        destruct Hg as (new & H1 & H2 & _ & H4).
        exists new. cbn [a_badges a_points a_votes_cast a_offers_shared] in *.
        split_and!; assumption.
    - exists []. rewrite app_nil_r. split_and!; [done | cbn; lia | done]. }
  destruct Hmid as (new1 & M1 & M2 & M3).
  destruct (check_top_contributor_grows mid) as (new2 & T1 & T2 & _ & T4).
  exists (new1 ++ new2). rewrite T1, T2, M1, M2, sum_points_app, app_assoc.
  split_and!; [done | lia |]. intros Hnd. rewrite <- M1, <- T1. auto.
Qed.

Lemma badge_names_differ :
  first_vote ≠ top_contributor ∧ voter_10 ≠ top_contributor
  ∧ voter_50 ≠ top_contributor ∧ first_vote ≠ voter_10
  ∧ first_vote ≠ voter_50 ∧ voter_10 ≠ voter_50.
Proof. split_and!; discriminate. Qed.

Lemma earned_badges_elem (b : str) (a : achievement) :
  b ≠ top_contributor → b ∈ a_badges a ↔ b ∈ earned_badges a.
Proof.
  intros Hb. unfold earned_badges. rewrite list_elem_of_filter. tauto.
Qed.

Lemma vote_badges_for_elem (b : str) (n : Z) :
  b ∈ vote_badges_for n ↔
  (b = first_vote ∧ 1 ≤ n) ∨ (b = voter_10 ∧ 10 ≤ n) ∨ (b = voter_50 ∧ 50 ≤ n).
Proof.
  unfold vote_badges_for. rewrite !elem_of_app.
  repeat case_decide; rewrite ?list_elem_of_singleton, ?elem_of_nil; intuition lia.
Qed.

Lemma vote_badges_for_succ (n : Z) :
  0 ≤ n →
  vote_badges_for (n + 1)
  = vote_badges_for n
    ++ (if decide (n + 1 = 1) then [first_vote]
        else if decide (n + 1 = 10) then [voter_10]
        else if decide (n + 1 = 50) then [voter_50] else []).
Proof.
  intros Hn. unfold vote_badges_for.
  repeat case_decide; try lia; simpl; rewrite ?app_nil_r; done.
Qed.

Lemma sum_points_singleton (b : str) : sum_points [b] = badge_points b.
Proof. unfold sum_points, sum_Z. simpl. lia. Qed.

Lemma badge_points_nonneg (b : str) : 0 ≤ badge_points b.
Proof.
  unfold badge_points, ACHIEVEMENT_BADGES, assoc_get.
  repeat case_bool_decide; simpl; lia.
Qed.

Lemma vote_step_inv (p : Z) (a : achievement) :
  0 ≤ p → vote_run_inv a →
  vote_run_inv (award_on_record p (lit "vote") a)
  ∧ a_votes_cast (award_on_record p (lit "vote") a) = a_votes_cast a + 1.
Proof.
  intros Hp (Hn & Hb & Ht & Hpts).
  destruct badge_names_differ as (D1 & D2 & D3 & _).
  assert (∀ b, b ≠ top_contributor →
            (has_badge b a = true ↔ b ∈ vote_badges_for (a_votes_cast a))) as Hhas.
  { intros b Hne. unfold has_badge. rewrite bool_decide_eq_true, <- Hb.
    by apply earned_badges_elem. }
  unfold award_on_record. rewrite bool_decide_eq_true_2 by done.
  cbn [a_badges a_points a_votes_cast a_offers_shared].
  match goal with |- context [check_vote_badges ?x] => set (a1 := x) end.
  assert (∃ new, check_vote_badges a1
                 = {| a_badges := a_badges a ++ new;
                      a_points := a_points a + p + sum_points new;
                      a_votes_cast := a_votes_cast a + 1;
                      a_offers_shared := a_offers_shared a |}
                 ∧ vote_badges_for (a_votes_cast a + 1)
                   = vote_badges_for (a_votes_cast a) ++ new
                 ∧ (top_contributor ∉ new) ∧ 0 ≤ sum_points new)
    as (new & Hcv & Hnew & Htop & Hsum); [|rewrite Hcv; clear Hcv].
  { rewrite vote_badges_for_succ by done.
    unfold check_vote_badges. subst a1.
    change (has_badge ?b {| a_badges := a_badges a; a_points := _;
                            a_votes_cast := _; a_offers_shared := _ |})
      with (has_badge b a).
    cbn [a_badges a_points a_votes_cast a_offers_shared].
    pose proof (Hhas first_vote D1) as H1.
    pose proof (Hhas voter_10 D2) as H2.
    pose proof (Hhas voter_50 D3) as H3.
    rewrite vote_badges_for_elem in H1, H2, H3.
    destruct badge_names_differ as (_ & _ & _ & E1 & E2 & E3).
    assert (∀ b, b ≠ top_contributor → top_contributor ∉ [b]) as Hsing.
    { intros b Hne Hin. apply list_elem_of_singleton in Hin. congruence. }
    repeat case_decide.
    - rewrite (proj2 (Z.eqb_eq _ _)) by done.
      destruct (has_badge first_vote a); [intuition lia|].
      exists [first_vote]. rewrite sum_points_singleton.
      pose proof (badge_points_nonneg first_vote).
      split_and!; [done | done | by apply Hsing | lia].
    - rewrite (proj2 (Z.eqb_neq _ _)) by done.
      rewrite (proj2 (Z.eqb_eq _ _)) by done.
      destruct (has_badge voter_10 a); [intuition (lia || congruence)|].
      exists [voter_10]. rewrite sum_points_singleton.
      pose proof (badge_points_nonneg voter_10).
      split_and!; [done | done | by apply Hsing | lia].
    - rewrite !(proj2 (Z.eqb_neq _ _)) by done.
      rewrite (proj2 (Z.eqb_eq _ _)) by done.
      destruct (has_badge voter_50 a); [intuition (lia || congruence)|].
      exists [voter_50]. rewrite sum_points_singleton.
      pose proof (badge_points_nonneg voter_50).
      split_and!; [done | done | by apply Hsing | lia].
    - rewrite !(proj2 (Z.eqb_neq _ _)) by done. cbn [andb].
      exists []. rewrite app_nil_r. change (sum_points []) with 0.
      split_and!; [f_equal; lia | done | apply not_elem_of_nil | lia]. }
  assert (filter (λ b, b ≠ top_contributor) new = new) as Hfnew.
  { clear -Htop. induction new as [|b new IH]; [done|].
    apply not_elem_of_cons in Htop as [Hne Htop].
    rewrite filter_cons_True by done. by rewrite IH. }
  assert (earned_badges {| a_badges := a_badges a ++ new;
                           a_points := a_points a + p + sum_points new;
                           a_votes_cast := a_votes_cast a + 1;
                           a_offers_shared := a_offers_shared a |}
          = vote_badges_for (a_votes_cast a + 1)) as Hearned.
  { unfold earned_badges. cbn [a_badges].
    rewrite filter_app, Hfnew, Hnew. by f_equal. }
  unfold check_top_contributor, has_badge.
  cbn [a_badges a_points a_votes_cast a_offers_shared].
  destruct (500 <=? a_points a + p + sum_points new) eqn:E500; cbn [andb].
  - apply Z.leb_le in E500. case_bool_decide as Hin; cbn [negb].
    + split; [|done]. split_and!; cbn [a_badges a_points a_votes_cast]; try done; try lia.
    + split; [|done]. split_and!; cbn [a_badges a_points a_votes_cast]; try lia.
      * unfold earned_badges in *. cbn [a_badges] in *.
        rewrite filter_app, filter_cons_False, filter_nil, app_nil_r; [done|].
        by intros [].
      * split; [done|]. intros _. apply elem_of_app. right. apply list_elem_of_here.
  - apply Z.leb_gt in E500. split; [|done].
    split_and!; cbn [a_badges a_points a_votes_cast]; try done; try lia.
    split; [|lia]. intros [Hin|Hin]%elem_of_app; [|done].
    apply Ht in Hin. lia.
Qed.

Lemma achievement_of_award (uid : str) (p : Z) (action_type : str) (st : state) :
  achievement_of uid (award_user_points uid p action_type st)
  = award_on_record p action_type (achievement_of uid st).
Proof.
  unfold achievement_of, award_user_points. simpl. by rewrite lookup_insert_eq.
Qed.

Lemma achievement_of_cast_votes (uid : str) (ps : list Z) (st : state) :
  achievement_of uid (cast_votes uid ps st)
  = foldl (λ a p, award_on_record p (lit "vote") a) (achievement_of uid st) ps.
Proof.
  unfold cast_votes. revert st. induction ps as [|p ps IH]; intros st; [done|].
  simpl. by rewrite IH, achievement_of_award.
Qed.

Lemma vote_run_keeps_inv (ps : list Z) (a : achievement) :
  Forall (λ p, 0 ≤ p) ps → vote_run_inv a →
  vote_run_inv (foldl (λ a p, award_on_record p (lit "vote") a) a ps)
  ∧ a_votes_cast (foldl (λ a p, award_on_record p (lit "vote") a) a ps)
    = a_votes_cast a + Z.of_nat (length ps).
Proof.
  intros Hps. revert a. induction Hps as [|p ps Hp Hps IH]; intros a Ha.
  - simpl. split; [done | lia].
  - simpl. destruct (vote_step_inv p a Hp Ha) as [Ha' Hv].
    destruct (IH _ Ha') as [Hinv Hcount]. split; [done|]. rewrite Hcount, Hv. lia.
Qed.

Lemma award_run_accounting (action_type : str) (ps : list Z) (a : achievement) :
  NoDup (a_badges a) →
  NoDup (a_badges (foldl (λ a p, award_on_record p action_type a) a ps))
  ∧ a_points (foldl (λ a p, award_on_record p action_type a) a ps)
    = a_points a - sum_points (a_badges a) + sum_Z ps
      + sum_points (a_badges (foldl (λ a p, award_on_record p action_type a) a ps)).
Proof.
  revert a. induction ps as [|p ps IH]; intros a Hnd.
  - simpl. split; [done | lia].
  - simpl. destruct (award_on_record_accounting p action_type a) as (new & Hb & Hp & Hn).
    destruct (IH _ (Hn Hnd)) as [Hnd' Hpts]. split; [done|].
    rewrite Hpts, Hp, Hb, sum_points_app. lia.
Qed.

Lemma fresh_vote_run_inv : vote_run_inv fresh_achievement.
Proof.
  unfold vote_run_inv, fresh_achievement, earned_badges. simpl.
  split_and!; [lia | done | | lia].
  split; [by intros ?%elem_of_nil | lia].
Qed.

Lemma filter_without_top (l : list str) :
  top_contributor ∉ l → filter (λ b, b ≠ top_contributor) l = l.
Proof.
  induction l as [|b l IH]; [done|].
  intros [Hne Hl]%not_elem_of_cons.
  rewrite filter_cons_True by done. by rewrite IH.
Qed.

Lemma sum_points_cons (b : str) (l : list str) :
  sum_points (b :: l) = badge_points b + sum_points l.
Proof. reflexivity. Qed.

Lemma sum_points_earned (a : achievement) :
  sum_points (earned_badges a) = sum_points (a_badges a).
Proof.
  unfold earned_badges. induction (a_badges a) as [|b l IH]; [done|].
  rewrite sum_points_cons. destruct (decide (b = top_contributor)) as [Heq|Hne].
  - rewrite filter_cons_False by (intros Hb; by apply Hb).
    rewrite IH, Heq. change (badge_points top_contributor) with 0. lia.
  - rewrite filter_cons_True by done. rewrite sum_points_cons, IH. done.
Qed.

(** Vote awards of any non-negative points on a record that does not exist
    yet. *)
Lemma vote_awards_on_fresh_record (st : state) (uid : str) (ps : list Z) :
  user_achievements st !! uid = None →
  Forall (λ p, 0 ≤ p) ps →
  let a := achievement_of uid (cast_votes uid ps st) in
  (length ps = 10%nat →
     first_vote ∈ a_badges a ∧ voter_10 ∈ a_badges a ∧ (voter_50 ∉ a_badges a)
     ∧ (sum_Z ps < 440 → a_badges a = [first_vote; voter_10])
     ∧ (440 ≤ sum_Z ps → top_contributor ∈ a_badges a))
  ∧ (length ps = 50%nat →
     first_vote ∈ a_badges a ∧ voter_10 ∈ a_badges a ∧ voter_50 ∈ a_badges a)
  ∧ NoDup (a_badges a)
  ∧ a_points a = sum_Z ps + sum_points (a_badges a).
Proof.
  intros Hfresh Hps a. subst a. rewrite achievement_of_cast_votes.
  assert (achievement_of uid st = fresh_achievement) as Hf.
  { unfold achievement_of. by rewrite Hfresh. }
  rewrite Hf. clear Hf.
  destruct (vote_run_keeps_inv ps fresh_achievement Hps fresh_vote_run_inv)
    as [(Hn & Hb & Ht & Hpts) Hcount].
  destruct (award_run_accounting (lit "vote") ps fresh_achievement)
    as [Hnd Hacc]; [apply NoDup_nil_2|].
  set (a := foldl _ fresh_achievement ps) in *.
  change (a_points fresh_achievement) with 0 in Hacc.
  change (a_votes_cast fresh_achievement) with 0 in Hcount.
  change (sum_points (a_badges fresh_achievement)) with 0 in Hacc.
  destruct badge_names_differ as (D1 & D2 & D3 & _).
  assert (∀ b, b ≠ top_contributor →
            (b ∈ a_badges a ↔ b ∈ vote_badges_for (a_votes_cast a))) as Hin.
  { intros b Hne. rewrite <- Hb. by apply earned_badges_elem. }
  split_and!; [| |done|lia].
  - intros Hlen. rewrite Hlen in Hcount.
    rewrite !Hin, !vote_badges_for_elem by done.
    destruct badge_names_differ as (_ & _ & _ & E1 & E2 & E3).
    assert (sum_points (a_badges a) = 60) as Hsum.
    { rewrite <- sum_points_earned, Hb, Hcount. reflexivity. }
    split_and!.
    + left. split; [done | lia].
    + right. left. split; [done | lia].
    + intros [[? ?]|[[? ?]|[_ ?]]]; [congruence | congruence | lia].
    + intros Hlt. assert (top_contributor ∉ a_badges a) as Hno.
      { rewrite Ht. lia. }
      rewrite <- (filter_without_top _ Hno). fold (earned_badges a).
      rewrite Hb, Hcount. reflexivity.
    + intros Hge. apply Ht. lia.
  - intros Hlen. rewrite Hlen in Hcount.
    rewrite !Hin, !vote_badges_for_elem by done.
    split_and!; [left | right; left | right; right]; (split; [done | lia]).
Qed.

(** C3. Take a user without an achievement record and the vote award of the
    program, [award_user_points(user_id, 5, "vote")] (its only call with
    ["vote"], in [api_vote_company]). Ten such calls leave exactly the
    badges [first_vote] and [voter_10], and not [voter_50]; after the
    fiftieth call the badges include [first_vote], [voter_10] and
    [voter_50] ([top_contributor] comes with them, the total being 510).
    After any number of calls no badge is listed twice and the points are
    the awarded points plus the fixed bonus of every badge held. The last
    part describes vote awards of other non-negative amounts: the same
    holds, and ten calls leave exactly the two badges as long as the
    awarded points total less than 440. *)
Theorem vote_awards_for_fresh_user (st : state) (uid : str) :
  user_achievements st !! uid = None →
  let after (ps : list Z) := achievement_of uid (cast_votes uid ps st) in
  a_badges (after (replicate 10 5)) = [first_vote; voter_10]
  ∧ (voter_50 ∉ a_badges (after (replicate 10 5)))
  ∧ a_badges (after (replicate 50 5))
    = [first_vote; voter_10; voter_50; top_contributor]
  ∧ (first_vote ∈ a_badges (after (replicate 50 5))
     ∧ voter_10 ∈ a_badges (after (replicate 50 5))
     ∧ voter_50 ∈ a_badges (after (replicate 50 5)))
  ∧ (∀ n : nat,
       NoDup (a_badges (after (replicate n 5)))
       ∧ a_points (after (replicate n 5))
         = 5 * Z.of_nat n + sum_points (a_badges (after (replicate n 5))))
  ∧ (∀ ps : list Z,
       Forall (λ p, 0 ≤ p) ps →
       NoDup (a_badges (after ps))
       ∧ a_points (after ps) = sum_Z ps + sum_points (a_badges (after ps))
       ∧ (length ps = 10%nat →
          first_vote ∈ a_badges (after ps) ∧ voter_10 ∈ a_badges (after ps)
          ∧ (voter_50 ∉ a_badges (after ps))
          ∧ (a_badges (after ps) = [first_vote; voter_10] ↔ sum_Z ps < 440))
       ∧ (length ps = 50%nat →
          first_vote ∈ a_badges (after ps) ∧ voter_10 ∈ a_badges (after ps)
          ∧ voter_50 ∈ a_badges (after ps))).
Proof.
  intros Hfresh after.
  assert (∀ n : nat, Forall (λ p, 0 ≤ p) (replicate n 5)) as Hfive
    by (intros n; apply Forall_replicate; lia).
  assert (∀ n : nat, sum_Z (replicate n 5) = 5 * Z.of_nat n) as Hsum.
  { induction n as [|n IH]; [done|]. cbn [replicate sum_Z foldr].
    fold (sum_Z (replicate n 5)). lia. }
  destruct (vote_awards_on_fresh_record st uid (replicate 10 5) Hfresh (Hfive _))
    as (H10 & _ & _ & _).
  destruct (H10 (length_replicate _ _)) as (_ & _ & Hno50 & Hexact & _).
  destruct (vote_awards_on_fresh_record st uid (replicate 50 5) Hfresh (Hfive _))
    as (_ & H50 & _ & _).
  split; [|split; [|split; [|split; [|split]]]].
  - apply Hexact. rewrite Hsum. lia.
  - exact Hno50.
  - subst after. cbn beta. rewrite achievement_of_cast_votes.
    unfold achievement_of. rewrite Hfresh. vm_compute. reflexivity.
  - exact (H50 (length_replicate _ _)).
  - intros n.
    destruct (vote_awards_on_fresh_record st uid (replicate n 5) Hfresh (Hfive _))
      as (_ & _ & Hnd & Hpts).
    split; [exact Hnd|]. rewrite <- Hsum. exact Hpts.
  - intros ps Hps.
    destruct (vote_awards_on_fresh_record st uid ps Hfresh Hps)
      as (Hten & Hfifty & Hnd & Hpts).
    split; [exact Hnd|]. split; [exact Hpts|]. split; [|exact Hfifty].
    intros Hlen. destruct (Hten Hlen) as (Hf & Ht & Hn & Hlt & Hge).
    split; [done|]. split; [done|]. split; [done|]. split.
    + intros Hb. destruct (Z_lt_ge_dec (sum_Z ps) 440) as [|Hbig]; [done|].
      assert (top_contributor ∈ a_badges (after ps)) as Htop by (apply Hge; lia).
      rewrite Hb in Htop. exfalso. revert Htop.
      apply (bool_decide_unpack _). vm_compute. exact I.
    + exact Hlt.
Qed.

Lemma vote_awards_for_fresh_user_witness :
  let after (ps : list Z) :=
    achievement_of (lit "7c2e9b41") (cast_votes (lit "7c2e9b41") ps campus) in
  a_badges (after (replicate 10 5)) = [first_vote; voter_10]
  ∧ (voter_50 ∉ a_badges (after (replicate 10 5)))
  ∧ a_badges (after (replicate 50 5))
    = [first_vote; voter_10; voter_50; top_contributor]
  ∧ a_points (after (replicate 10 5)) = 110
  ∧ a_points (after (replicate 50 5)) = 510.
Proof.
  intros after.
  assert (user_achievements campus !! lit "7c2e9b41" = None) as Hfresh
    by (vm_compute; reflexivity).
  destruct (vote_awards_for_fresh_user campus (lit "7c2e9b41") Hfresh)
    as (Hten & Hno50 & Hfifty & _ & Hpoints & _).
  destruct (Hpoints 10%nat) as [_ Hp10]. destruct (Hpoints 50%nat) as [_ Hp50].
  split_and!; [exact Hten | exact Hno50 | exact Hfifty | |].
  - etransitivity; [exact Hp10|]. fold after. rewrite Hten. reflexivity.
  - etransitivity; [exact Hp50|]. fold after. rewrite Hfifty. reflexivity.
Defined.

(** ** Company votes *)

Lemma find_by_id_insert_other {A} (id_of : A → str) (k : str) (xs : list A) i x x' :
  xs !! i = Some x → id_of x' = id_of x → id_of x ≠ k →
  find_by_id id_of k (<[i := x']> xs) = find_by_id id_of k xs.
Proof.
  unfold find_by_id. revert i. induction xs as [|y xs IH]; intros i Hi Hid Hk; [done|].
  destruct i as [|i]; simpl in *.
  - injection Hi as ->. rewrite !decide_False by congruence. done.
  - case_decide; [done|]. by rewrite (IH i).
Qed.

Lemma find_by_id_id {A} (id_of : A → str) (k : str) (xs : list A) i x :
  find_by_id id_of k xs = Some (i, x) → xs !! i = Some x ∧ id_of x = k.
Proof. unfold find_by_id. intros (? & ? & _)%list_find_Some. done. Qed.

Lemma dt_geb_same_day (t now : datetime) :
  dt_day t = dt_day now → dt_geb t (start_of_day now) = true.
Proof.
  intros Hd. unfold dt_geb, start_of_day. simpl.
  rewrite Hd, Z.eqb_refl, Z.ltb_irrefl. simpl. apply N.leb_le. lia.
Qed.

Lemma dt_geb_earlier_day (t now : datetime) :
  dt_day t < dt_day now → dt_geb t (start_of_day now) = false.
Proof.
  intros Hd. unfold dt_geb, start_of_day. simpl.
  rewrite (proj2 (Z.ltb_ge _ _)) by lia.
  rewrite (proj2 (Z.eqb_neq _ _)) by lia. done.
Qed.

Lemma set_company_votes_id (st : state) : set_company_votes (company_votes st) st = st.
Proof. by destruct st. Qed.

Lemma ensure_company_votes_lookup (c : str) (votes : gmap str (gmap str datetime)) (c' : str) :
  default ∅ (ensure_company_votes c votes !! c') = default ∅ (votes !! c').
Proof.
  unfold ensure_company_votes. destruct (votes !! c) eqn:E; [done|].
  destruct (decide (c = c')) as [->|Hne].
  - by rewrite lookup_insert_eq, E.
  - by rewrite lookup_insert_ne.
Qed.

Lemma api_vote_company_denied (st : state) (sess : session) (uid c : str)
    (now stamp : datetime) :
  logged_in st sess uid →
  voted_today st c uid now = true →
  api_vote_company st sess c now stamp = (st, VoteDenied already_voted_msg).
Proof.
  intros (user & Hu & <-) Hv. unfold api_vote_company, can_vote_for_company.
  rewrite Hu. unfold voted_today in Hv.
  rewrite ensure_company_votes_lookup.
  destruct (default ∅ (company_votes st !! c) !! u_user_id user) as [t|] eqn:E; [|done].
  rewrite Hv. simpl.
  assert (ensure_company_votes c (company_votes st) = company_votes st) as ->.
  { unfold ensure_company_votes.
    destruct (company_votes st !! c); [done|]. simpl in E.
    by rewrite lookup_empty in E. }
  by rewrite set_company_votes_id.
Qed.

Lemma api_vote_company_allowed (st : state) (sess : session) (uid c : str)
    (now stamp : datetime) i co :
  logged_in st sess uid →
  find_by_id c_id c (dream_companies st) = Some (i, co) →
  voted_today st c uid now = false →
  ∃ st', api_vote_company st sess c now stamp = (st', VoteOk (c_votes co + 1))
    ∧ users_db st' = users_db st
    ∧ dream_companies st' = <[i := Company (c_id co) (c_votes co + 1)]> (dream_companies st)
    ∧ default ∅ (company_votes st' !! c) !! uid = Some stamp
    ∧ (∀ c', c' ≠ c →
         default ∅ (company_votes st' !! c') = default ∅ (company_votes st !! c')).
Proof.
  intros (user & Hu & <-) Hf Hv. unfold api_vote_company, can_vote_for_company.
  rewrite Hu. unfold voted_today in Hv.
  rewrite ensure_company_votes_lookup.
  assert (match default ∅ (company_votes st !! c) !! u_user_id user with
          | Some last_vote => dt_geb last_vote (start_of_day now)
          | None => false
          end = false) as -> by exact Hv.
  cbn [negb]. cbn [dream_companies set_company_votes]. rewrite Hf.
  eexists. split; [reflexivity|].
  cbn [users_db dream_companies company_votes award_user_points
       set_user_achievements set_company_votes set_dream_companies].
  split_and!; [done | done | |].
  - rewrite lookup_insert_eq. cbn [default from_option id].
    by rewrite lookup_insert_eq.
  - intros c' Hne. rewrite lookup_insert_ne by done.
    by rewrite !ensure_company_votes_lookup.
Qed.

(** C5. After a successful vote of a user for a company, a second vote of
    that user for that company on the day the first one is dated is refused
    with the already-voted message and changes nothing. A vote for another
    listed company succeeds on that day, whatever other votes the stores
    hold, provided the user has no vote for that company dated that day:
    nothing counts a user's votes across companies. *)
Theorem vote_company_once_per_company_per_day
    (st st1 : state) (sess : session) (uid c c' : str)
    (now1 stamp1 now2 stamp2 : datetime) (v1 : Z) :
  logged_in st sess uid →
  api_vote_company st sess c now1 stamp1 = (st1, VoteOk v1) →
  dt_day now2 = dt_day stamp1 →
  c' ≠ c →
  is_Some (find_by_id c_id c' (dream_companies st)) →
  voted_today st c' uid now2 = false →
  api_vote_company st1 sess c now2 stamp2 = (st1, VoteDenied already_voted_msg)
  ∧ ∃ st2 v2, api_vote_company st1 sess c' now2 stamp2 = (st2, VoteOk v2)
              ∧ (c_votes ∘ snd <$> find_by_id c_id c' (dream_companies st2)) = Some v2
              ∧ (c_votes ∘ snd <$> find_by_id c_id c' (dream_companies st)) = Some (v2 - 1).
Proof.
  intros Hlog Hfirst Hday Hne [[j co'] Hf'] Hv'.
  assert (voted_today st c uid now1 = false) as Hv.
  { destruct (voted_today st c uid now1) eqn:E; [|done].
    rewrite (api_vote_company_denied st sess uid c now1 stamp1 Hlog E) in Hfirst.
    discriminate Hfirst. }
  assert (∃ i co, find_by_id c_id c (dream_companies st) = Some (i, co)) as (i & co & Hf).
  { destruct (find_by_id c_id c (dream_companies st)) as [[i co]|] eqn:E; [eauto|].
    destruct Hlog as (user & Hu & <-).
    unfold api_vote_company, can_vote_for_company in Hfirst. rewrite Hu in Hfirst.
    unfold voted_today in Hv. rewrite ensure_company_votes_lookup in Hfirst.
    assert (match default ∅ (company_votes st !! c) !! u_user_id user with
            | Some last_vote => dt_geb last_vote (start_of_day now1)
            | None => false
            end = false) as Hm by exact Hv.
    rewrite Hm in Hfirst. cbn [negb dream_companies set_company_votes] in Hfirst.
    rewrite E in Hfirst. discriminate Hfirst. }
  destruct (api_vote_company_allowed st sess uid c now1 stamp1 i co Hlog Hf Hv)
    as (st1' & Hrun & Hdb & Hdc & Hcv & Hframe).
  rewrite Hrun in Hfirst. injection Hfirst as -> _.
  assert (logged_in st1 sess uid) as Hlog1.
  { destruct Hlog as (user & Hu & Hid). exists user. split; [|done].
    unfold get_current_user in *. by rewrite Hdb. }
  split.
  - apply (api_vote_company_denied st1 sess uid); [done|].
    unfold voted_today. rewrite Hcv. by apply dt_geb_same_day.
  - destruct (find_by_id_id _ _ _ _ _ Hf) as [Hi Hco].
    assert (find_by_id c_id c' (dream_companies st1) = Some (j, co')) as Hf1.
    { rewrite Hdc, <- Hf'. eapply find_by_id_insert_other; [exact Hi | done | congruence]. }
    assert (voted_today st1 c' uid now2 = false) as Hv1.
    { unfold voted_today in *. by rewrite (Hframe c' Hne). }
    destruct (api_vote_company_allowed st1 sess uid c' now2 stamp2 j co' Hlog1 Hf1 Hv1)
      as (st2 & Hrun2 & _ & Hdc2 & _ & _).
    exists st2, (c_votes co' + 1). split_and!; [done | |].
    + rewrite Hdc2. erewrite find_by_id_insert_same; [done | exact Hf1 |].
      by destruct (find_by_id_id _ _ _ _ _ Hf1).
    + rewrite Hf'. simpl. f_equal. lia.
Qed.

Lemma vote_company_once_per_company_per_day_witness :
  let st1 := fst (api_vote_company campus kim (lit "google") morning morning) in
  api_vote_company st1 kim (lit "google") evening evening
    = (st1, VoteDenied already_voted_msg)
  ∧ ∃ st2 v2, api_vote_company st1 kim (lit "meta") evening evening = (st2, VoteOk v2)
              ∧ (c_votes ∘ snd <$> find_by_id c_id (lit "meta") (dream_companies st2)) = Some v2
              ∧ (c_votes ∘ snd <$> find_by_id c_id (lit "meta") (dream_companies campus))
                = Some (v2 - 1).
Proof.
  apply (vote_company_once_per_company_per_day campus _ kim (lit "7c2e9b41")
           (lit "google") (lit "meta") morning morning evening evening 157).
  - eexists. split; reflexivity.
  - vm_compute. reflexivity.
  - reflexivity.
  - discriminate.
  - eexists. vm_compute. reflexivity.
  - vm_compute. reflexivity.
Defined.

(** ** Post likes *)

Lemma set_user_likes_id (st : state) : set_user_likes (user_likes st) st = st.
Proof. by destruct st. Qed.

Lemma ensure_user_likes_lookup (u : str) (likes : gmap str (gmap str datetime)) (u' : str) :
  default ∅ (ensure_user_likes u likes !! u') = default ∅ (likes !! u').
Proof.
  unfold ensure_user_likes. destruct (likes !! u) eqn:E; [done|].
  destruct (decide (u = u')) as [->|Hne].
  - by rewrite lookup_insert_eq, E.
  - by rewrite lookup_insert_ne.
Qed.

Lemma can_like_post_spec (st : state) (uid pid : str) (now : datetime) :
  can_like_post st uid pid now
  = (set_user_likes (ensure_user_likes uid (user_likes st)) st,
     if liked_today st uid pid now then (false, already_liked_msg)
     else if 50 <=? likes_today st uid now then (false, daily_limit_msg)
     else (true, [])).
Proof.
  unfold can_like_post, liked_today, likes_today.
  rewrite ensure_user_likes_lookup.
  destruct (default ∅ (user_likes st !! uid) !! pid) as [t|]; [destruct (dt_geb _ _)|];
    try done; by destruct (50 <=? _).
Qed.

Lemma ensure_user_likes_idem (u : str) (likes : gmap str (gmap str datetime)) :
  ensure_user_likes u (ensure_user_likes u likes) = ensure_user_likes u likes.
Proof.
  unfold ensure_user_likes. destruct (likes !! u) eqn:E.
  - by rewrite E.
  - by rewrite lookup_insert_eq.
Qed.

Lemma api_like_post_unlike (st : state) (sess : session) (uid pid : str) i p
    (now_check now_stamp : datetime) :
  logged_in st sess uid →
  find_by_id p_id pid (experience_posts st) = Some (i, p) →
  uid ∈ liked_list p →
  api_like_post st sess pid now_check now_stamp
  = (set_user_likes (forget_like uid pid (user_likes st))
       (set_experience_posts
          (<[i := Post (p_id p) (p_author_id p) (Z.max 0 (p_likes p - 1))
                       (Some (list_remove_first uid (liked_list p)))]>
             (experience_posts st)) st),
     LikeOk (Z.max 0 (p_likes p - 1)) false).
Proof.
  intros (user & Hu & <-) Hf Hin. unfold api_like_post. rewrite Hu, Hf.
  fold (liked_list p). by rewrite bool_decide_eq_true_2.
Qed.

Lemma api_like_post_attempt (st : state) (sess : session) (uid pid : str) i p
    (now_check now_stamp : datetime) :
  logged_in st sess uid →
  find_by_id p_id pid (experience_posts st) = Some (i, p) →
  uid ∉ liked_list p →
  api_like_post st sess pid now_check now_stamp
  = if liked_today st uid pid now_check || (50 <=? likes_today st uid now_check)
    then
      (set_user_likes (ensure_user_likes uid (user_likes st))
         (set_experience_posts
            (<[i := Post (p_id p) (p_author_id p) (p_likes p) (Some (liked_list p))]>
               (experience_posts st)) st),
       LikeDenied (if liked_today st uid pid now_check
                   then already_liked_msg else daily_limit_msg))
    else
      (set_user_likes (record_like uid pid now_stamp (user_likes st))
         (set_experience_posts
            (<[i := Post (p_id p) (p_author_id p) (p_likes p + 1)
                         (Some (liked_list p ++ [uid]))]>
               (experience_posts st)) st),
       LikeOk (p_likes p + 1) true).
Proof.
  intros (user & Hu & <-) Hf Hin. unfold api_like_post. rewrite Hu, Hf.
  fold (liked_list p). rewrite bool_decide_eq_false_2 by done.
  rewrite can_like_post_spec.
  change (liked_today (set_experience_posts ?l st)) with (liked_today st).
  change (likes_today (set_experience_posts ?l st)) with (likes_today st).
  destruct (liked_today st (u_user_id user) pid now_check); [done|].
  destruct (50 <=? likes_today st (u_user_id user) now_check); [done|].
  cbn [orb negb]. unfold set_user_likes, set_experience_posts.
  cbn [users_db user_likes company_votes user_achievements offer_showcase
       user_favorites private_messages dream_companies experience_posts p_likes].
  rewrite list_insert_insert_eq. unfold record_like.
  by rewrite ensure_user_likes_idem.
Qed.

Lemma list_remove_first_length (x : str) (l : list str) :
  x ∈ l → S (length (list_remove_first x l)) = length l.
Proof.
  induction l as [|y l IH]; [by intros ?%elem_of_nil|].
  intros Hin. simpl. case_bool_decide as Hy; [done|]. simpl.
  apply elem_of_cons in Hin as [->|Hin]; [done|]. by rewrite IH.
Qed.

Lemma list_remove_first_elem (x y : str) (l : list str) :
  y ∈ list_remove_first x l → y ∈ l.
Proof.
  induction l as [|z l IH]; [done|]. simpl. case_bool_decide.
  - apply list_elem_of_further.
  - intros [->|Hin]%elem_of_cons; [apply list_elem_of_here|].
    apply list_elem_of_further. by apply IH.
Qed.

Lemma list_remove_first_NoDup (x : str) (l : list str) :
  NoDup l → NoDup (list_remove_first x l) ∧ x ∉ list_remove_first x l.
Proof.
  induction 1 as [|y l Hy Hl IH]; simpl.
  - split; [constructor | apply not_elem_of_nil].
  - case_bool_decide as Hyx.
    + subst. done.
    + destruct IH as [IH1 IH2]. split.
      * constructor; [|done]. intros Hin. by apply list_remove_first_elem in Hin.
      * apply not_elem_of_cons. split; [congruence | done].
Qed.

Lemma list_remove_first_absent (x : str) (l : list str) :
  x ∉ l → list_remove_first x l = l.
Proof.
  induction l as [|y l IH]; [done|]. intros [Hne Hl]%not_elem_of_cons. simpl.
  rewrite bool_decide_eq_false_2 by congruence. by rewrite IH.
Qed.

Lemma keeps_surplus_refl (p : post) : post_ok p → keeps_surplus p p.
Proof. by intros Hp. Qed.

Lemma keeps_surplus_trans (p p' p'' : post) :
  keeps_surplus p p' → keeps_surplus p' p'' → keeps_surplus p p''.
Proof.
  intros (_ & Hid & Hs) (Hok & Hid' & Hs'). split_and!; [done | congruence | congruence].
Qed.

Lemma keeps_surplus_insert (posts : list post) i p p' :
  Forall post_ok posts → posts !! i = Some p → keeps_surplus p p' →
  Forall2 keeps_surplus posts (<[i := p']> posts).
Proof.
  intros Hall Hi Hp. rewrite <- (list_insert_id posts i p Hi) at 1.
  apply Forall2_insert; [|done]. apply Forall_Forall2_diag.
  eapply Forall_impl; [exact Hall|]. apply keeps_surplus_refl.
Qed.

Lemma api_like_post_keeps_surplus (st : state) (sess : session) (pid : str)
    (now_check now_stamp : datetime) :
  Forall post_ok (experience_posts st) →
  Forall2 keeps_surplus (experience_posts st)
    (experience_posts (fst (api_like_post st sess pid now_check now_stamp))).
Proof.
  intros Hall.
  assert (Forall2 keeps_surplus (experience_posts st) (experience_posts st)) as Hrefl.
  { apply Forall_Forall2_diag. eapply Forall_impl; [exact Hall|].
    apply keeps_surplus_refl. }
  destruct (get_current_user st sess) as [user|] eqn:Hu;
    [|unfold api_like_post; by rewrite Hu].
  destruct (find_by_id p_id pid (experience_posts st)) as [[i p]|] eqn:Hf;
    [|unfold api_like_post; by rewrite Hu, Hf].
  assert (logged_in st sess (u_user_id user)) as Hlog by (by exists user).
  destruct (find_by_id_id _ _ _ _ _ Hf) as [Hi Hid].
  destruct (Forall_lookup_1 _ _ _ _ Hall Hi) as [Hnd Hsur].
  unfold like_surplus in Hsur.
  destruct (decide (u_user_id user ∈ liked_list p)) as [Hin|Hin].
  - rewrite (api_like_post_unlike _ _ _ _ _ _ _ _ Hlog Hf Hin). cbn.
    apply (keeps_surplus_insert _ _ p); [done | done |].
    pose proof (list_remove_first_length _ _ Hin) as Hlen.
    destruct (list_remove_first_NoDup (u_user_id user) _ Hnd) as [Hnd' _].
    unfold keeps_surplus, post_ok, like_surplus, liked_list. cbn.
    fold (liked_list p). split_and!; [done | lia | done | lia].
  - rewrite (api_like_post_attempt _ _ _ _ _ _ _ _ Hlog Hf Hin).
    destruct (_ || _); cbn.
    + apply (keeps_surplus_insert _ _ p); [done | done |].
      unfold keeps_surplus, post_ok, like_surplus, liked_list. cbn.
      fold (liked_list p). split_and!; [done | lia | done | lia].
    + apply (keeps_surplus_insert _ _ p); [done | done |].
      unfold keeps_surplus, post_ok, like_surplus, liked_list. cbn.
      fold (liked_list p). rewrite length_app. cbn.
      split_and!; [by apply NoDup_snoc_fresh | lia | done | lia].
Qed.

(** C1, as the code has it. Take any stores in which no [liked_by] list
    names a user twice and every like counter is at least the length of its
    [liked_by] list, as in the initial stores and after [api_create_post].
    After any sequence of [api_like_post] requests the posts are the same
    posts in the same order, no [liked_by] list names a user twice, and the
    difference between a post's like counter and the length of its
    [liked_by] list is what it was: [likes == |liked_by|] holds afterwards
    for the posts that started with it, such as a new post (0 and empty). *)
Theorem likes_minus_liked_by_is_kept (st : state) (calls : list like_call) :
  Forall post_ok (experience_posts st) →
  Forall2 (λ p p',
             p_id p' = p_id p
             ∧ NoDup (liked_list p')
             ∧ like_surplus p' = like_surplus p
             ∧ (p_likes p = Z.of_nat (length (liked_list p))
                → p_likes p' = Z.of_nat (length (liked_list p'))))
    (experience_posts st) (experience_posts (run_like_calls st calls)).
Proof.
  intros Hall.
  assert (Forall2 keeps_surplus (experience_posts st)
            (experience_posts (run_like_calls st calls))) as H.
  { revert st Hall. induction calls as [|c calls IH]; intros st Hall.
    - apply Forall_Forall2_diag. eapply Forall_impl; [exact Hall|].
      apply keeps_surplus_refl.
    - simpl. pose proof (api_like_post_keeps_surplus st (lc_session c) (lc_post_id c)
                           (lc_now_check c) (lc_now_stamp c) Hall) as Hstep.
      fold (do_like st c) in Hstep.
      assert (Forall post_ok (experience_posts (fst (do_like st c)))) as Hall'.
      { eapply Forall2_Forall_r; [exact Hstep|].
        apply Forall_true. by intros p p' [? _]. }
      eapply Forall2_trans; [|exact Hstep|exact (IH _ Hall')].
      intros p p' p''. apply keeps_surplus_trans. }
  eapply Forall2_impl; [exact H|].
  intros p p' ([Hnd Hs] & Hid & Heq). unfold like_surplus in *.
  split_and!; [done | done | done | lia].
Qed.

Lemma likes_minus_liked_by_is_kept_witness :
  Forall2 (λ p p',
             p_id p' = p_id p
             ∧ NoDup (liked_list p')
             ∧ like_surplus p' = like_surplus p
             ∧ (p_likes p = Z.of_nat (length (liked_list p))
                → p_likes p' = Z.of_nat (length (liked_list p'))))
    (experience_posts campus_with_post)
    (experience_posts (run_like_calls campus_with_post kim_calls))
  ∧ (p_likes <$> experience_posts (run_like_calls campus_with_post kim_calls))
    = [1; 42; 67; 35; 89; 28].
Proof.
  split; [|reflexivity].
  apply (likes_minus_liked_by_is_kept campus_with_post kim_calls).
  repeat constructor; vm_compute; discriminate.
Defined.

(** C1 as stated fails on the seeded posts: post ["1"] starts with 42 likes
    and an empty [liked_by], so after one like it counts 43 likes for one
    entry of [liked_by]. *)
Lemma seeded_post_likes_counterexample :
  let st := run_like_calls campus [LikeCall kim (lit "1") morning morning] in
  experience_posts st !! 0%nat
    = Some (Post (lit "1") (Some (lit "system")) 43 (Some [lit "7c2e9b41"]))
  ∧ ¬ Forall (λ p, p_likes p = Z.of_nat (length (liked_list p))) (experience_posts st).
Proof.
  split; [reflexivity|].
  intros H. apply Forall_cons in H as [H _]. vm_compute in H. discriminate H.
Qed.

Lemma api_like_post_keeps_users (st : state) (sess : session) (pid : str)
    (now_check now_stamp : datetime) :
  users_db (fst (api_like_post st sess pid now_check now_stamp)) = users_db st.
Proof.
  unfold api_like_post.
  destruct (get_current_user st sess) as [user|]; [|done].
  destruct (find_by_id p_id pid (experience_posts st)) as [[i p]|]; [|done].
  case_bool_decide; [done|].
  rewrite can_like_post_spec.
  destruct (liked_today _ _ _ _); [done|].
  destruct (50 <=? likes_today _ _ _); done.
Qed.

Lemma logged_in_ext (st st' : state) (sess : session) (uid : str) :
  users_db st' = users_db st → logged_in st sess uid → logged_in st' sess uid.
Proof.
  intros Hdb (user & Hu & Hid). exists user. split; [|done].
  unfold get_current_user in *. by rewrite Hdb.
Qed.

(** A call answered with [liked = True] was a permitted like attempt. *)
Lemma api_like_post_liked_inv (st st1 : state) (sess : session) (uid pid : str)
    (now_check now_stamp : datetime) (k : Z) :
  logged_in st sess uid →
  api_like_post st sess pid now_check now_stamp = (st1, LikeOk k true) →
  ∃ i p,
    find_by_id p_id pid (experience_posts st) = Some (i, p)
    ∧ (uid ∉ liked_list p)
    ∧ liked_today st uid pid now_check = false
    ∧ likes_today st uid now_check < 50
    ∧ k = p_likes p + 1
    ∧ st1 = set_user_likes (record_like uid pid now_stamp (user_likes st))
              (set_experience_posts
                 (<[i := Post (p_id p) (p_author_id p) (p_likes p + 1)
                              (Some (liked_list p ++ [uid]))]>
                    (experience_posts st)) st).
Proof.
  intros Hlog Hrun.
  destruct (find_by_id p_id pid (experience_posts st)) as [[i p]|] eqn:Hf.
  2:{ destruct Hlog as (user & Hu & _). unfold api_like_post in Hrun.
      rewrite Hu, Hf in Hrun. discriminate Hrun. }
  exists i, p. destruct (decide (uid ∈ liked_list p)) as [Hin|Hin].
  { rewrite (api_like_post_unlike _ _ _ _ _ _ _ _ Hlog Hf Hin) in Hrun.
    discriminate Hrun. }
  rewrite (api_like_post_attempt _ _ _ _ _ _ _ _ Hlog Hf Hin) in Hrun.
  destruct (liked_today st uid pid now_check) eqn:E1; [discriminate Hrun|].
  destruct (50 <=? likes_today st uid now_check) eqn:E2; [discriminate Hrun|].
  cbn [orb] in Hrun. apply Z.leb_gt in E2.
  injection Hrun as <- <-. done.
Qed.

Lemma forget_like_lookup (uid pid : str) (likes : gmap str (gmap str datetime)) :
  default ∅ (forget_like uid pid likes !! uid) = delete pid (default ∅ (likes !! uid)).
Proof.
  unfold forget_like. destruct (likes !! uid) as [d|] eqn:E.
  - by rewrite lookup_insert_eq.
  - rewrite E. simpl. by rewrite delete_empty.
Qed.

Lemma record_like_lookup (uid pid : str) (stamp : datetime)
    (likes : gmap str (gmap str datetime)) :
  default ∅ (record_like uid pid stamp likes !! uid)
  = <[pid := stamp]> (default ∅ (likes !! uid)).
Proof.
  unfold record_like. rewrite lookup_insert_eq. simpl.
  by rewrite ensure_user_likes_lookup.
Qed.




(** *** The daily limit *)

Lemma is_user_logged_in (st : state) (uid : str) (sess : session) :
  is_user st uid sess = true ↔ logged_in st sess uid.
Proof.
  unfold is_user, logged_in. destruct (get_current_user st sess) as [user|].
  - rewrite bool_decide_eq_true. split; [eauto|]. by intros (? & [= <-] & ?).
  - split; [done|]. by intros (? & ? & _).
Qed.

Lemma is_user_ext (st st' : state) (uid : str) (sess : session) :
  users_db st' = users_db st → is_user st' uid sess = is_user st uid sess.
Proof. intros Hdb. unfold is_user, get_current_user. by rewrite Hdb. Qed.

(** A request of somebody else leaves the like records of [uid] alone. *)
Lemma api_like_post_other_user (st : state) (sess : session) (uid pid : str)
    (now_check now_stamp : datetime) :
  is_user st uid sess = false →
  default ∅ (user_likes (fst (api_like_post st sess pid now_check now_stamp)) !! uid)
  = default ∅ (user_likes st !! uid).
Proof.
  intros Hother. unfold is_user in Hother.
  destruct (get_current_user st sess) as [user|] eqn:Hu;
    [|unfold api_like_post; by rewrite Hu].
  apply bool_decide_eq_false in Hother.
  destruct (find_by_id p_id pid (experience_posts st)) as [[i p]|] eqn:Hf;
    [|unfold api_like_post; by rewrite Hu, Hf].
  assert (logged_in st sess (u_user_id user)) as Hlog by (by exists user).
  destruct (decide (u_user_id user ∈ liked_list p)) as [Hin|Hin].
  - rewrite (api_like_post_unlike _ _ _ _ _ _ _ _ Hlog Hf Hin).
    cbn [fst user_likes set_user_likes set_experience_posts].
    unfold forget_like. destruct (user_likes st !! u_user_id user); [|done].
    by rewrite lookup_insert_ne.
  - rewrite (api_like_post_attempt _ _ _ _ _ _ _ _ Hlog Hf Hin).
    destruct (_ || _); cbn [fst user_likes set_user_likes set_experience_posts].
    + unfold ensure_user_likes. destruct (user_likes st !! u_user_id user); [done|].
      by rewrite lookup_insert_ne.
    + unfold record_like. rewrite lookup_insert_ne by done.
      unfold ensure_user_likes. destruct (user_likes st !! u_user_id user); [done|].
      by rewrite lookup_insert_ne.
Qed.

Lemma run_like_calls_user_likes (uid : str) (calls : list like_call) (st : state) :
  Forall2 (λ c r, is_user st uid (lc_session c) = true → ∃ k, r = LikeOk k true)
    calls (like_responses st calls) →
  users_db (run_like_calls st calls) = users_db st
  ∧ default ∅ (user_likes (run_like_calls st calls) !! uid)
    = stamp_all (calls_of st uid calls) (default ∅ (user_likes st !! uid)).
Proof.
  revert st. induction calls as [|c calls IH]; intros st Hok; [done|].
  simpl in Hok. apply Forall2_cons in Hok as [Hc Hok].
  pose proof (api_like_post_keeps_users st (lc_session c) (lc_post_id c)
                (lc_now_check c) (lc_now_stamp c)) as Hdb.
  fold (do_like st c) in Hdb.
  destruct (IH (fst (do_like st c))) as [Hdb' Hlikes].
  { eapply Forall2_impl; [exact Hok|]. intros c' r' Hr' Hu. apply Hr'.
    by rewrite <- (is_user_ext st _ _ _ Hdb). }
  cbn [run_like_calls foldl]. fold (run_like_calls (fst (do_like st c)) calls).
  split; [congruence|]. rewrite Hlikes. unfold calls_of. cbn [List.filter].
  assert (List.filter (λ c0, is_user (fst (do_like st c)) uid (lc_session c0)) calls
          = List.filter (λ c0, is_user st uid (lc_session c0)) calls) as ->.
  { apply List.filter_ext. intros c'. by apply is_user_ext. }
  destruct (is_user st uid (lc_session c)) eqn:Hu.
  - destruct (Hc eq_refl) as [k Hk]. apply is_user_logged_in in Hu.
    assert (do_like st c = (fst (do_like st c), LikeOk k true)) as Hrun.
    { rewrite <- Hk. by destruct (do_like st c). }
    destruct (api_like_post_liked_inv _ _ _ _ _ _ _ _ Hu Hrun)
      as (i & p & _ & _ & _ & _ & _ & ->).
    cbn [stamp_all foldl user_likes set_user_likes set_experience_posts].
    by rewrite record_like_lookup.
  - unfold do_like. by rewrite api_like_post_other_user.
Qed.

Lemma stamp_all_lookup_other (calls : list like_call) (d : gmap str datetime) (pid : str) :
  pid ∉ lc_post_id <$> calls → stamp_all calls d !! pid = d !! pid.
Proof.
  revert d. induction calls as [|c calls IH]; intros d Hout; [done|].
  rewrite fmap_cons in Hout. apply not_elem_of_cons in Hout as [Hne Hout].
  cbn [stamp_all foldl]. fold (stamp_all calls (<[lc_post_id c := lc_now_stamp c]> d)).
  rewrite IH by done. by rewrite lookup_insert_ne.
Qed.

Lemma stamp_all_lookup_in (calls : list like_call) (d : gmap str datetime) (c : like_call) :
  NoDup (lc_post_id <$> calls) → c ∈ calls →
  stamp_all calls d !! lc_post_id c = Some (lc_now_stamp c).
Proof.
  revert d. induction calls as [|c' calls IH]; intros d Hnd Hin;
    [by apply elem_of_nil in Hin|].
  rewrite fmap_cons in Hnd. apply NoDup_cons in Hnd as [Hfresh Hnd].
  cbn [stamp_all foldl]. fold (stamp_all calls (<[lc_post_id c' := lc_now_stamp c']> d)).
  apply elem_of_cons in Hin as [->|Hin].
  - rewrite stamp_all_lookup_other by done. apply lookup_insert_eq.
  - by apply IH.
Qed.

Lemma stamp_all_Forall (P : str → datetime → Prop) (calls : list like_call)
    (d : gmap str datetime) :
  map_Forall P d →
  Forall (λ c, P (lc_post_id c) (lc_now_stamp c)) calls →
  map_Forall P (stamp_all calls d).
Proof.
  intros Hd Hcalls. revert d Hd.
  induction Hcalls as [|c calls Hc Hcalls IH]; intros d Hd; [done|].
  cbn [stamp_all foldl]. apply IH. by apply map_Forall_insert_2.
Qed.

Lemma count_since_lower (start : datetime) (d : gmap str datetime) (keys : list str) :
  NoDup keys →
  (∀ k, k ∈ keys → ∃ t, d !! k = Some t ∧ dt_geb t start = true) →
  Z.of_nat (length keys) ≤ count_since start d.
Proof.
  intros Hnd Hkeys. unfold count_since.
  set (l := List.filter _ (map_to_list d)).
  assert (keys ⊆+ l.*1) as Hsub.
  { apply NoDup_submseteq; [done|]. intros k Hk.
    destruct (Hkeys k Hk) as (t & Ht & Hge).
    apply list_elem_of_fmap. exists (k, t). split; [done|].
    apply list_elem_of_In, List.filter_In. split; [|done].
    apply list_elem_of_In. by apply elem_of_map_to_list. }
  apply submseteq_length in Hsub. rewrite length_fmap in Hsub. lia.
Qed.

Lemma count_since_zero (start : datetime) (d : gmap str datetime) :
  map_Forall (λ _ t, dt_geb t start = false) d → count_since start d = 0.
Proof.
  intros Hd. unfold count_since.
  assert (List.filter (λ kv : str * datetime, dt_geb kv.2 start) (map_to_list d) = [])
    as ->; [|done].
  assert (Forall (λ kv : str * datetime, dt_geb kv.2 start = false) (map_to_list d)) as Hall.
  { apply Forall_forall. intros [k t] Hkt. apply elem_of_map_to_list in Hkt.
    exact (Hd k t Hkt). }
  induction Hall as [|kv l Hkv Hall IH]; [done|]. simpl. by rewrite Hkv.
Qed.

(** C4, as the code has it. Let a sequence of [api_like_post] requests,
    possibly mixed with requests of other users, contain 50 requests of one
    user and no more, all answered with [liked = True] (so none of the 50
    likes has been taken back), for 50 different posts, all dated on one
    day, in stores whose like records of that user are not dated later than
    that day. A further like attempt of the user that day, on a post the
    user has no like record for, is refused with "Daily like limit reached
    (50/day)" and changes no like counter; the same attempt on any later
    day succeeds. *)
Theorem fifty_first_like_waits_for_next_day
    (st : state) (uid : str) (day : Z) (calls : list like_call)
    (sess : session) (pid : str) (i : nat) (p : post)
    (now stamp later stamp' : datetime) :
  let mine := calls_of st uid calls in
  let st50 := run_like_calls st calls in
  map_Forall (λ _ t, dt_day t ≤ day) (default ∅ (user_likes st !! uid)) →
  Forall2 (λ c r, is_user st uid (lc_session c) = true → ∃ k, r = LikeOk k true)
    calls (like_responses st calls) →
  Forall (λ c, dt_day (lc_now_stamp c) = day) mine →
  NoDup (lc_post_id <$> mine) →
  length mine = 50%nat →
  logged_in st sess uid →
  find_by_id p_id pid (experience_posts st50) = Some (i, p) →
  uid ∉ liked_list p →
  pid ∉ lc_post_id <$> mine →
  default ∅ (user_likes st !! uid) !! pid = None →
  dt_day now = day →
  day < dt_day later →
  (∃ st', api_like_post st50 sess pid now stamp = (st', LikeDenied daily_limit_msg)
          ∧ (p_likes <$> experience_posts st') = (p_likes <$> experience_posts st50))
  ∧ (∃ st', api_like_post st50 sess pid later stamp' = (st', LikeOk (p_likes p + 1) true)).
Proof.
  intros mine st50 Hpast Hok Hday Hnd Hlen Hlog Hf Hin Hpid Hnone Hnow Hlater.
  destruct (run_like_calls_user_likes uid calls st Hok) as [Hdb Hlikes].
  fold st50 in Hdb, Hlikes. fold mine in Hlikes.
  assert (logged_in st50 sess uid) as Hlog50 by (by apply (logged_in_ext st)).
  assert (∀ t, liked_today st50 uid pid t = false) as Hnot.
  { intros t. unfold liked_today.
    by rewrite Hlikes, stamp_all_lookup_other, Hnone. }
  assert (50 ≤ likes_today st50 uid now) as Hfull.
  { unfold likes_today. rewrite Hlikes.
    replace 50 with (Z.of_nat (length (lc_post_id <$> mine)))
      by (rewrite length_fmap, Hlen; done).
    apply count_since_lower; [done|].
    intros k (c & -> & Hc)%list_elem_of_fmap.
    exists (lc_now_stamp c). split; [by apply stamp_all_lookup_in|].
    apply dt_geb_same_day. rewrite Forall_forall in Hday. rewrite (Hday c Hc). done. }
  assert (likes_today st50 uid later = 0) as Hnone_later.
  { unfold likes_today. rewrite Hlikes. apply count_since_zero.
    eapply map_Forall_impl.
    - apply (stamp_all_Forall (λ _ t, dt_day t ≤ day)); [done|].
      eapply Forall_impl; [exact Hday|]. intros c Hc. simpl in Hc. lia.
    - intros k t Ht. simpl in Ht. apply dt_geb_earlier_day. lia. }
  split.
  - rewrite (api_like_post_attempt _ _ _ _ _ _ now stamp Hlog50 Hf Hin).
    rewrite Hnot, (proj2 (Z.leb_le _ _) Hfull). cbn [orb].
    eexists. split; [done|].
    cbn [experience_posts set_user_likes set_experience_posts].
    rewrite list_fmap_insert. apply list_insert_id.
    rewrite list_lookup_fmap. by destruct (find_by_id_id _ _ _ _ _ Hf) as [-> _].
  - rewrite (api_like_post_attempt _ _ _ _ _ _ later stamp' Hlog50 Hf Hin).
    rewrite Hnot, Hnone_later. cbn [orb]. eauto.
Qed.

Lemma fifty_first_like_waits_for_next_day_witness :
  let st50 := run_like_calls busy_campus fifty_likes in
  (∃ st', api_like_post st50 kim (post_no 50) evening evening
            = (st', LikeDenied daily_limit_msg)
          ∧ (p_likes <$> experience_posts st') = (p_likes <$> experience_posts st50))
  ∧ (∃ st', api_like_post st50 kim (post_no 50) next_day next_day
            = (st', LikeOk (0 + 1) true)).
Proof.
  apply (fifty_first_like_waits_for_next_day busy_campus (lit "7c2e9b41") 739620
           fifty_likes kim (post_no 50) 0
           (Post (post_no 50) (Some (lit "7c2e9b41")) 0 (Some []))
           evening evening next_day next_day).
  - apply map_Forall_empty.
  - vm_compute.
    repeat (constructor; [intros _; eexists; reflexivity|]). constructor.
  - vm_compute. repeat constructor.
  - apply (bool_decide_unpack _). vm_compute. exact I.
  - vm_compute. reflexivity.
  - eexists. split; reflexivity.
  - vm_compute. reflexivity.
  - apply (bool_decide_unpack _). vm_compute. exact I.
  - apply (bool_decide_unpack _). vm_compute. exact I.
  - vm_compute. reflexivity.
  - reflexivity.
  - reflexivity.
Defined.

(** C4 as stated fails once a like has been taken back: [kim] likes 50
    different posts in one morning, takes the like of the first one back in
    the evening, which deletes its like record, and then likes a 51st post
    the same evening. 49 records are dated that day, so the request is
    answered with [liked = True]. *)
Lemma fifty_likes_then_unlike_counterexample :
  let st50 := run_like_calls busy_campus fifty_likes in
  let back := api_like_post st50 kim (post_no 0) evening evening in
  let next := api_like_post (fst back) kim (post_no 50) evening evening in
  like_responses busy_campus fifty_likes = replicate 50 (LikeOk 1 true)
  ∧ NoDup (lc_post_id <$> fifty_likes)
  ∧ (post_no 50 ∉ lc_post_id <$> fifty_likes)
  ∧ likes_today st50 (lit "7c2e9b41") evening = 50
  ∧ snd back = LikeOk 0 false
  ∧ likes_today (fst back) (lit "7c2e9b41") evening = 49
  ∧ dt_day evening = dt_day morning
  ∧ snd next = LikeOk 1 true
  ∧ snd next ≠ LikeDenied daily_limit_msg.
Proof.
  split_and!.
  - vm_compute. reflexivity.
  - apply (bool_decide_unpack _). vm_compute. exact I.
  - apply (bool_decide_unpack _). vm_compute. exact I.
  - vm_compute. reflexivity.
  - vm_compute. reflexivity.
  - vm_compute. reflexivity.
  - reflexivity.
  - vm_compute. reflexivity.
  - vm_compute. discriminate.
Qed.

(** ** Favourites and post deletion *)

Lemma api_toggle_favorite_keeps_ok (st : state) (sess : session) (pid : str) :
  favorites_ok st → favorites_ok (fst (api_toggle_favorite st sess pid)).
Proof.
  intros Hok. unfold api_toggle_favorite.
  destruct (get_current_user st sess) as [user|]; [|done].
  assert (NoDup (default [] (user_favorites st !! u_user_id user))) as Hnd.
  { destruct (user_favorites st !! u_user_id user) as [l|] eqn:E; simpl.
    - exact (Hok _ _ E).
    - constructor. }
  case_bool_decide as Hin; cbn [fst user_favorites set_user_favorites];
    apply map_Forall_insert_2; try done.
  - by apply list_remove_first_NoDup.
  - by apply NoDup_snoc_fresh.
Qed.

Lemma initial_favorites_ok : favorites_ok initial_state.
Proof. apply map_Forall_empty. Qed.

Lemma set_experience_posts_id (st : state) :
  set_experience_posts (experience_posts st) st = st.
Proof. by destruct st. Qed.

Lemma find_by_id_delete_unique (posts : list post) (pid : str) i p :
  find_by_id p_id pid posts = Some (i, p) →
  NoDup (p_id <$> posts) →
  pid ∉ p_id <$> delete i posts.
Proof.
  intros Hf Hnd. destruct (find_by_id_id _ _ _ _ _ Hf) as [Hi Hid].
  intros (q & Hq & Hin)%list_elem_of_fmap.
  apply list_elem_of_lookup in Hin as [j Hj].
  assert ((p_id <$> posts) !! i = Some pid) as Hi'.
  { by rewrite list_lookup_fmap, Hi, <- Hid. }
  destruct (decide (j < i)%nat) as [Hlt|Hge].
  - rewrite list_lookup_delete_lt in Hj by done.
    assert ((p_id <$> posts) !! j = Some pid) as Hj'.
    { by rewrite list_lookup_fmap, Hj, Hq. }
    pose proof (NoDup_lookup _ _ _ _ Hnd Hi' Hj'). lia.
  - rewrite list_lookup_delete_ge in Hj by lia.
    assert ((p_id <$> posts) !! S j = Some pid) as Hj'.
    { by rewrite list_lookup_fmap, Hj, Hq. }
    pose proof (NoDup_lookup _ _ _ _ Hnd Hi' Hj'). lia.
Qed.

(** C8, as the code has it. [api_delete_post] changes nothing and reports a
    failure unless the session's user is the [author_id] of the first post
    with the given ID. On success that post is removed from
    [experience_posts] and the ID is removed from every user's favourites;
    as a favourites list names a post at most once, right after the
    deletion no favourites list contains the ID, and no post has it when
    post IDs are unique. *)
Theorem api_delete_post_owner_only (st : state) (sess : session) (pid : str) :
  favorites_ok st →
  (snd (api_delete_post st sess pid) ≠ DeleteOk → fst (api_delete_post st sess pid) = st)
  ∧ (snd (api_delete_post st sess pid) = DeleteOk ↔
       ∃ user i p, get_current_user st sess = Some user
                   ∧ find_by_id p_id pid (experience_posts st) = Some (i, p)
                   ∧ p_author_id p = Some (u_user_id user))
  ∧ (snd (api_delete_post st sess pid) = DeleteOk →
       ∃ i p, find_by_id p_id pid (experience_posts st) = Some (i, p)
              ∧ experience_posts (fst (api_delete_post st sess pid))
                = delete i (experience_posts st)
              ∧ (NoDup (p_id <$> experience_posts st) →
                   pid ∉ p_id <$> experience_posts (fst (api_delete_post st sess pid)))
              ∧ user_favorites (fst (api_delete_post st sess pid))
                = (list_remove_first pid <$> user_favorites st)
              ∧ map_Forall (λ _ favs, pid ∉ favs)
                  (user_favorites (fst (api_delete_post st sess pid)))
              ∧ favorites_ok (fst (api_delete_post st sess pid))).
Proof.
  intros Hok. unfold api_delete_post.
  destruct (get_current_user st sess) as [user|] eqn:Hu.
  2:{ split_and!; [done | | done]. split; [done|]. by intros (? & ? & ? & ? & _). }
  destruct (find_by_id p_id pid (experience_posts st)) as [[i p]|] eqn:Hf.
  2:{ split_and!; [done | | done]. split; [done|]. by intros (? & ? & ? & _ & ? & _). }
  case_bool_decide as Hauth.
  { split_and!; [done | | done]. split; [done|].
    intros (user' & i' & p' & [= <-] & [= <- <-] & Ha). done. }
  cbn [fst snd experience_posts user_favorites set_experience_posts set_user_favorites].
  split_and!; [done | split; [intros _; by exists user, i, p | done] |].
  intros _. exists i, p. split_and!; [done | done | | done | |].
  - by apply (find_by_id_delete_unique _ _ _ p).
  - intros u favs. rewrite lookup_fmap.
    destruct (user_favorites st !! u) as [l|] eqn:E; [|done].
    intros [= <-]. by apply list_remove_first_NoDup, (Hok u).
  - unfold favorites_ok. cbn [user_favorites set_user_favorites].
    intros u favs. rewrite lookup_fmap.
    destruct (user_favorites st !! u) as [l|] eqn:E; [|done].
    intros [= <-]. by apply list_remove_first_NoDup, (Hok u).
Qed.

Lemma api_delete_post_owner_only_witness :
  user_favorites campus_with_favorite !! lit "7c2e9b41" = Some [lit "a1b2c3d4"]
  ∧ ∃ i p,
      find_by_id p_id (lit "a1b2c3d4") (experience_posts campus_with_favorite) = Some (i, p)
      ∧ experience_posts (fst (api_delete_post campus_with_favorite kim (lit "a1b2c3d4")))
        = delete i (experience_posts campus_with_favorite)
      ∧ (NoDup (p_id <$> experience_posts campus_with_favorite) →
           lit "a1b2c3d4"
             ∉ p_id <$> experience_posts
                          (fst (api_delete_post campus_with_favorite kim (lit "a1b2c3d4"))))
      ∧ user_favorites (fst (api_delete_post campus_with_favorite kim (lit "a1b2c3d4")))
        = (list_remove_first (lit "a1b2c3d4") <$> user_favorites campus_with_favorite)
      ∧ map_Forall (λ _ favs, lit "a1b2c3d4" ∉ favs)
          (user_favorites (fst (api_delete_post campus_with_favorite kim (lit "a1b2c3d4"))))
      ∧ favorites_ok (fst (api_delete_post campus_with_favorite kim (lit "a1b2c3d4"))).
Proof.
  split; [reflexivity|].
  assert (favorites_ok campus_with_favorite) as Hok.
  { apply api_toggle_favorite_keeps_ok. apply map_Forall_empty. }
  apply (proj2 (proj2 (api_delete_post_owner_only campus_with_favorite kim
                         (lit "a1b2c3d4") Hok))).
  reflexivity.
Defined.

(** C8 as stated fails in its last part: [api_toggle_favorite] does not look
    the post up, so after a successful deletion the same request puts the
    ID of the deleted post into the user's favourites. *)
Lemma favorite_of_deleted_post_counterexample :
  let deleted := api_delete_post campus_with_post kim (lit "a1b2c3d4") in
  let toggled := api_toggle_favorite (fst deleted) kim (lit "a1b2c3d4") in
  snd deleted = DeleteOk
  ∧ snd toggled = FavOk true
  ∧ find_by_id p_id (lit "a1b2c3d4") (experience_posts (fst toggled)) = None
  ∧ user_favorites (fst toggled) !! lit "7c2e9b41" = Some [lit "a1b2c3d4"].
Proof. vm_compute. split_and!; reflexivity. Qed.

(* ===================================================================== *)
(** * Further properties of the handlers *)
(* ===================================================================== *)

(** ** Notifications *)

(** [add_notification] puts the new, unread notification first in the
    recipient's list and keeps the 100 newest: with 100 entries stored, the
    oldest one is dropped. The lists of other users are not touched. *)
Theorem add_notification_newest_first
    (user_id notif_type content source : str) (post_id : option str)
    (new_id : str) (now : datetime) (notifs : gmap str (list notification)) :
  let old := default [] (notifs !! user_id) in
  let notifs' := add_notification user_id notif_type content source post_id
                   new_id now notifs in
  notifs' !! user_id
    = Some (Notification new_id notif_type content source post_id (Some false) now
              :: take 99 old)
  ∧ length (default [] (notifs' !! user_id)) = Nat.min 100 (S (length old))
  ∧ (∀ other, other ≠ user_id → notifs' !! other = notifs !! other).
Proof.
  intros old notifs'. subst notifs'. unfold add_notification. fold old.
  rewrite lookup_insert_eq. split_and!.
  - done.
  - cbn [default from_option id take length]. rewrite length_take. lia.
  - intros other Hne. by rewrite lookup_insert_ne.
Qed.

Lemma add_notification_keeps_cap
    (user_id notif_type content source : str) (post_id : option str)
    (new_id : str) (now : datetime) (notifs : gmap str (list notification)) :
  map_Forall (λ _ l, (length l ≤ 100)%nat) notifs →
  map_Forall (λ _ l, (length l ≤ 100)%nat)
    (add_notification user_id notif_type content source post_id new_id now notifs).
Proof.
  intros Hcap. unfold add_notification. apply map_Forall_insert_2; [|done].
  rewrite length_take. lia.
Qed.

(** X1. From stores in which nobody holds more than 100 notifications (the
    empty initial store), no sequence of [add_notification] calls makes a
    list longer than 100. *)
Theorem notifications_never_exceed_cap
    (notifs : gmap str (list notification)) (calls : list notify_call) :
  map_Forall (λ _ l, (length l ≤ 100)%nat) notifs →
  map_Forall (λ _ l, (length l ≤ 100)%nat) (run_notify notifs calls).
Proof.
  revert notifs. induction calls as [|c calls IH]; intros notifs Hcap; [done|].
  apply IH. by apply add_notification_keeps_cap.
Qed.

Lemma notifications_never_exceed_cap_witness :
  map_Forall (λ _ l, (length l ≤ 100)%nat) (run_notify ∅ many_pings)
  ∧ length (default [] (run_notify ∅ many_pings !! lit "7c2e9b41")) = 100%nat.
Proof.
  split; [|vm_compute; reflexivity].
  apply (notifications_never_exceed_cap ∅ many_pings). apply map_Forall_empty.
Defined.

Lemma unread_notifications_marked (l : list notification) :
  unread_notifications (mark_read <$> l) = 0.
Proof.
  unfold unread_notifications. induction l as [|n l IH]; [done|]. simpl. exact IH.
Qed.

Lemma unread_notifications_cons (n : notification) (l : list notification) :
  unread_notifications (n :: l)
  = (if default false (n_read n) then 0 else 1) + unread_notifications l.
Proof.
  unfold unread_notifications. simpl. destruct (default false (n_read n)); simpl; lia.
Qed.

Lemma mark_if_listed_all (n : notification) : mark_if_listed [] n = mark_read n.
Proof. unfold mark_if_listed. by rewrite bool_decide_eq_true_2. Qed.

(** X2. [api_mark_notifications_read] with an empty list of IDs marks every
    notification of the user: the next [api_get_notifications] shows the
    same notifications in the same order, all read, with unread count 0.
    The lists of other users keep their state. *)
Theorem mark_all_notifications_read
    (st : state) (notifs : gmap str (list notification)) (sess : session)
    (uid : str) (l : list notification) :
  logged_in st sess uid →
  notifs !! uid = Some l →
  ∃ notifs',
    api_mark_notifications_read st notifs sess [] = (notifs', MarkDone true)
    ∧ api_get_notifications st notifs' sess = NotifList true (mark_read <$> take 50 l) 0
    ∧ (∀ other, other ≠ uid → notifs' !! other = notifs !! other).
Proof.
  intros (user & Hu & <-) Hl.
  assert (∃ x, s_user_id sess = Some x) as [x Hs].
  { unfold get_current_user in Hu. destruct (s_user_id sess); [eauto | done]. }
  unfold api_mark_notifications_read, api_get_notifications. rewrite Hs, Hu, Hl.
  eexists. split; [done|]. split.
  - rewrite lookup_insert_eq. cbn [default from_option id].
    rewrite (list_fmap_ext (mark_if_listed []) mark_read l)
      by (intros; apply mark_if_listed_all).
    by rewrite unread_notifications_marked, fmap_take.
  - intros other Hne. by rewrite lookup_insert_ne.
Qed.

Lemma mark_all_notifications_read_witness :
  ∃ notifs',
    api_mark_notifications_read campus (run_notify ∅ many_pings) kim []
      = (notifs', MarkDone true)
    ∧ api_get_notifications campus notifs' kim
      = NotifList true
          (mark_read <$> take 50 (default [] (run_notify ∅ many_pings !! lit "7c2e9b41"))) 0
    ∧ (∀ other, other ≠ lit "7c2e9b41" →
         notifs' !! other = run_notify ∅ many_pings !! other).
Proof.
  apply (mark_all_notifications_read campus (run_notify ∅ many_pings) kim
           (lit "7c2e9b41")).
  - eexists. split; reflexivity.
  - vm_compute. reflexivity.
Defined.

Lemma mark_if_listed_idem (ids : list str) (n : notification) :
  mark_if_listed ids (mark_if_listed ids n) = mark_if_listed ids n.
Proof.
  unfold mark_if_listed.
  destruct (bool_decide (ids = []) || bool_decide (n_id n ∈ ids)) eqn:E; simpl.
  - by rewrite E.
  - by rewrite E.
Qed.

Lemma unread_mark_if_listed_le (ids : list str) (l : list notification) :
  unread_notifications (mark_if_listed ids <$> l) ≤ unread_notifications l.
Proof.
  induction l as [|n l IH]; [done|].
  rewrite fmap_cons, !unread_notifications_cons.
  unfold mark_if_listed at 1.
  destruct (bool_decide (ids = []) || bool_decide (n_id n ∈ ids)); simpl;
    destruct (default false (n_read n)); lia.
Qed.

(** X3. [api_mark_notifications_read] with a non-empty list of IDs keeps
    the user's notifications in place and sets the read flag of exactly
    those whose ID is listed; a notification that is not listed keeps its
    flag, so the unread count never grows. Sending the same request again
    changes nothing. *)
Theorem mark_listed_notifications_read
    (st : state) (notifs : gmap str (list notification)) (sess : session)
    (uid : str) (l : list notification) (ids : list str) :
  logged_in st sess uid →
  notifs !! uid = Some l →
  ids ≠ [] →
  ∃ l',
    api_mark_notifications_read st notifs sess ids = (<[uid := l']> notifs, MarkDone true)
    ∧ Forall2 (λ n n', n' = (if bool_decide (n_id n ∈ ids) then mark_read n else n)) l l'
    ∧ unread_notifications l' ≤ unread_notifications l
    ∧ api_mark_notifications_read st (<[uid := l']> notifs) sess ids
      = (<[uid := l']> notifs, MarkDone true).
Proof.
  intros (user & Hu & <-) Hl Hids.
  assert (∃ x, s_user_id sess = Some x) as [x Hs].
  { unfold get_current_user in Hu. destruct (s_user_id sess); [eauto | done]. }
  unfold api_mark_notifications_read. rewrite Hs, Hu, Hl.
  exists (mark_if_listed ids <$> l). split_and!.
  - done.
  - apply Forall2_fmap_r, Forall_Forall2_diag, Forall_true. intros n.
    unfold mark_if_listed. by rewrite (bool_decide_eq_false_2 (ids = [])).
  - apply unread_mark_if_listed_le.
  - rewrite lookup_insert_eq, insert_insert_eq. do 2 f_equal.
    rewrite <- list_fmap_compose. apply list_fmap_ext. intros _ n _.
    apply mark_if_listed_idem.
Qed.

Lemma mark_listed_notifications_read_witness :
  ∃ l',
    api_mark_notifications_read campus (run_notify ∅ many_pings) kim [post_no 119]
      = (<[lit "7c2e9b41" := l']> (run_notify ∅ many_pings), MarkDone true)
    ∧ Forall2 (λ n n', n' = (if bool_decide (n_id n ∈ [post_no 119])
                             then mark_read n else n))
        (default [] (run_notify ∅ many_pings !! lit "7c2e9b41")) l'
    ∧ unread_notifications l'
      ≤ unread_notifications (default [] (run_notify ∅ many_pings !! lit "7c2e9b41"))
    ∧ api_mark_notifications_read campus
        (<[lit "7c2e9b41" := l']> (run_notify ∅ many_pings)) kim [post_no 119]
      = (<[lit "7c2e9b41" := l']> (run_notify ∅ many_pings), MarkDone true).
Proof.
  apply (mark_listed_notifications_read campus (run_notify ∅ many_pings) kim
           (lit "7c2e9b41")).
  - eexists. split; reflexivity.
  - vm_compute. reflexivity.
  - discriminate.
Defined.

(** X4. A notification that has just been added is the first entry of the
    recipient's next [api_get_notifications] answer, which lists the 50
    newest notifications while its unread count runs over all kept ones:
    one for the new notification plus the unread ones among the 99 newest
    before. *)
Theorem new_notification_is_listed_first
    (st : state) (notifs : gmap str (list notification)) (sess : session)
    (uid notif_type content source : str) (post_id : option str)
    (new_id : str) (now : datetime) :
  logged_in st sess uid →
  let old := default [] (notifs !! uid) in
  api_get_notifications st
    (add_notification uid notif_type content source post_id new_id now notifs) sess
  = NotifList true
      (Notification new_id notif_type content source post_id (Some false) now
         :: take 49 old)
      (1 + unread_notifications (take 99 old)).
Proof.
  intros (user & Hu & <-) old.
  assert (∃ x, s_user_id sess = Some x) as [x Hs].
  { unfold get_current_user in Hu. destruct (s_user_id sess); [eauto | done]. }
  unfold api_get_notifications, add_notification. rewrite Hs, Hu, lookup_insert_eq.
  fold old. cbn [default from_option id take].
  by rewrite unread_notifications_cons, take_take.
Qed.

Lemma new_notification_is_listed_first_witness :
  api_get_notifications campus
    (add_notification (lit "7c2e9b41") (lit "reply") (lit "New reply to your comment")
       (lit "3f9a1c07") None (lit "0e4d2a6b") evening (run_notify ∅ many_pings)) kim
  = NotifList true
      (Notification (lit "0e4d2a6b") (lit "reply") (lit "New reply to your comment")
         (lit "3f9a1c07") None (Some false) evening
         :: take 49 (default [] (run_notify ∅ many_pings !! lit "7c2e9b41")))
      (1 + unread_notifications
             (take 99 (default [] (run_notify ∅ many_pings !! lit "7c2e9b41")))).
Proof.
  apply (new_notification_is_listed_first campus (run_notify ∅ many_pings) kim
           (lit "7c2e9b41")).
  eexists. split; reflexivity.
Defined.

(** ** Custom tags *)

Lemma tag_pattern_matches_cons (c : N) (s : str) :
  tag_pattern_matches (c :: s)
  = is_tag_char c && (bool_decide (s = []) || bool_decide (s = [newline])
                      || tag_pattern_matches s).
Proof.
  destruct s as [|c' [|c'' s]].
  - simpl. by rewrite andb_true_r.
  - cbn [tag_pattern_matches]. f_equal.
    rewrite (bool_decide_eq_false_2 ([c'] = [])) by done. cbn [orb].
    destruct (N.eqb_spec c' newline) as [->|Hne]; [done|].
    by rewrite bool_decide_eq_false_2 by congruence.
  - cbn [tag_pattern_matches]. f_equal.
    rewrite (bool_decide_eq_false_2 (_ = [])) by done.
    by rewrite (bool_decide_eq_false_2 (_ = [newline])) by done.
Qed.

Lemma tag_pattern_matches_spec (s : str) :
  tag_pattern_matches s = true ↔
  ∃ body, body ≠ [] ∧ Forall (λ c, is_tag_char c = true) body
          ∧ (s = body ∨ s = body ++ [newline]).
Proof.
  induction s as [|c s IH].
  - split; [done|]. intros (body & Hne & _ & [H|H]); destruct body; done.
  - rewrite tag_pattern_matches_cons, andb_true_iff, !orb_true_iff,
      !bool_decide_eq_true, IH. split.
    + intros [Hc [[->| ->]|(body & Hne & Hall & Hs)]].
      * exists [c]. split_and!; [done | by constructor | by left].
      * exists [c]. split_and!; [done | by constructor | by right].
      * exists (c :: body). split_and!; [done | by constructor |].
        destruct Hs as [->| ->]; [by left | by right].
    + intros (body & Hne & Hall & Hs).
      destruct body as [|b body]; [done|].
      apply Forall_cons in Hall as [Hb Hall].
      assert (b = c ∧ (s = body ∨ s = body ++ [newline])) as [-> Hs'].
      { destruct Hs as [[= -> ->]|[= -> ->]]; auto. }
      split; [done|]. destruct body as [|b' body].
      * destruct Hs' as [->| ->]; auto.
      * right. exists (b' :: body). done.
Qed.

(** X5. [validate_custom_tag] accepts exactly the tags of 2 to 10
    characters that consist of ASCII letters, digits and characters from
    U+4E00 to U+9FA5, optionally followed by one final newline (the [$] of
    the pattern matches before it). A tag of another length is refused with
    the length message, whatever its characters. *)
Theorem validate_custom_tag_accepts (tag : str) :
  (validate_custom_tag tag = (true, []) ↔
     (2 ≤ length tag ≤ 10)%nat
     ∧ ∃ body, body ≠ [] ∧ Forall (λ c, is_tag_char c = true) body
               ∧ (tag = body ∨ tag = body ++ [newline]))
  ∧ ((length tag < 2 ∨ 10 < length tag)%nat ↔
       validate_custom_tag tag = (false, tag_length_msg)).
Proof.
  unfold validate_custom_tag.
  destruct (Nat.ltb_spec (length tag) 2) as [H2|H2];
    destruct (Nat.ltb_spec 10 (length tag)) as [H10|H10];
    rewrite ?orb_true_r; cbn [orb].
  1-3: split; [split; [done | intros [? _]; lia] | split; [done | intros _; lia]].
  rewrite bool_decide_eq_false_2 by (intros ->; simpl in H2; lia). cbn [orb].
  rewrite <- tag_pattern_matches_spec.
  destruct (tag_pattern_matches tag); cbn [negb].
  - split; [split; [done | done] | split; [lia | done]].
  - split; [split; [done | by intros [_ ?]] | split; [lia | discriminate]].
Qed.

(** A one-letter tag followed by a newline passes; a letter, a newline and a
    letter does not. *)
Example validate_custom_tag_newline :
  validate_custom_tag (lit "a" ++ [newline]) = (true, [])
  ∧ validate_custom_tag (lit "a" ++ [newline] ++ lit "b") = (false, tag_chars_msg)
  ∧ validate_custom_tag (lit "a") = (false, tag_length_msg).
Proof. split_and!; reflexivity. Qed.

(** ** Dream-job votes on posts *)

Lemma vote_post_later_refl (p : dream_post) : vote_post_later p p.
Proof.
  split_and!; try done. exists []. rewrite app_nil_r. split_and!; [done | simpl; lia | done].
Qed.

Lemma vote_post_later_trans (p p' p'' : dream_post) :
  vote_post_later p p' → vote_post_later p' p'' → vote_post_later p p''.
Proof.
  intros (Hid & Hd & (m & Hv & Hc & Hn) & Hsame) (Hid' & Hd' & (m' & Hv' & Hc' & Hn') & Hsame').
  split_and!; [congruence | congruence | |].
  - exists (m ++ m'). split_and!; [| | auto].
    + by rewrite Hv', Hv, app_assoc.
    + rewrite Hc', Hc, length_app. lia.
  - intros Hnd. rewrite Hsame' by (by rewrite Hd). by apply Hsame.
Qed.

Lemma api_vote_post_step (st : state) (posts : list dream_post) (sess : session)
    (pid : str) :
  Forall2 vote_post_later posts (fst (api_vote_post st posts sess pid)).
Proof.
  assert (Forall2 vote_post_later posts posts) as Hrefl.
  { apply Forall_Forall2_diag, Forall_true. apply vote_post_later_refl. }
  unfold api_vote_post.
  destruct (get_current_user st sess) as [user|]; [|done].
  destruct (find_by_id dp_id pid posts) as [[i p]|] eqn:Hf; [|done].
  destruct (default false (dp_is_dream_job p)) eqn:Hdream; [|done]. cbn [negb].
  case_bool_decide as Hin; [done|]. cbn [fst].
  destruct (find_by_id_id _ _ _ _ _ Hf) as [Hi _].
  rewrite <- (list_insert_id posts i p Hi) at 1.
  apply Forall2_insert; [done|].
  split_and!; [done | done | | by rewrite Hdream].
  exists [u_user_id user]. unfold voted_list, vote_count. cbn.
  split_and!; [done | lia | intros; by apply NoDup_snoc_fresh].
Qed.

(** X6. Dream-job votes on a post are never taken back and never repeated:
    over any sequence of [api_vote_post] requests the posts stay in place,
    each [voted_by] list only gets longer at its end, the vote counter
    grows by exactly the number of added voters, a list without duplicates
    stays so, and a post that is not flagged [is_dream_job] is not changed
    at all. *)
Theorem dream_votes_only_grow (st : state) (posts : list dream_post)
    (calls : list vote_post_call) :
  Forall2 vote_post_later posts (run_vote_posts st posts calls).
Proof.
  revert posts. induction calls as [|c calls IH]; intros posts.
  - apply Forall_Forall2_diag, Forall_true. apply vote_post_later_refl.
  - cbn [run_vote_posts foldl].
    eapply Forall2_trans; [|apply api_vote_post_step|apply IH].
    intros p p' p''. apply vote_post_later_trans.
Qed.

(** X7. A user votes for a dream-job post at most once, with no daily
    reset: after a vote that succeeded, the same request is answered
    "already voted" and changes nothing, however much later it is sent. The
    successful vote itself raised the post's counter by one. *)
Theorem vote_post_only_once (st : state) (posts posts1 : list dream_post)
    (sess : session) (uid pid : str) (v : Z) :
  logged_in st sess uid →
  api_vote_post st posts sess pid = (posts1, VotePostOk v) →
  api_vote_post st posts1 sess pid = (posts1, VotePostAlready)
  ∧ ∃ i p p1,
      find_by_id dp_id pid posts = Some (i, p)
      ∧ find_by_id dp_id pid posts1 = Some (i, p1)
      ∧ vote_count p1 = v ∧ v = vote_count p + 1
      ∧ voted_list p1 = voted_list p ++ [uid].
Proof.
  intros (user & Hu & <-) Hrun. unfold api_vote_post in Hrun |- *. rewrite Hu in *.
  destruct (find_by_id dp_id pid posts) as [[i p]|] eqn:Hf; [|done].
  destruct (default false (dp_is_dream_job p)) eqn:Hdream; [|done].
  cbn [negb] in Hrun. case_bool_decide as Hin; [done|].
  injection Hrun as <- <-.
  set (p1 := DreamPost (dp_id p) (dp_is_dream_job p) (Some (default 0 (dp_votes p) + 1))
                       (Some (default [] (dp_voted_by p) ++ [u_user_id user]))).
  assert (find_by_id dp_id pid (<[i := p1]> posts) = Some (i, p1)) as Hf1.
  { apply (find_by_id_insert_same _ _ _ _ p); [done|].
    by destruct (find_by_id_id _ _ _ _ _ Hf). }
  rewrite Hf1. cbn [dp_is_dream_job p1]. rewrite Hdream. cbn [negb].
  rewrite bool_decide_eq_true_2.
  2:{ cbn. apply elem_of_app. right. apply list_elem_of_here. }
  split; [done|]. exists i, p, p1. done.
Qed.

Lemma vote_post_only_once_witness :
  let posts1 := fst (api_vote_post campus dream_board kim (lit "d2")) in
  api_vote_post campus posts1 kim (lit "d2") = (posts1, VotePostAlready)
  ∧ ∃ i p p1,
      find_by_id dp_id (lit "d2") dream_board = Some (i, p)
      ∧ find_by_id dp_id (lit "d2") posts1 = Some (i, p1)
      ∧ vote_count p1 = 4 ∧ 4 = vote_count p + 1
      ∧ voted_list p1 = voted_list p ++ [lit "7c2e9b41"].
Proof.
  apply (vote_post_only_once campus dream_board _ kim (lit "7c2e9b41") (lit "d2") 4).
  - eexists. split; reflexivity.
  - reflexivity.
Defined.

(** ** Conversation keys *)

Lemma split_on_without_sep (c : N) (s : str) : c ∉ s → split_on c s = [s].
Proof.
  induction s as [|x s IH]; [done|].
  intros [Hne Hs]%not_elem_of_cons. simpl.
  rewrite (proj2 (N.eqb_neq x c)) by congruence. by rewrite IH.
Qed.

Lemma split_on_app_sep (c : N) (a b : str) :
  c ∉ a → split_on c (a ++ c :: b) = a :: split_on c b.
Proof.
  induction a as [|x a IH]; intros Ha; simpl.
  - by rewrite N.eqb_refl.
  - apply not_elem_of_cons in Ha as [Hne Ha].
    rewrite (proj2 (N.eqb_neq x c)) by congruence. by rewrite IH.
Qed.

Lemma get_conversation_id_unfold (a b : str) :
  get_conversation_id a b
  = match sorted str_ltb [a; b] with
    | [x; y] => x ++ underscore :: y
    | _ => []
    end.
Proof.
  unfold get_conversation_id, sorted. simpl. by destruct (str_ltb b a).
Qed.

Lemma sorted_pair (a b : str) :
  sorted str_ltb [a; b] = if str_ltb b a then [b; a] else [a; b].
Proof. unfold sorted. simpl. by destruct (str_ltb b a). Qed.

Lemma split_conversation_id (a b : str) :
  underscore ∉ a → underscore ∉ b →
  split_on underscore (get_conversation_id a b) = sorted str_ltb [a; b].
Proof.
  intros Ha Hb. rewrite get_conversation_id_unfold, sorted_pair.
  destruct (str_ltb b a); rewrite split_on_app_sep, split_on_without_sep; done.
Qed.

Lemma conversation_id_parts (a b x : str) :
  underscore ∉ a → underscore ∉ b → x = a ∨ x = b →
  takes_part x (get_conversation_id a b) = true.
Proof.
  intros Ha Hb Hx. unfold takes_part.
  rewrite bool_decide_eq_true, split_conversation_id, sorted_pair by done.
  destruct (str_ltb b a); rewrite !elem_of_cons; tauto.
Qed.

(** X8. For two user IDs without an underscore the conversation key can be
    split back into the two IDs in sorted order, so [uid in
    conv_id.split("_")] holds for exactly the two participants. *)
Theorem conversation_id_split_roundtrip (a b : str) :
  underscore ∉ a → underscore ∉ b →
  split_on underscore (get_conversation_id a b) = sorted str_ltb [a; b]
  ∧ ∀ x, takes_part x (get_conversation_id a b) = true ↔ x = a ∨ x = b.
Proof.
  intros Ha Hb. split; [by apply split_conversation_id|].
  intros x. unfold takes_part.
  rewrite bool_decide_eq_true, split_conversation_id, sorted_pair by done.
  destruct (str_ltb b a); rewrite !elem_of_cons, elem_of_nil; tauto.
Qed.

Lemma conversation_id_split_roundtrip_witness :
  split_on underscore (get_conversation_id (lit "7c2e9b41") (lit "3f9a1c07"))
    = sorted str_ltb [lit "7c2e9b41"; lit "3f9a1c07"]
  ∧ ∀ x, takes_part x (get_conversation_id (lit "7c2e9b41") (lit "3f9a1c07")) = true
         ↔ x = lit "7c2e9b41" ∨ x = lit "3f9a1c07".
Proof.
  apply (conversation_id_split_roundtrip (lit "7c2e9b41") (lit "3f9a1c07"));
    apply (bool_decide_unpack _); vm_compute; exact I.
Defined.

(** ** Sending and reading private messages *)

Lemma logged_in_session (st : state) (sess : session) (uid : str) :
  logged_in st sess uid →
  ∃ user x, s_user_id sess = Some x ∧ get_current_user st sess = Some user
            ∧ u_user_id user = uid.
Proof.
  intros (user & Hu & Hid). exists user.
  unfold get_current_user in Hu. destruct (s_user_id sess) as [x|] eqn:E; [|done].
  exists x. split_and!; [done | | done]. unfold get_current_user. by rewrite E.
Qed.



Lemma assoc_get_set_eq {V} (k : str) (v : V) (d : list (str * V)) :
  assoc_get k (assoc_set k v d) = Some v.
Proof.
  induction d as [|[k' v'] d IH]; simpl.
  - by rewrite bool_decide_eq_true_2.
  - case_bool_decide; simpl.
    + by rewrite bool_decide_eq_true_2.
    + by rewrite bool_decide_eq_false_2.
Qed.

Lemma assoc_get_set_ne {V} (k k' : str) (v : V) (d : list (str * V)) :
  k' ≠ k → assoc_get k' (assoc_set k v d) = assoc_get k' d.
Proof.
  intros Hne. induction d as [|[k0 v0] d IH]; simpl.
  - by rewrite bool_decide_eq_false_2.
  - case_bool_decide as Hk; simpl.
    + subst. by rewrite !bool_decide_eq_false_2 by congruence.
    + case_bool_decide; [done | exact IH].
Qed.

Lemma total_unread_assoc_set (uid k : str) (v : list message)
    (pm : list (str * list message)) :
  total_unread uid (assoc_set k v pm)
  = total_unread uid pm
    - (if takes_part uid k then unread_for uid (default [] (assoc_get k pm)) else 0)
    + (if takes_part uid k then unread_for uid v else 0).
Proof.
  induction pm as [|[k' v'] pm IH]; simpl.
  - destruct (takes_part uid k); unfold unread_for; simpl; lia.
  - case_bool_decide as Hk; simpl.
    + subst. destruct (takes_part uid k); lia.
    + rewrite IH. lia.
Qed.

Lemma unread_for_app (uid : str) (l1 l2 : list message) :
  unread_for uid (l1 ++ l2) = unread_for uid l1 + unread_for uid l2.
Proof. unfold unread_for. rewrite List.filter_app, length_app. lia. Qed.

Lemma api_send_message_ok
    (st : state) (settings : gmap str (option bool))
    (notifs : gmap str (list notification)) (sess : session)
    (uid other raw new_id created_at notif_id : str) (now : datetime) (m : message) :
  logged_in st sess uid →
  (api_send_message st settings notifs sess other raw new_id created_at notif_id now).2
    = SendOk m →
  ∃ sender_name,
    m = Message new_id uid other (strip raw) (Some false) created_at
    ∧ api_send_message st settings notifs sess other raw new_id created_at notif_id now
      = (set_private_messages
           (assoc_set (get_conversation_id uid other)
              (default [] (assoc_get (get_conversation_id uid other)
                             (private_messages st)) ++ [m])
              (private_messages st)) st,
         add_notification other (lit "message")
           (lit "New message from " ++ sender_name ++ lit ": "
              ++ take 30 (strip raw) ++ lit "...")
           uid None notif_id now notifs,
         SendOk m).
Proof.
  intros Hlog. destruct (logged_in_session _ _ _ Hlog) as (user & x & Hs & Hu & <-).
  unfold api_send_message. rewrite Hs, Hu.
  destruct (receives_messages settings other); cbn [negb]; [|done].
  case_bool_decide; [done|].
  destruct (1000 <? length (strip raw))%nat; [done|].
  destruct (check_content_moderation (strip raw)) as [[] msg]; cbn [negb]; [|done].
  cbn [snd]. intros [= <-]. by eexists.
Qed.

(** X10. A message that [api_send_message] accepts is stored, unread and
    stripped of surrounding whitespace, as the last message of the
    conversation of the two users, and a notification for the receiver is
    put first in the receiver's list. When the two user IDs differ and
    contain no underscore, the receiver's [api_messages_unread_count] goes
    up by one and the sender's stays as it is. *)
Theorem accepted_message_is_delivered
    (st : state) (settings : gmap str (option bool))
    (notifs : gmap str (list notification)) (sess sess' : session)
    (uid other raw new_id created_at notif_id : str) (now : datetime)
    (m : message) (n : Z) :
  logged_in st sess uid →
  logged_in st sess' other →
  uid ≠ other →
  underscore ∉ uid →
  underscore ∉ other →
  let out := api_send_message st settings notifs sess other raw new_id created_at
               notif_id now in
  out.2 = SendOk m →
  api_messages_unread_count st sess' = UnreadCount n →
  m = Message new_id uid other (strip raw) (Some false) created_at
  ∧ assoc_get (get_conversation_id uid other) (private_messages out.1.1)
    = Some (default [] (assoc_get (get_conversation_id uid other) (private_messages st))
            ++ [m])
  ∧ (∃ text, out.1.2 !! other
             = Some (Notification notif_id (lit "message") text uid None (Some false) now
                       :: take 99 (default [] (notifs !! other))))
  ∧ api_messages_unread_count out.1.1 sess' = UnreadCount (n + 1)
  ∧ api_messages_unread_count out.1.1 sess = api_messages_unread_count st sess.
Proof.
  intros Hlog Hlog' Hne Hu Ho out Hok Hn. subst out.
  destruct (api_send_message_ok _ _ _ _ _ _ _ _ _ _ _ _ Hlog Hok)
    as (sender & Hm & Hrun).
  rewrite Hrun. cbn [fst snd].
  destruct (logged_in_session _ _ _ Hlog) as (user & x & Hs & Hcu & Hid).
  destruct (logged_in_session _ _ _ Hlog') as (user' & x' & Hs' & Hcu' & Hid').
  assert (takes_part other (get_conversation_id uid other) = true) as Htp'.
  { apply conversation_id_parts; auto. }
  assert (takes_part uid (get_conversation_id uid other) = true) as Htp.
  { apply conversation_id_parts; auto. }
  split_and!.
  - done.
  - cbn [private_messages set_private_messages]. apply assoc_get_set_eq.
  - eexists. unfold add_notification. by rewrite lookup_insert_eq.
  - unfold api_messages_unread_count in *. rewrite Hs' in *.
    change (get_current_user (set_private_messages ?p st) sess')
      with (get_current_user st sess').
    rewrite Hcu' in *. rewrite Hid' in *. injection Hn as <-. f_equal.
    cbn [private_messages set_private_messages].
    rewrite total_unread_assoc_set, Htp', unread_for_app.
    rewrite Hm. unfold unread_for at 3. cbn.
    rewrite bool_decide_eq_true_2 by done. cbn. lia.
  - unfold api_messages_unread_count. rewrite Hs.
    change (get_current_user (set_private_messages ?p st) sess)
      with (get_current_user st sess).
    rewrite Hcu, Hid. f_equal.
    cbn [private_messages set_private_messages].
    rewrite total_unread_assoc_set, Htp, unread_for_app.
    rewrite Hm. unfold unread_for at 3. cbn.
    rewrite bool_decide_eq_false_2 by congruence. cbn. lia.
Qed.

Lemma accepted_message_is_delivered_witness :
  let m := Message (lit "5b0d77e2") (lit "7c2e9b41") (lit "3f9a1c07") (strip (lit "  Hello Lee "))
             (Some false) (lit "2026-01-15 09:30") in
  m = Message (lit "5b0d77e2") (lit "7c2e9b41") (lit "3f9a1c07")
        (strip (lit "  Hello Lee ")) (Some false) (lit "2026-01-15 09:30")
  ∧ assoc_get (get_conversation_id (lit "7c2e9b41") (lit "3f9a1c07"))
      (private_messages after_hello.1.1)
    = Some (default [] (assoc_get (get_conversation_id (lit "7c2e9b41") (lit "3f9a1c07"))
                          (private_messages two_users)) ++ [m])
  ∧ (∃ text, after_hello.1.2 !! lit "3f9a1c07"
             = Some (Notification (lit "9a8b7c6d") (lit "message") text (lit "7c2e9b41")
                       None (Some false) morning
                       :: take 99 (default [] ((∅ : gmap str (list notification))
                                               !! lit "3f9a1c07"))))
  ∧ api_messages_unread_count after_hello.1.1 lee = UnreadCount (0 + 1)
  ∧ api_messages_unread_count after_hello.1.1 kim
    = api_messages_unread_count two_users kim.
Proof.
  apply (accepted_message_is_delivered two_users ∅ ∅ kim lee (lit "7c2e9b41")
           (lit "3f9a1c07") (lit "  Hello Lee ") (lit "5b0d77e2")
           (lit "2026-01-15 09:30") (lit "9a8b7c6d") morning).
  - eexists. split; reflexivity.
  - eexists. split; reflexivity.
  - discriminate.
  - apply (bool_decide_unpack _). vm_compute. exact I.
  - apply (bool_decide_unpack _). vm_compute. exact I.
  - reflexivity.
  - reflexivity.
Defined.

Lemma read_by_not_unread (uid : str) (m : message) :
  bool_decide (m_receiver_id (read_by uid m) = uid)
  && negb (default false (m_read (read_by uid m))) = false.
Proof.
  unfold read_by. destruct (decide (m_receiver_id m = uid)) as [Hr|Hr].
  - rewrite (bool_decide_eq_true_2 _ Hr).
    cbn [m_read default from_option id negb]. apply andb_false_r.
  - rewrite (bool_decide_eq_false_2 _ Hr). by rewrite bool_decide_eq_false_2.
Qed.

Lemma read_by_other_unread (uid other : str) (m : message) :
  other ≠ uid →
  bool_decide (m_receiver_id (read_by uid m) = other)
  && negb (default false (m_read (read_by uid m)))
  = bool_decide (m_receiver_id m = other) && negb (default false (m_read m)).
Proof.
  intros Hne. unfold read_by. destruct (decide (m_receiver_id m = uid)) as [Hr|Hr].
  - rewrite (bool_decide_eq_true_2 _ Hr). cbn [m_receiver_id].
    by rewrite !bool_decide_eq_false_2 by congruence.
  - by rewrite (bool_decide_eq_false_2 _ Hr).
Qed.

Lemma read_by_fields (uid : str) (m : message) :
  m_id (read_by uid m) = m_id m ∧ m_sender_id (read_by uid m) = m_sender_id m
  ∧ m_receiver_id (read_by uid m) = m_receiver_id m
  ∧ m_content (read_by uid m) = m_content m
  ∧ m_created_at (read_by uid m) = m_created_at m.
Proof.
  unfold read_by. destruct (decide (m_receiver_id m = uid)) as [Hr|Hr].
  - rewrite (bool_decide_eq_true_2 _ Hr). split_and!; reflexivity.
  - rewrite (bool_decide_eq_false_2 _ Hr). split_and!; reflexivity.
Qed.

Lemma unread_for_read_by (uid : str) (l : list message) :
  unread_for uid (read_by uid <$> l) = 0.
Proof.
  unfold unread_for. induction l as [|m l IH]; [done|]. rewrite fmap_cons.
  cbn [List.filter]. by rewrite read_by_not_unread.
Qed.

Lemma unread_for_read_by_other (uid other : str) (l : list message) :
  other ≠ uid → unread_for other (read_by uid <$> l) = unread_for other l.
Proof.
  intros Hne. unfold unread_for. induction l as [|m l IH]; [done|]. rewrite fmap_cons.
  cbn [List.filter]. rewrite read_by_other_unread by done.
  destruct (bool_decide (m_receiver_id m = other) && negb (default false (m_read m)));
    cbn [length]; lia.
Qed.

(** X11. Reading a conversation with [api_get_messages] returns its
    messages in order with the same senders, receivers and contents, and
    marks those addressed to the reader as read, in the answer and in the
    store: the reader has no unread message left in that conversation,
    while what the other participant has not read yet stays unread. A
    conversation that does not exist is answered with an empty list and
    nothing is stored. *)
Theorem reading_marks_messages_read
    (st : state) (sess : session) (uid other : str) :
  logged_in st sess uid →
  uid ≠ other →
  let conv_id := get_conversation_id uid other in
  let out := api_get_messages st sess other in
  match assoc_get conv_id (private_messages st) with
  | None => out.1 = st ∧ ∃ name verified, out.2 = MessagesOk [] other name verified
  | Some old =>
      ∃ new name verified,
        out.2 = MessagesOk new other name verified
        ∧ assoc_get conv_id (private_messages out.1) = Some new
        ∧ Forall2 (λ m m', m_id m' = m_id m ∧ m_sender_id m' = m_sender_id m
                           ∧ m_receiver_id m' = m_receiver_id m
                           ∧ m_content m' = m_content m
                           ∧ m_created_at m' = m_created_at m) old new
        ∧ unread_for uid new = 0
        ∧ unread_for other new = unread_for other old
        ∧ (∀ k, k ≠ conv_id →
             assoc_get k (private_messages out.1) = assoc_get k (private_messages st))
  end.
Proof.
  intros Hlog Hne conv_id out. subst out.
  destruct (logged_in_session _ _ _ Hlog) as (user & x & Hs & Hu & <-).
  unfold api_get_messages. rewrite Hs, Hu. fold conv_id.
  destruct (assoc_get conv_id (private_messages st)) as [old|] eqn:Hold.
  - eexists _, _, _. cbn [fst snd private_messages set_private_messages].
    split_and!; [done | apply assoc_get_set_eq | | apply unread_for_read_by
                | by apply unread_for_read_by_other
                | intros k Hk; by apply assoc_get_set_ne].
    apply Forall2_fmap_r, Forall_Forall2_diag, Forall_true. intros m.
    apply read_by_fields.
  - split; [done|]. by eexists _, _.
Qed.

Lemma reading_marks_messages_read_witness :
  let out := api_get_messages after_hello.1.1 lee (lit "7c2e9b41") in
  ∃ new name verified,
    out.2 = MessagesOk new (lit "7c2e9b41") name verified
    ∧ assoc_get (get_conversation_id (lit "3f9a1c07") (lit "7c2e9b41"))
        (private_messages out.1) = Some new
    ∧ Forall2 (λ m m', m_id m' = m_id m ∧ m_sender_id m' = m_sender_id m
                       ∧ m_receiver_id m' = m_receiver_id m
                       ∧ m_content m' = m_content m
                       ∧ m_created_at m' = m_created_at m) [hello] new
    ∧ unread_for (lit "3f9a1c07") new = 0
    ∧ unread_for (lit "7c2e9b41") new = unread_for (lit "7c2e9b41") [hello]
    ∧ (∀ k, k ≠ get_conversation_id (lit "3f9a1c07") (lit "7c2e9b41") →
         assoc_get k (private_messages out.1)
         = assoc_get k (private_messages after_hello.1.1)).
Proof.
  assert (logged_in after_hello.1.1 lee (lit "3f9a1c07")) as Hlog
    by (eexists; split; reflexivity).
  assert (lit "3f9a1c07" ≠ lit "7c2e9b41") as Hne by discriminate.
  exact (reading_marks_messages_read after_hello.1.1 lee (lit "3f9a1c07")
           (lit "7c2e9b41") Hlog Hne).
Defined.

Lemma collect_conversations_fails db (uid conv_id : str) (messages : list message)
    (pm : list (str * list message)) :
  (conv_id, messages) ∈ pm →
  takes_part uid conv_id = true →
  messages ≠ [] →
  List.filter (λ u, negb (bool_decide (u = uid))) (split_on underscore conv_id) = [] →
  collect_conversations db uid pm = None.
Proof.
  intros Hin Htp Hmsgs Hnobody.
  induction pm as [|[k v] pm IH]; [by apply elem_of_nil in Hin|].
  apply elem_of_cons in Hin as [[= <- <-]|Hin].
  - cbn [collect_conversations]. rewrite Htp, Hnobody.
    destruct (last messages) eqn:Hlast; [done|].
    apply last_None in Hlast. done.
  - cbn [collect_conversations]. rewrite (IH Hin).
    destruct (takes_part uid k); [|done].
    destruct (last v); [|done].
    by destruct (List.filter _ (split_on underscore k)).
Qed.

(** X12. A conversation of a user with the own account breaks the
    conversation list: when the message store holds a non-empty
    conversation under the key of the pair (uid, uid), for a user ID
    without an underscore, [api_get_conversations] of that user ends in the
    [IndexError] of [[u for u in conv_id.split("_") if u != uid][0]],
    whatever other conversations there are. [api_send_message] accepts such
    a message, since it does not compare sender and receiver. *)
Theorem own_conversation_breaks_list
    (st : state) (sess : session) (uid : str) (messages : list message) :
  logged_in st sess uid →
  underscore ∉ uid →
  (get_conversation_id uid uid, messages) ∈ private_messages st →
  messages ≠ [] →
  api_get_conversations st sess = ConvIndexError.
Proof.
  intros Hlog Hu Hin Hmsgs.
  destruct (logged_in_session _ _ _ Hlog) as (user & x & Hs & Hcu & <-).
  unfold api_get_conversations. rewrite Hs, Hcu.
  rewrite (collect_conversations_fails _ _ _ _ _ Hin); [done | | done |].
  - apply conversation_id_parts; auto.
  - rewrite split_conversation_id, sorted_pair, str_ltb_irrefl by done.
    cbn [List.filter]. by rewrite bool_decide_eq_true_2.
Qed.

Lemma own_conversation_breaks_list_witness :
  (∃ m, private_messages after_note
        = [(get_conversation_id (lit "7c2e9b41") (lit "7c2e9b41"), [m])])
  ∧ api_get_conversations after_note kim = ConvIndexError.
Proof.
  split; [eexists; reflexivity|].
  apply (own_conversation_breaks_list after_note kim (lit "7c2e9b41")
           [Message (lit "6c1e88f3") (lit "7c2e9b41") (lit "7c2e9b41")
                    (lit "Remember the deadline") (Some false) (lit "2026-01-15 10:00")]).
  - eexists. split; reflexivity.
  - apply (bool_decide_unpack _). vm_compute. exact I.
  - vm_compute. apply list_elem_of_here.
  - discriminate.
Defined.

(** X13. The receiver decides whether messages are accepted: after a
    user's [api_user_settings] POST with a false [receive_messages], every
    [api_send_message] to that user is refused with "This user has disabled
    private messages" and stores nothing, whatever the content; after a
    POST with a true value, or for a user who never posted settings, the
    switch does not stand in the way. *)
Theorem receive_messages_switch
    (st : state) (settings : gmap str (option bool))
    (notifs : gmap str (list notification)) (sess sess' : session)
    (uid other raw new_id created_at notif_id : str) (now : datetime) (b : bool) :
  logged_in st sess uid →
  logged_in st sess' other →
  let settings' := (api_user_settings_post st settings sess' (Some b)).1 in
  receives_messages settings' other = b
  ∧ api_user_settings_get st settings' sess' = SettingsOk (Some b)
  ∧ (b = false →
       api_send_message st settings' notifs sess other raw new_id created_at notif_id now
       = (st, notifs, SendRefused messages_disabled_msg))
  ∧ (settings !! other = None → receives_messages settings other = true).
Proof.
  intros Hlog Hlog' settings'. subst settings'.
  destruct (logged_in_session _ _ _ Hlog) as (user & x & Hs & Hcu & _).
  destruct (logged_in_session _ _ _ Hlog') as (user' & x' & Hs' & Hcu' & <-).
  unfold api_user_settings_post, api_user_settings_get. rewrite Hs', Hcu'. cbn [fst].
  assert (receives_messages (<[u_user_id user' := Some b]> settings) (u_user_id user') = b)
    as Hrecv.
  { unfold receives_messages. by rewrite lookup_insert_eq. }
  split_and!.
  - done.
  - by rewrite lookup_insert_eq.
  - intros ->. unfold api_send_message. by rewrite Hs, Hcu, Hrecv.
  - intros Hnone. unfold receives_messages. by rewrite Hnone.
Qed.

Lemma receive_messages_switch_witness :
  let settings' := (api_user_settings_post two_users ∅ lee (Some false)).1 in
  receives_messages settings' (lit "3f9a1c07") = false
  ∧ api_user_settings_get two_users settings' lee = SettingsOk (Some false)
  ∧ (false = false →
       api_send_message two_users settings' ∅ kim (lit "3f9a1c07") (lit "Hello Lee")
         (lit "5b0d77e2") (lit "2026-01-15 09:30") (lit "9a8b7c6d") morning
       = (two_users, ∅, SendRefused messages_disabled_msg))
  ∧ ((∅ : gmap str (option bool)) !! lit "3f9a1c07" = None →
       receives_messages ∅ (lit "3f9a1c07") = true).
Proof.
  apply (receive_messages_switch two_users ∅ ∅ kim lee (lit "7c2e9b41") (lit "3f9a1c07")).
  - eexists. split; reflexivity.
  - eexists. split; reflexivity.
Defined.

(** ** Post likes, continued *)

Lemma filter_length_perm {A} (f : A → bool) (l l' : list A) :
  l ≡ₚ l' → length (List.filter f l) = length (List.filter f l').
Proof.
  induction 1 as [|x l l' _ IH|x y l|l l' l'' _ IH1 _ IH2]; simpl.
  - done.
  - destruct (f x); simpl; lia.
  - destruct (f x), (f y); simpl; lia.
  - lia.
Qed.

Lemma count_since_insert_fresh (start t : datetime) (k : str) (d : gmap str datetime) :
  d !! k = None →
  count_since start (<[k := t]> d)
  = count_since start d + (if dt_geb t start then 1 else 0).
Proof.
  intros Hk. unfold count_since.
  rewrite (filter_length_perm _ _ _ (map_to_list_insert d k t Hk)). simpl.
  destruct (dt_geb t start); simpl; lia.
Qed.

Lemma count_since_delete_le (start : datetime) (k : str) (d : gmap str datetime) :
  count_since start (delete k d) ≤ count_since start d.
Proof.
  destruct (d !! k) as [t|] eqn:Hk.
  - rewrite <- (insert_delete_id d k t Hk) at 2.
    rewrite count_since_insert_fresh by apply lookup_delete_eq.
    destruct (dt_geb t start); lia.
  - rewrite delete_id by done. lia.
Qed.

Lemma list_remove_first_snoc (x : str) (l : list str) :
  x ∉ l → list_remove_first x (l ++ [x]) = l.
Proof.
  induction l as [|y l IH]; intros Hx; simpl.
  - by rewrite bool_decide_eq_true_2.
  - apply not_elem_of_cons in Hx as [Hne Hx].
    rewrite bool_decide_eq_false_2 by congruence. by rewrite IH.
Qed.

(** X14. Taking a like back lifts the daily lock on the post: after a like
    that succeeded and the unlike that follows it, a third request of the
    user for the same post is a like attempt that succeeds again, on the
    same day too, as long as the user had fewer than 50 likes dated that
    day in the stores before the first like. *)
Theorem like_again_after_unlike
    (st st1 : state) (sess : session) (uid pid : str)
    (now1 stamp1 now2 stamp2 now3 stamp3 : datetime) (k : Z) :
  logged_in st sess uid →
  api_like_post st sess pid now1 stamp1 = (st1, LikeOk k true) →
  likes_today st uid now3 < 50 →
  let second := api_like_post st1 sess pid now2 stamp2 in
  let third := api_like_post second.1 sess pid now3 stamp3 in
  second.2 = LikeOk (Z.max 0 (k - 1)) false
  ∧ third.2 = LikeOk (Z.max 0 (k - 1) + 1) true
  ∧ default ∅ (user_likes third.1 !! uid) !! pid = Some stamp3.
Proof.
  intros Hlog Hrun Hroom second third. subst third second.
  destruct (api_like_post_liked_inv _ _ _ _ _ _ _ _ Hlog Hrun)
    as (i & p & Hf & Hin & _ & _ & -> & ->).
  set (p1 := Post (p_id p) (p_author_id p) (p_likes p + 1)
                  (Some (liked_list p ++ [uid]))).
  set (st1 := set_user_likes _ _).
  destruct (find_by_id_id _ _ _ _ _ Hf) as [Hi Hid].
  assert (find_by_id p_id pid (experience_posts st1) = Some (i, p1)) as Hf1.
  { by apply (find_by_id_insert_same _ _ _ _ p). }
  assert (logged_in st1 sess uid) as Hlog1 by (by apply (logged_in_ext st)).
  assert (uid ∈ liked_list p1) as Hin1.
  { unfold liked_list, p1. simpl. apply elem_of_app. right. apply list_elem_of_here. }
  rewrite (api_like_post_unlike _ _ _ _ _ _ now2 stamp2 Hlog1 Hf1 Hin1).
  cbn [fst snd]. split; [reflexivity|].
  set (p2 := Post (p_id p1) (p_author_id p1) (Z.max 0 (p_likes p1 - 1))
                  (Some (list_remove_first uid (liked_list p1)))).
  set (st2 := set_user_likes _ _).
  assert (find_by_id p_id pid (experience_posts st2) = Some (i, p2)) as Hf2.
  { by apply (find_by_id_insert_same _ _ _ _ p1). }
  assert (logged_in st2 sess uid) as Hlog2 by (by apply (logged_in_ext st)).
  assert (liked_list p2 = liked_list p) as Hliked.
  { unfold liked_list at 1. unfold p2. cbn [p_liked_by default from_option id].
    unfold liked_list at 1. unfold p1. cbn [p_liked_by default from_option id].
    by apply list_remove_first_snoc. }
  assert (uid ∉ liked_list p2) as Hin2 by (by rewrite Hliked).
  assert (default ∅ (user_likes st2 !! uid) = delete pid (default ∅ (user_likes st !! uid)))
    as Hrec.
  { unfold st2, st1. cbn [user_likes set_user_likes set_experience_posts].
    rewrite forget_like_lookup, record_like_lookup. apply delete_insert_eq. }
  rewrite (api_like_post_attempt _ _ _ _ _ _ now3 stamp3 Hlog2 Hf2 Hin2).
  assert (liked_today st2 uid pid now3 = false) as ->.
  { unfold liked_today. by rewrite Hrec, lookup_delete_eq. }
  assert ((50 <=? likes_today st2 uid now3) = false) as ->.
  { apply Z.leb_gt. unfold likes_today in *. rewrite Hrec.
    pose proof (count_since_delete_le (start_of_day now3) pid
                  (default ∅ (user_likes st !! uid))). lia. }
  cbn [orb fst snd]. split; [reflexivity|].
  cbn [user_likes set_user_likes set_experience_posts].
  rewrite record_like_lookup. apply lookup_insert_eq.
Qed.

Lemma like_again_after_unlike_witness :
  let first := api_like_post campus_with_post kim (lit "a1b2c3d4") morning morning in
  let second := api_like_post first.1 kim (lit "a1b2c3d4") morning morning in
  let third := api_like_post second.1 kim (lit "a1b2c3d4") evening evening in
  second.2 = LikeOk (Z.max 0 (1 - 1)) false
  ∧ third.2 = LikeOk (Z.max 0 (1 - 1) + 1) true
  ∧ default ∅ (user_likes third.1 !! lit "7c2e9b41") !! lit "a1b2c3d4" = Some evening.
Proof.
  apply (like_again_after_unlike campus_with_post _ kim (lit "7c2e9b41") (lit "a1b2c3d4")
           morning morning morning morning evening evening 1).
  - eexists. split; reflexivity.
  - vm_compute. reflexivity.
  - vm_compute. reflexivity.
Defined.

(** X15. A request that [api_like_post] does not honour changes no like
    counter, no [liked_by] list and no like record: without a login or
    without the post the stores stay as they are, and a refusal carries one
    of the two messages of [can_like_post]. *)
Theorem api_like_post_failures_change_nothing
    (st : state) (sess : session) (pid : str) (now_check now_stamp : datetime) :
  let out := api_like_post st sess pid now_check now_stamp in
  (out.2 = LikeLoginNeeded ∨ out.2 = LikePostNotFound → out.1 = st)
  ∧ (∀ msg, out.2 = LikeDenied msg →
       (msg = already_liked_msg ∨ msg = daily_limit_msg)
       ∧ (p_likes <$> experience_posts out.1) = (p_likes <$> experience_posts st)
       ∧ (liked_list <$> experience_posts out.1) = (liked_list <$> experience_posts st)
       ∧ ∀ u, default ∅ (user_likes out.1 !! u) = default ∅ (user_likes st !! u)).
Proof.
  intros out. subst out.
  destruct (get_current_user st sess) as [user|] eqn:Hu.
  2:{ unfold api_like_post. rewrite Hu. split; [done | by intros msg]. }
  destruct (find_by_id p_id pid (experience_posts st)) as [[i p]|] eqn:Hf.
  2:{ unfold api_like_post. rewrite Hu, Hf. split; [done | by intros msg]. }
  assert (logged_in st sess (u_user_id user)) as Hlog by (by exists user).
  destruct (find_by_id_id _ _ _ _ _ Hf) as [Hi Hid].
  destruct (decide (u_user_id user ∈ liked_list p)) as [Hin|Hin].
  { rewrite (api_like_post_unlike _ _ _ _ _ _ _ _ Hlog Hf Hin).
    split; [by intros [|] | by intros msg]. }
  rewrite (api_like_post_attempt _ _ _ _ _ _ _ _ Hlog Hf Hin).
  destruct (liked_today st (u_user_id user) pid now_check) eqn:E1;
    [|destruct (50 <=? likes_today st (u_user_id user) now_check) eqn:E2];
    cbn [orb fst snd]; (split; [by intros [|]|]); intros msg [= <-]; try done.
  all: cbn [experience_posts user_likes set_user_likes set_experience_posts].
  all: split_and!; [auto | | | intros u; apply ensure_user_likes_lookup].
  all: rewrite list_fmap_insert; apply list_insert_id;
    by rewrite list_lookup_fmap, Hi.
Qed.

(** ** Company votes, continued *)

Lemma sum_Z_insert (l : list Z) (i : nat) (x y : Z) :
  l !! i = Some x → sum_Z (<[i := y]> l) = sum_Z l - x + y.
Proof.
  revert i. induction l as [|z l IH]; intros i Hi; [done|].
  destruct i as [|i]; simpl in *.
  - injection Hi as ->. unfold sum_Z. simpl. lia.
  - unfold sum_Z in *. simpl. rewrite (IH i Hi). lia.
Qed.

(** X16. A vote that [api_vote_company] accepts counts once everywhere: the
    company's votes and the total of [api_dream_jobs_stats] go up by one,
    the other companies keep their votes, and the voter's achievement
    record gets one more cast vote and 5 points plus the bonus of any badge
    that the call adds. *)
Theorem accepted_company_vote_counts_once
    (st st1 : state) (sess : session) (uid c : str) (now stamp : datetime) (v : Z) :
  logged_in st sess uid →
  api_vote_company st sess c now stamp = (st1, VoteOk v) →
  total_votes st1 = total_votes st + 1
  ∧ (∃ i co, find_by_id c_id c (dream_companies st) = Some (i, co)
             ∧ v = c_votes co + 1
             ∧ dream_companies st1 = <[i := Company (c_id co) v]> (dream_companies st))
  ∧ a_votes_cast (achievement_of uid st1) = a_votes_cast (achievement_of uid st) + 1
  ∧ ∃ new, a_badges (achievement_of uid st1) = a_badges (achievement_of uid st) ++ new
           ∧ a_points (achievement_of uid st1)
             = a_points (achievement_of uid st) + 5 + sum_points new.
Proof.
  intros Hlog Hrun.
  assert (voted_today st c uid now = false) as Hv.
  { destruct (voted_today st c uid now) eqn:E; [|done].
    rewrite (api_vote_company_denied st sess uid c now stamp Hlog E) in Hrun.
    discriminate Hrun. }
  destruct Hlog as (user & Hu & <-).
  unfold api_vote_company, can_vote_for_company in Hrun. rewrite Hu in Hrun.
  unfold voted_today in Hv. rewrite ensure_company_votes_lookup in Hrun.
  assert (match default ∅ (company_votes st !! c) !! u_user_id user with
          | Some last_vote => dt_geb last_vote (start_of_day now)
          | None => false
          end = false) as Hm by exact Hv.
  rewrite Hm in Hrun. cbn [negb dream_companies set_company_votes] in Hrun.
  destruct (find_by_id c_id c (dream_companies st)) as [[i co]|] eqn:Hf; [|done].
  injection Hrun as <- <-.
  destruct (find_by_id_id _ _ _ _ _ Hf) as [Hi Hid].
  split_and!.
  - unfold total_votes.
    cbn [dream_companies award_user_points set_user_achievements set_company_votes
         set_dream_companies].
    rewrite list_fmap_insert. cbn [c_votes].
    rewrite (sum_Z_insert _ i (c_votes co)) by (by rewrite list_lookup_fmap, Hi). lia.
  - by exists i, co.
  - rewrite achievement_of_award.
    change (achievement_of (u_user_id user) (set_company_votes ?v (set_dream_companies ?d ?s)))
      with (achievement_of (u_user_id user) s).
    change (achievement_of (u_user_id user) (set_company_votes ?v st))
      with (achievement_of (u_user_id user) st).
    set (a := achievement_of (u_user_id user) st).
    unfold award_on_record. rewrite bool_decide_eq_true_2 by done.
    match goal with |- context [check_vote_badges ?x] =>
      destruct (check_vote_badges_grows x) as (n1 & _ & _ & Hc1 & _) end.
    match goal with |- context [check_top_contributor ?x] =>
      destruct (check_top_contributor_grows x) as (n2 & _ & _ & Hc2 & _) end.
    rewrite Hc2, Hc1. reflexivity.
  - rewrite achievement_of_award.
    change (achievement_of (u_user_id user) (set_company_votes ?v (set_dream_companies ?d ?s)))
      with (achievement_of (u_user_id user) s).
    change (achievement_of (u_user_id user) (set_company_votes ?v st))
      with (achievement_of (u_user_id user) st).
    destruct (award_on_record_accounting 5 (lit "vote")
                (achievement_of (u_user_id user) st)) as (new & Hb & Hp & _).
    by exists new.
Qed.

Lemma accepted_company_vote_counts_once_witness :
  let st1 := (api_vote_company campus kim (lit "google") morning morning).1 in
  total_votes st1 = total_votes campus + 1
  ∧ (∃ i co, find_by_id c_id (lit "google") (dream_companies campus) = Some (i, co)
             ∧ 157 = c_votes co + 1
             ∧ dream_companies st1
               = <[i := Company (c_id co) 157]> (dream_companies campus))
  ∧ a_votes_cast (achievement_of (lit "7c2e9b41") st1)
    = a_votes_cast (achievement_of (lit "7c2e9b41") campus) + 1
  ∧ ∃ new, a_badges (achievement_of (lit "7c2e9b41") st1)
           = a_badges (achievement_of (lit "7c2e9b41") campus) ++ new
           ∧ a_points (achievement_of (lit "7c2e9b41") st1)
             = a_points (achievement_of (lit "7c2e9b41") campus) + 5 + sum_points new.
Proof.
  apply (accepted_company_vote_counts_once campus _ kim (lit "7c2e9b41") (lit "google")
           morning morning 157).
  - eexists. split; reflexivity.
  - vm_compute. reflexivity.
Defined.

(** X17. A vote for a company ID that is not in [dream_companies] is
    answered "Company not found" and awards nothing, but it is the rate
    check that runs first: the call leaves an empty vote record for the
    unknown ID in [company_votes]. *)
Theorem vote_for_unknown_company
    (st : state) (sess : session) (uid c : str) (now stamp : datetime) :
  logged_in st sess uid →
  find_by_id c_id c (dream_companies st) = None →
  company_votes st !! c = None →
  let out := api_vote_company st sess c now stamp in
  out.2 = VoteCompanyNotFound
  ∧ company_votes out.1 = <[c := ∅]> (company_votes st)
  ∧ dream_companies out.1 = dream_companies st
  ∧ user_achievements out.1 = user_achievements st.
Proof.
  intros (user & Hu & <-) Hf Hnone out. subst out.
  unfold api_vote_company, can_vote_for_company. rewrite Hu.
  unfold ensure_company_votes. rewrite Hnone, lookup_insert_eq.
  cbn [default from_option id]. rewrite lookup_empty. cbn [negb].
  cbn [dream_companies set_company_votes]. rewrite Hf. done.
Qed.

Lemma vote_for_unknown_company_witness :
  let out := api_vote_company campus kim (lit "acme") morning morning in
  out.2 = VoteCompanyNotFound
  ∧ company_votes out.1 = <[lit "acme" := ∅]> (company_votes campus)
  ∧ dream_companies out.1 = dream_companies campus
  ∧ user_achievements out.1 = user_achievements campus.
Proof.
  apply (vote_for_unknown_company campus kim (lit "7c2e9b41") (lit "acme")).
  - eexists. split; reflexivity.
  - reflexivity.
  - reflexivity.
Defined.

(** X18. The lock on a company lasts until the day changes: after a vote
    that succeeded, a vote of the same user for the same company at any
    time of a later day succeeds again and raises the count once more. *)
Theorem vote_again_next_day
    (st st1 : state) (sess : session) (uid c : str)
    (now1 stamp1 now2 stamp2 : datetime) (v : Z) :
  logged_in st sess uid →
  api_vote_company st sess c now1 stamp1 = (st1, VoteOk v) →
  dt_day stamp1 < dt_day now2 →
  ∃ st2, api_vote_company st1 sess c now2 stamp2 = (st2, VoteOk (v + 1)).
Proof.
  intros Hlog Hrun Hlater.
  assert (voted_today st c uid now1 = false) as Hv.
  { destruct (voted_today st c uid now1) eqn:E; [|done].
    rewrite (api_vote_company_denied st sess uid c now1 stamp1 Hlog E) in Hrun.
    discriminate Hrun. }
  assert (∃ i co, find_by_id c_id c (dream_companies st) = Some (i, co)) as (i & co & Hf).
  { destruct (find_by_id c_id c (dream_companies st)) as [[i co]|] eqn:E; [eauto|].
    destruct Hlog as (user & Hu & <-).
    unfold api_vote_company, can_vote_for_company in Hrun. rewrite Hu in Hrun.
    unfold voted_today in Hv. rewrite ensure_company_votes_lookup in Hrun.
    assert (match default ∅ (company_votes st !! c) !! u_user_id user with
            | Some last_vote => dt_geb last_vote (start_of_day now1)
            | None => false
            end = false) as Hm by exact Hv.
    rewrite Hm in Hrun. cbn [negb dream_companies set_company_votes] in Hrun.
    rewrite E in Hrun. discriminate Hrun. }
  destruct (api_vote_company_allowed st sess uid c now1 stamp1 i co Hlog Hf Hv)
    as (st1' & Hrun' & Hdb & Hdc & Hcv & _).
  rewrite Hrun in Hrun'. injection Hrun' as <- ->.
  assert (logged_in st1 sess uid) as Hlog1 by (by apply (logged_in_ext st)).
  destruct (find_by_id_id _ _ _ _ _ Hf) as [Hi Hid].
  assert (find_by_id c_id c (dream_companies st1)
          = Some (i, Company (c_id co) (c_votes co + 1))) as Hf1.
  { rewrite Hdc. by apply (find_by_id_insert_same _ _ _ _ co). }
  assert (voted_today st1 c uid now2 = false) as Hv1.
  { unfold voted_today. rewrite Hcv. by apply dt_geb_earlier_day. }
  destruct (api_vote_company_allowed st1 sess uid c now2 stamp2 _ _ Hlog1 Hf1 Hv1)
    as (st2 & Hrun2 & _).
  by exists st2.
Qed.

Lemma vote_again_next_day_witness :
  ∃ st2, api_vote_company (api_vote_company campus kim (lit "google") morning morning).1
           kim (lit "google") next_day next_day
         = (st2, VoteOk (157 + 1)).
Proof.
  apply (vote_again_next_day campus _ kim (lit "7c2e9b41") (lit "google")
           morning morning next_day next_day 157).
  - eexists. split; reflexivity.
  - vm_compute. reflexivity.
  - reflexivity.
Defined.

(** ** The company ranking *)

Lemma sorted_insert_perm {A} (lt : A → A → bool) (x : A) (l : list A) :
  sorted_insert lt x l ≡ₚ x :: l.
Proof.
  induction l as [|y l IH]; simpl; [done|].
  destruct (lt x y); [done|]. rewrite IH. apply Permutation_swap.
Qed.

Lemma sorted_perm {A} (lt : A → A → bool) (l : list A) : sorted lt l ≡ₚ l.
Proof.
  unfold sorted.
  assert (∀ acc, foldl (λ acc x, sorted_insert lt x acc) acc l ≡ₚ acc ++ l) as H.
  { induction l as [|x l IH]; intros acc; simpl.
    - by rewrite app_nil_r.
    - rewrite IH, sorted_insert_perm. simpl. apply Permutation_middle. }
  apply (H []).
Qed.

Lemma sorted_insert_desc {A} (key : A → Z) (x : A) (l : list A) :
  StronglySorted (λ a b, key b ≤ key a) l →
  StronglySorted (λ a b, key b ≤ key a) (sorted_insert (λ x y, key y <? key x) x l).
Proof.
  induction 1 as [|y l Hl IH Hy]; simpl.
  - constructor; [constructor | constructor].
  - destruct (Z.ltb_spec (key y) (key x)) as [Hlt|Hge].
    + constructor; [by constructor|].
      constructor; [lia|]. eapply Forall_impl; [exact Hy|]. simpl. intros z Hz. lia.
    + constructor; [done|].
      rewrite sorted_insert_perm. by constructor.
Qed.

Lemma sorted_desc {A} (key : A → Z) (l : list A) :
  StronglySorted (λ a b, key b ≤ key a) (sorted (λ x y, key y <? key x) l).
Proof.
  unfold sorted.
  assert (∀ acc, StronglySorted (λ a b, key b ≤ key a) acc →
                 StronglySorted (λ a b, key b ≤ key a)
                   (foldl (λ acc x, sorted_insert (λ x y, key y <? key x) x acc) acc l))
    as H.
  { induction l as [|x l IH]; intros acc Hacc; [done|].
    simpl. apply IH. by apply sorted_insert_desc. }
  apply H. constructor.
Qed.

(** X19. [api_dream_companies] lists every company of [dream_companies]
    exactly once, with no company below one that has fewer votes. For a
    logged-in user the [user_voted] flag of a company tells whether a vote
    record of that user exists for it, whatever its date; without a login
    every flag is false. *)
Theorem api_dream_companies_ranking (st : state) (sess : session) :
  (api_dream_companies st sess).*1 ≡ₚ dream_companies st
  ∧ StronglySorted (λ a b, c_votes b ≤ c_votes a) (api_dream_companies st sess).*1
  ∧ Forall (λ entry,
              entry.2 = match get_current_user st sess with
                        | Some user => has_vote_record st (c_id entry.1) (u_user_id user)
                        | None => false
                        end)
      (api_dream_companies st sess).
Proof.
  unfold api_dream_companies.
  set (cs := sorted _ (dream_companies st)).
  assert (cs ≡ₚ dream_companies st) as Hperm by apply sorted_perm.
  assert (StronglySorted (λ a b, c_votes b ≤ c_votes a) cs) as Hsorted
    by apply (sorted_desc c_votes).
  destruct (get_current_user st sess) as [user|];
    rewrite <- list_fmap_compose, (list_fmap_ext _ id cs) by done;
    rewrite list_fmap_id; (split_and!; [done | done |]);
    apply Forall_fmap, Forall_true; done.
Qed.

(** X20. After a company vote that succeeded, [api_dream_companies] shows
    the company with [user_voted] true for that user, and it keeps doing so
    on later days, when the user may vote for the company again: the flag
    does not look at the date of the vote record. *)
Theorem user_voted_flag_after_vote
    (st st1 : state) (sess : session) (uid c : str) (now stamp : datetime) (v : Z) :
  logged_in st sess uid →
  api_vote_company st sess c now stamp = (st1, VoteOk v) →
  has_vote_record st1 c uid = true
  ∧ ∃ co, (co, true) ∈ api_dream_companies st1 sess ∧ c_id co = c ∧ c_votes co = v.
Proof.
  intros Hlog Hrun.
  assert (voted_today st c uid now = false) as Hv.
  { destruct (voted_today st c uid now) eqn:E; [|done].
    rewrite (api_vote_company_denied st sess uid c now stamp Hlog E) in Hrun.
    discriminate Hrun. }
  assert (∃ i co, find_by_id c_id c (dream_companies st) = Some (i, co)) as (i & co & Hf).
  { destruct (find_by_id c_id c (dream_companies st)) as [[i co]|] eqn:E; [eauto|].
    destruct Hlog as (user & Hu & <-).
    unfold api_vote_company, can_vote_for_company in Hrun. rewrite Hu in Hrun.
    unfold voted_today in Hv. rewrite ensure_company_votes_lookup in Hrun.
    assert (match default ∅ (company_votes st !! c) !! u_user_id user with
            | Some last_vote => dt_geb last_vote (start_of_day now)
            | None => false
            end = false) as Hm by exact Hv.
    rewrite Hm in Hrun. cbn [negb dream_companies set_company_votes] in Hrun.
    rewrite E in Hrun. discriminate Hrun. }
  destruct (api_vote_company_allowed st sess uid c now stamp i co Hlog Hf Hv)
    as (st1' & Hrun' & Hdb & Hdc & Hcv & _).
  rewrite Hrun in Hrun'. injection Hrun' as <- ->.
  destruct (find_by_id_id _ _ _ _ _ Hf) as [Hi Hid].
  assert (has_vote_record st1 c uid = true) as Hrec.
  { unfold has_vote_record. destruct (company_votes st1 !! c) as [d|]; simpl in Hcv.
    - apply bool_decide_eq_true. by rewrite Hcv.
    - by rewrite lookup_empty in Hcv. }
  split; [done|].
  exists (Company (c_id co) (c_votes co + 1)). split_and!; [|done|done].
  destruct (logged_in_ext st st1 sess uid Hdb Hlog) as (user & Hu & <-).
  unfold api_dream_companies. rewrite Hu.
  apply list_elem_of_fmap. exists (Company (c_id co) (c_votes co + 1)).
  cbn [c_id]. rewrite <- Hid in Hrec. rewrite Hrec. split; [done|].
  rewrite sorted_perm, Hdc.
  apply list_elem_of_lookup. exists i. apply list_lookup_insert_eq.
  by eapply lookup_lt_Some.
Qed.

Lemma user_voted_flag_after_vote_witness :
  let st1 := (api_vote_company campus kim (lit "google") morning morning).1 in
  has_vote_record st1 (lit "google") (lit "7c2e9b41") = true
  ∧ ∃ co, (co, true) ∈ api_dream_companies st1 kim
          ∧ c_id co = lit "google" ∧ c_votes co = 157.
Proof.
  apply (user_voted_flag_after_vote campus _ kim (lit "7c2e9b41") (lit "google")
           morning morning 157).
  - eexists. split; reflexivity.
  - vm_compute. reflexivity.
Defined.

(** ** Points and badges, continued *)

Lemma check_vote_badges_cases (a : achievement) :
  check_vote_badges a = a
  ∨ ∃ b, b ∈ [first_vote; voter_10; voter_50] ∧ has_badge b a = false
         ∧ check_vote_badges a = grant b a.
Proof.
  unfold check_vote_badges.
  destruct ((a_votes_cast a =? 1) && negb (has_badge first_vote a)) eqn:E1.
  { right. exists first_vote. apply andb_true_iff in E1 as [_ ?%negb_true_iff].
    split_and!; [set_solver | done | done]. }
  destruct ((a_votes_cast a =? 10) && negb (has_badge voter_10 a)) eqn:E2.
  { right. exists voter_10. apply andb_true_iff in E2 as [_ ?%negb_true_iff].
    split_and!; [set_solver | done | done]. }
  destruct ((a_votes_cast a =? 50) && negb (has_badge voter_50 a)) eqn:E3.
  { right. exists voter_50. apply andb_true_iff in E3 as [_ ?%negb_true_iff].
    split_and!; [set_solver | done | done]. }
  by left.
Qed.

(** The record between the action block and the top-contributor block of
    [award_user_points]. *)
Lemma award_on_record_middle (points : Z) (action_type : str) (a : achievement) :
  ∃ mid new,
    award_on_record points action_type a = check_top_contributor mid
    ∧ a_badges mid = a_badges a ++ new
    ∧ (top_contributor ∉ new)
    ∧ a_points mid = a_points a + points + sum_points new
    ∧ a_votes_cast mid
      = a_votes_cast a + (if bool_decide (action_type = lit "vote") then 1 else 0)
    ∧ a_offers_shared mid
      = a_offers_shared a
        + (if bool_decide (action_type = lit "vote") then 0
           else if bool_decide (action_type = lit "offer") then 1 else 0).
Proof.
  unfold award_on_record.
  destruct (bool_decide (action_type = lit "vote")) eqn:Ev.
  - match goal with |- context [check_vote_badges ?x] => set (a1 := x) end.
    destruct (check_vote_badges_cases a1) as [->|(b & Hb & _ & ->)].
    + exists a1, []. subst a1.
      cbn [a_badges a_points a_votes_cast a_offers_shared]. rewrite app_nil_r.
      change (sum_points []) with 0.
      split_and!; [done | done | apply not_elem_of_nil | lia | done | lia].
    + exists (grant b a1), [b]. subst a1. rewrite sum_points_singleton.
      cbn [a_badges a_points a_votes_cast a_offers_shared grant].
      split_and!; [done | done | | lia | done | lia].
      intros Htop%list_elem_of_singleton. subst b.
      repeat (apply elem_of_cons in Hb as [Hb|Hb]; [discriminate Hb|]).
      by apply elem_of_nil in Hb.
  - destruct (bool_decide (action_type = lit "offer")) eqn:Eo.
    + match goal with |- context [has_badge offer_shared ?x] => set (a1 := x) end.
      destruct (has_badge offer_shared a1); cbn [negb].
      * exists a1, []. subst a1.
        cbn [a_badges a_points a_votes_cast a_offers_shared]. rewrite app_nil_r.
        change (sum_points []) with 0.
        split_and!; [done | done | apply not_elem_of_nil | lia | lia | done].
      * exists (grant offer_shared a1), [offer_shared]. subst a1.
        rewrite sum_points_singleton.
        cbn [a_badges a_points a_votes_cast a_offers_shared grant].
        split_and!; [done | done | | lia | lia | done].
        by intros [=]%list_elem_of_singleton.
    + exists {| a_badges := a_badges a; a_points := a_points a + points;
                a_votes_cast := a_votes_cast a;
                a_offers_shared := a_offers_shared a |}, [].
      cbn [a_badges a_points a_votes_cast a_offers_shared].
      rewrite app_nil_r. change (sum_points []) with 0.
      split_and!; [done | done | apply not_elem_of_nil | lia | lia | lia].
Qed.

Lemma check_top_contributor_spec (a : achievement) :
  (check_top_contributor a = a
   ∧ (500 ≤ a_points a → top_contributor ∈ a_badges a))
  ∨ (check_top_contributor a
     = {| a_badges := a_badges a ++ [top_contributor]; a_points := a_points a;
          a_votes_cast := a_votes_cast a; a_offers_shared := a_offers_shared a |}
     ∧ 500 ≤ a_points a ∧ top_contributor ∉ a_badges a).
Proof.
  unfold check_top_contributor, has_badge.
  destruct (Z.leb_spec 500 (a_points a)) as [Hge|Hlt]; cbn [andb].
  - case_bool_decide as Hin; cbn [negb]; [left | right]; done.
  - left. split; [done | lia].
Qed.

(** X21. [award_user_points] never takes anything back: for any action type
    and a non-negative number of points, the user's badges after the call
    are the badges before it with new ones added at the end, the points and
    the two counters do not go down, a badge list without duplicates stays
    so, and the records of other users are not touched. *)
Theorem award_user_points_only_adds
    (uid : str) (points : Z) (action_type : str) (st : state) :
  0 ≤ points →
  let a := achievement_of uid st in
  let a' := achievement_of uid (award_user_points uid points action_type st) in
  (∃ new, a_badges a' = a_badges a ++ new)
  ∧ a_points a ≤ a_points a'
  ∧ a_votes_cast a ≤ a_votes_cast a'
  ∧ a_offers_shared a ≤ a_offers_shared a'
  ∧ (NoDup (a_badges a) → NoDup (a_badges a'))
  ∧ (∀ other, other ≠ uid →
       user_achievements (award_user_points uid points action_type st) !! other
       = user_achievements st !! other).
Proof.
  intros Hp a a'. subst a'. rewrite achievement_of_award. fold a.
  destruct (award_on_record_accounting points action_type a) as (new & Hb & Hpts & Hnd).
  destruct (award_on_record_middle points action_type a)
    as (mid & new' & Hmid & _ & _ & _ & Hv & Ho).
  destruct (check_top_contributor_grows mid) as (new2 & _ & _ & Hv2 & _).
  assert (0 ≤ sum_points new) as Hsum.
  { clear. induction new as [|b new IH]; [done|].
    rewrite sum_points_cons. pose proof (badge_points_nonneg b). lia. }
  assert (a_offers_shared (check_top_contributor mid) = a_offers_shared mid) as Ho2.
  { by destruct (check_top_contributor_spec mid) as [[-> _]|[-> _]]. }
  split_and!.
  - by exists new.
  - lia.
  - rewrite Hmid, Hv2, Hv. case_bool_decide; lia.
  - rewrite Hmid, Ho2, Ho. repeat case_bool_decide; lia.
  - done.
  - intros other Hne. unfold award_user_points. cbn. by rewrite lookup_insert_ne.
Qed.

Lemma award_user_points_only_adds_witness :
  let a := achievement_of (lit "demo_user3") initial_state in
  let a' := achievement_of (lit "demo_user3")
              (award_user_points (lit "demo_user3") 50 (lit "offer") initial_state) in
  (∃ new, a_badges a' = a_badges a ++ new)
  ∧ a_points a ≤ a_points a'
  ∧ a_votes_cast a ≤ a_votes_cast a'
  ∧ a_offers_shared a ≤ a_offers_shared a'
  ∧ (NoDup (a_badges a) → NoDup (a_badges a'))
  ∧ (∀ other, other ≠ lit "demo_user3" →
       user_achievements
         (award_user_points (lit "demo_user3") 50 (lit "offer") initial_state) !! other
       = user_achievements initial_state !! other).
Proof.
  apply (award_user_points_only_adds (lit "demo_user3") 50 (lit "offer") initial_state).
  lia.
Defined.

Lemma top_contributor_in_award (points : Z) (action_type : str) (a : achievement) :
  top_contributor ∈ a_badges (award_on_record points action_type a) →
  top_contributor ∈ a_badges a ∨ 500 ≤ a_points (award_on_record points action_type a).
Proof.
  destruct (award_on_record_middle points action_type a)
    as (mid & new & -> & Hb & Hnew & _).
  destruct (check_top_contributor_spec mid) as [[-> Hge]|(-> & Hge & Hno)];
    cbn [a_badges a_points]; [|by right].
  rewrite Hb. intros [?|?]%elem_of_app; [by left | done].
Qed.

(** X22. The [top_contributor] badge follows the 500-point mark at the end
    of every call: after [award_user_points], for any action type and any
    number of points, a record with at least 500 points holds the badge,
    and the call adds it only when the points have reached 500. *)
Theorem top_contributor_at_500 (points : Z) (action_type : str) (a : achievement) :
  let a' := award_on_record points action_type a in
  (500 ≤ a_points a' → top_contributor ∈ a_badges a')
  ∧ (top_contributor ∈ a_badges a' → top_contributor ∈ a_badges a ∨ 500 ≤ a_points a').
Proof.
  intros a'. subst a'.
  destruct (award_on_record_middle points action_type a)
    as (mid & new & -> & Hb & Hnew & _).
  destruct (check_top_contributor_spec mid) as [[-> Hge]|(-> & Hge & Hno)];
    cbn [a_badges a_points].
  - split; [done|]. rewrite Hb. intros [?|?]%elem_of_app; [by left | done].
  - split; [|by right]. intros _. apply elem_of_app. right. apply list_elem_of_here.
Qed.

Lemma earned_badges_top (a : achievement) (bs : list str) (pts v o : Z) :
  earned_badges {| a_badges := bs ++ [top_contributor]; a_points := pts;
                   a_votes_cast := v; a_offers_shared := o |}
  = earned_badges {| a_badges := bs; a_points := pts; a_votes_cast := v;
                     a_offers_shared := o |}.
Proof.
  unfold earned_badges. cbn [a_badges].
  rewrite filter_app, filter_cons_False, filter_nil, app_nil_r; [done|].
  by intros Hne.
Qed.

Lemma check_top_contributor_earned (a : achievement) :
  earned_badges (check_top_contributor a) = earned_badges a
  ∧ a_votes_cast (check_top_contributor a) = a_votes_cast a
  ∧ a_offers_shared (check_top_contributor a) = a_offers_shared a.
Proof.
  destruct (check_top_contributor_spec a) as [[-> _]|[-> _]]; [done|].
  split_and!; [|done|done]. destruct a as [bs pts v o].
  apply (earned_badges_top (Achievement bs pts v o)).
Qed.

Lemma offer_step_inv (p : Z) (a : achievement) :
  offer_run_inv a → offer_run_inv (award_on_record p (lit "offer") a)
  ∧ a_offers_shared (award_on_record p (lit "offer") a) = a_offers_shared a + 1.
Proof.
  intros (Ho & Hv & Hb).
  assert (bool_decide (offer_shared ∈ a_badges a)
          = bool_decide (1 ≤ a_offers_shared a)) as Hhas.
  { apply bool_decide_ext.
    rewrite (earned_badges_elem offer_shared a) by discriminate. rewrite Hb.
    case_decide; [rewrite list_elem_of_singleton | rewrite elem_of_nil]; intuition lia. }
  unfold award_on_record.
  rewrite (bool_decide_eq_false_2 (lit "offer" = lit "vote")) by discriminate.
  rewrite (bool_decide_eq_true_2 (lit "offer" = lit "offer")) by done.
  unfold has_badge. cbn [a_badges a_points a_votes_cast a_offers_shared].
  rewrite Hhas.
  match goal with |- context [check_top_contributor ?x] => set (mid := x) end.
  destruct (check_top_contributor_earned mid) as (He & Hv' & Ho').
  unfold offer_run_inv. rewrite He, Hv', Ho'. subst mid.
  unfold earned_badges in *.
  case_bool_decide as Hone; cbn [negb].
  - cbn [a_badges a_points a_votes_cast a_offers_shared].
    split; [|done]. split_and!; [lia | done |].
    rewrite Hb, !decide_True by lia. done.
  - cbn [a_badges a_points a_votes_cast a_offers_shared grant].
    split; [|done]. split_and!; [lia | done |].
    rewrite filter_app, Hb.
    rewrite decide_False by lia. rewrite decide_True by lia.
    rewrite filter_cons_True by discriminate. done.
Qed.

Lemma achievement_of_share_offers (uid : str) (ps : list Z) (st : state) :
  achievement_of uid (share_offers uid ps st)
  = foldl (λ a p, award_on_record p (lit "offer") a) (achievement_of uid st) ps.
Proof.
  unfold share_offers. revert st. induction ps as [|p ps IH]; intros st; [done|].
  simpl. by rewrite IH, achievement_of_award.
Qed.

Lemma offer_run_keeps_inv (ps : list Z) (a : achievement) :
  offer_run_inv a →
  offer_run_inv (foldl (λ a p, award_on_record p (lit "offer") a) a ps)
  ∧ a_offers_shared (foldl (λ a p, award_on_record p (lit "offer") a) a ps)
    = a_offers_shared a + Z.of_nat (length ps).
Proof.
  revert a. induction ps as [|p ps IH]; intros a Ha.
  - simpl. split; [done | lia].
  - simpl. destruct (offer_step_inv p a Ha) as [Ha' Ho].
    destruct (IH _ Ha') as [Hinv Hcount]. split; [done|]. rewrite Hcount, Ho. lia.
Qed.

(** X23. The [offer_shared] badge and its 100 points are given once: for a
    user without an achievement record, any number (at least one) of
    [award_user_points(uid, p, "offer")] calls leaves [offer_shared] as the
    only badge besides [top_contributor], counts every call in
    [offers_shared], leaves [votes_cast] at 0, and the points are the
    awarded points plus 100. *)
Theorem offer_shared_badge_once (st : state) (uid : str) (ps : list Z) :
  user_achievements st !! uid = None →
  ps ≠ [] →
  let a := achievement_of uid (share_offers uid ps st) in
  earned_badges a = [offer_shared]
  ∧ NoDup (a_badges a)
  ∧ a_offers_shared a = Z.of_nat (length ps)
  ∧ a_votes_cast a = 0
  ∧ a_points a = sum_Z ps + 100.
Proof.
  intros Hfresh Hps a. subst a. rewrite achievement_of_share_offers.
  assert (achievement_of uid st = fresh_achievement) as ->.
  { unfold achievement_of. by rewrite Hfresh. }
  assert (offer_run_inv fresh_achievement) as Hinv0.
  { unfold offer_run_inv, fresh_achievement, earned_badges. simpl.
    split_and!; [lia | done | done]. }
  destruct (offer_run_keeps_inv ps fresh_achievement Hinv0) as [(Ho & Hv & Hb) Hcount].
  destruct (award_run_accounting (lit "offer") ps fresh_achievement)
    as [Hnd Hacc]; [apply NoDup_nil_2|].
  set (a := foldl _ fresh_achievement ps) in *.
  change (a_points fresh_achievement) with 0 in Hacc.
  change (a_offers_shared fresh_achievement) with 0 in Hcount.
  change (sum_points (a_badges fresh_achievement)) with 0 in Hacc.
  assert (1 ≤ a_offers_shared a) as Hone.
  { rewrite Hcount. destruct ps; [done | simpl; lia]. }
  rewrite decide_True in Hb by done.
  split_and!; [done | done | lia | done |].
  rewrite Hacc, <- sum_points_earned, Hb. change (sum_points [offer_shared]) with 100. lia.
Qed.

Lemma offer_shared_badge_once_witness :
  let a := achievement_of (lit "7c2e9b41")
             (share_offers (lit "7c2e9b41") [50; 50; 50] campus) in
  earned_badges a = [offer_shared]
  ∧ NoDup (a_badges a)
  ∧ a_offers_shared a = Z.of_nat (length [50; 50; 50])
  ∧ a_votes_cast a = 0
  ∧ a_points a = sum_Z [50; 50; 50] + 100.
Proof.
  apply (offer_shared_badge_once campus (lit "7c2e9b41") [50; 50; 50]).
  - vm_compute. reflexivity.
  - discriminate.
Defined.

(** ** Offers *)

Lemma award_offer_badges (p : Z) (a : achievement) :
  ∃ new, a_badges (award_on_record p (lit "offer") a) = a_badges a ++ new
         ∧ Forall (λ b, b = offer_shared ∨ b = top_contributor) new.
Proof.
  unfold award_on_record.
  rewrite (bool_decide_eq_false_2 (lit "offer" = lit "vote")) by discriminate.
  rewrite (bool_decide_eq_true_2 (lit "offer" = lit "offer")) by done.
  match goal with |- context [check_top_contributor ?x] => set (mid := x) end.
  assert (∃ new1, a_badges mid = a_badges a ++ new1
                  ∧ Forall (λ b, b = offer_shared ∨ b = top_contributor) new1)
    as (new1 & Hmid & Hall).
  { subst mid. destruct (has_badge offer_shared _); cbn [negb].
    - exists []. cbn [a_badges]. by rewrite app_nil_r.
    - exists [offer_shared]. cbn [a_badges grant]. split; [done|].
      constructor; [by left | constructor]. }
  destruct (check_top_contributor_spec mid) as [[-> _]|[-> _]].
  - by exists new1.
  - exists (new1 ++ [top_contributor]). cbn [a_badges]. rewrite Hmid, app_assoc.
    split; [done|]. apply Forall_app. split; [done|].
    constructor; [by right | constructor].
Qed.

(** X24. [api_submit_offer] accepts an offer exactly when company and
    position are not empty once stripped and no prohibited word occurs in
    "company position salary"; a refused submission changes nothing. An
    accepted offer is put first in the showcase with 0 likes, counts as one
    more shared offer of the user, and a like on its ID then answers 1. *)
Theorem api_submit_offer_effect
    (st : state) (sess : session) (uid company position salary new_id : str) :
  logged_in st sess uid →
  let out := api_submit_offer st sess company position salary new_id in
  ((∃ o, out.2 = SubmitOk o) ↔
     strip company ≠ [] ∧ strip position ≠ []
     ∧ (check_content_moderation
          (strip company ++ lit " " ++ strip position ++ lit " " ++ strip salary)).1 = true)
  ∧ ((∀ o, out.2 ≠ SubmitOk o) → out.1 = st)
  ∧ (∀ o, out.2 = SubmitOk o →
       o = Offer new_id (Some 0)
       ∧ offer_showcase out.1 = o :: offer_showcase st
       ∧ (api_like_offer out.1 sess new_id).2 = OfferLikeOk 1
       ∧ a_offers_shared (achievement_of uid out.1)
         = a_offers_shared (achievement_of uid st) + 1).
Proof.
  intros (user & Hu & <-) out. subst out. unfold api_submit_offer. rewrite Hu.
  destruct (decide (strip company = [])) as [Hc|Hc].
  { rewrite (bool_decide_eq_true_2 _ Hc). cbn [orb fst snd].
    split_and!; [|done|done]. split; [by intros [? ?] | by intros [? _]]. }
  rewrite (bool_decide_eq_false_2 _ Hc).
  destruct (decide (strip position = [])) as [Hp|Hp].
  { rewrite (bool_decide_eq_true_2 _ Hp). cbn [orb fst snd].
    split_and!; [|done|done]. split; [by intros [? ?] | by intros (_ & ? & _)]. }
  rewrite (bool_decide_eq_false_2 _ Hp). cbn [orb].
  destruct (check_content_moderation _) as [[] msg]; cbn [negb fst snd].
  2:{ split_and!; [|done|done]. split; [by intros [? ?] | by intros (_ & _ & ?)]. }
  split_and!.
  - split; [done | intros _; eauto].
  - intros Hno. by destruct (Hno _ eq_refl).
  - intros o [= <-].
    set (st1 := award_user_points _ _ _ _).
    assert (achievement_of (u_user_id user) st1
            = award_on_record 50 (lit "offer") (achievement_of (u_user_id user) st)) as Ha1.
    { unfold st1. by rewrite achievement_of_award. }
    assert (a_offers_shared (achievement_of (u_user_id user) st1)
            = a_offers_shared (achievement_of (u_user_id user) st) + 1) as Hos.
    { rewrite Ha1.
      destruct (award_on_record_middle 50 (lit "offer")
                  (achievement_of (u_user_id user) st))
        as (mid & new & -> & _ & _ & _ & _ & Ho).
      destruct (check_top_contributor_earned mid) as (_ & _ & ->).
      rewrite Ho. rewrite (bool_decide_eq_false_2 (lit "offer" = lit "vote")) by discriminate.
      by rewrite (bool_decide_eq_true_2 (lit "offer" = lit "offer")). }
    destruct (default false (u_verified user) && negb _);
      (split_and!; [done | done | |]).
    + unfold api_like_offer.
      change (get_current_user (set_user_achievements ?a st1) sess)
        with (get_current_user st sess).
      rewrite Hu. cbn [offer_showcase set_user_achievements]. unfold st1.
      cbn [offer_showcase award_user_points set_user_achievements set_offer_showcase].
      unfold find_by_id. cbn [list_find o_id]. rewrite decide_True by done. done.
    + unfold achievement_of at 1. cbn [user_achievements set_user_achievements].
      rewrite lookup_insert_eq. cbn [default from_option id a_offers_shared]. exact Hos.
    + unfold api_like_offer.
      change (get_current_user st1 sess) with (get_current_user st sess).
      rewrite Hu. unfold st1.
      cbn [offer_showcase award_user_points set_user_achievements set_offer_showcase].
      unfold find_by_id. cbn [list_find o_id]. rewrite decide_True by done. done.
    + exact Hos.
Qed.

Lemma api_submit_offer_effect_witness :
  let out := api_submit_offer campus kim (lit " HSBC ") (lit "Analyst") (lit "")
               (lit "0ff3r001") in
  (∃ o, out.2 = SubmitOk o)
  ∧ (∀ o, out.2 = SubmitOk o →
       o = Offer (lit "0ff3r001") (Some 0)
       ∧ offer_showcase out.1 = o :: offer_showcase campus
       ∧ (api_like_offer out.1 kim (lit "0ff3r001")).2 = OfferLikeOk 1
       ∧ a_offers_shared (achievement_of (lit "7c2e9b41") out.1)
         = a_offers_shared (achievement_of (lit "7c2e9b41") campus) + 1).
Proof.
  assert (logged_in campus kim (lit "7c2e9b41")) as Hlog
    by (eexists; split; reflexivity).
  destruct (api_submit_offer_effect campus kim (lit "7c2e9b41") (lit " HSBC ")
              (lit "Analyst") (lit "") (lit "0ff3r001") Hlog) as (Hiff & _ & Hok).
  split; [|exact Hok].
  apply Hiff. split_and!; [vm_compute; discriminate | vm_compute; discriminate
                          | vm_compute; reflexivity].
Defined.

(** X25. The [verified_offer] badge is handled after [award_user_points]
    has run: when a verified user without that badge submits an offer that
    is accepted, the badge is appended and its 150 points are added to the
    record that the award left, without a new look at the 500-point mark.
    So a verified user who had no [top_contributor] badge and whom the
    award left with 350 to 499 points ends the call with 500 points or more
    and still no [top_contributor] badge. *)
Theorem verified_offer_bonus_skips_top_check
    (st : state) (sess : session) (user : user)
    (company position salary new_id : str) (o : offer) :
  get_current_user st sess = Some user →
  u_verified user = Some true →
  (api_submit_offer st sess company position salary new_id).2 = SubmitOk o →
  let uid := u_user_id user in
  let a := achievement_of uid st in
  let a1 := award_on_record 50 (lit "offer") a in
  let a2 := achievement_of uid (api_submit_offer st sess company position salary new_id).1 in
  verified_offer ∉ a_badges a →
  a_badges a2 = a_badges a1 ++ [verified_offer]
  ∧ a_points a2 = a_points a1 + 150
  ∧ (top_contributor ∉ a_badges a → 350 ≤ a_points a1 < 500 →
       500 ≤ a_points a2 ∧ top_contributor ∉ a_badges a2).
Proof.
  intros Hu Hver Hok uid a a1 a2 Hnew. subst a2.
  unfold api_submit_offer in Hok |- *. rewrite Hu in Hok |- *.
  destruct (bool_decide (strip company = []) || bool_decide (strip position = []));
    [done|].
  destruct (check_content_moderation _) as [[] msg]; cbn [negb] in Hok |- *; [|done].
  clear Hok. set (st1 := award_user_points _ _ _ _).
  assert (achievement_of uid st1 = a1) as Ha1.
  { unfold st1, a1, a. by rewrite achievement_of_award. }
  assert (default [] (a_badges <$> user_achievements st1 !! u_user_id user)
          = a_badges a1) as Hbadges.
  { unfold st1. cbn [user_achievements award_user_points set_user_achievements].
    rewrite lookup_insert_eq. done. }
  destruct (award_offer_badges 50 a) as (new & Hb1 & Hall). fold a1 in Hb1.
  assert (verified_offer ∉ a_badges a1) as Hnew1.
  { rewrite Hb1. intros [?|Hin]%elem_of_app; [done|].
    rewrite Forall_forall in Hall. by destruct (Hall _ Hin). }
  rewrite Hver, Hbadges. cbn [default from_option id andb].
  rewrite bool_decide_eq_false_2 by done. cbn [negb fst].
  fold uid. rewrite Ha1. change (badge_points verified_offer) with 150.
  match goal with |- context [achievement_of uid (set_user_achievements (<[uid := ?r]> ?m) st1)] =>
    assert (achievement_of uid (set_user_achievements (<[uid := r]> m) st1) = r) as ->
  end.
  { unfold achievement_of. cbn [user_achievements set_user_achievements].
    by rewrite lookup_insert_eq. }
  cbn [a_badges a_points].
  split_and!; [done | done |].
  intros Htop [Hlo Hhi]. split; [lia|].
  intros [Hin|Hin]%elem_of_app.
  - destruct (top_contributor_in_award 50 (lit "offer") a Hin) as [H|H]; [done|].
    change (500 ≤ a_points a1) in H. lia.
  - by apply list_elem_of_singleton in Hin.
Qed.

Lemma verified_offer_bonus_skips_top_check_witness :
  let a2 := achievement_of (lit "e5f60718")
              (api_submit_offer alumni may (lit "HSBC") (lit "Analyst") (lit "")
                 (lit "0ff3r002")).1 in
  a_badges a2 = [first_vote; voter_10; voter_50; offer_shared; verified_offer]
  ∧ a_points a2 = 600
  ∧ 500 ≤ a_points a2
  ∧ top_contributor ∉ a_badges a2.
Proof.
  assert (get_current_user alumni may
          = Some (User (lit "e5f60718") None (Some true))) as Hu by reflexivity.
  assert ((api_submit_offer alumni may (lit "HSBC") (lit "Analyst") (lit "")
             (lit "0ff3r002")).2 = SubmitOk (Offer (lit "0ff3r002") (Some 0))) as Hok
    by (vm_compute; reflexivity).
  assert (verified_offer ∉ a_badges (achievement_of (lit "e5f60718") alumni)) as Hnew
    by (apply (bool_decide_unpack _); vm_compute; exact I).
  destruct (verified_offer_bonus_skips_top_check alumni may _ _ _ _ _ _ Hu eq_refl Hok Hnew)
    as (Hb & Hp & Htop).
  destruct Htop as [H500 Hno].
  { apply (bool_decide_unpack _). vm_compute. exact I. }
  { vm_compute. split; [discriminate | reflexivity]. }
  split_and!; [exact Hb | exact Hp | exact H500 | exact Hno].
Defined.

(** ** Favourites, continued *)

Lemma favorites_lookup_toggle (st : state) (sess : session) (uid pid : str) :
  logged_in st sess uid →
  let favs := default [] (user_favorites st !! uid) in
  api_toggle_favorite st sess pid
  = if bool_decide (pid ∈ favs)
    then (set_user_favorites (<[uid := list_remove_first pid favs]> (user_favorites st)) st,
          FavOk false)
    else (set_user_favorites (<[uid := favs ++ [pid]]> (user_favorites st)) st,
          FavOk true).
Proof.
  intros (user & Hu & <-) favs. unfold api_toggle_favorite. rewrite Hu. done.
Qed.

(** X26. [api_toggle_favorite] is a switch: two requests in a row for the
    same post answer with opposite [favorited] values and leave the user
    with the same set of favourites as before (the same list when the post
    was not a favourite), given that the list names no post twice. It asks
    for no existing post, and the favourites of other users stay as they
    are. *)
Theorem toggle_favorite_twice
    (st : state) (sess : session) (uid pid : str) :
  logged_in st sess uid →
  favorites_ok st →
  let favs := default [] (user_favorites st !! uid) in
  let first := api_toggle_favorite st sess pid in
  let second := api_toggle_favorite first.1 sess pid in
  first.2 = FavOk (negb (bool_decide (pid ∈ favs)))
  ∧ second.2 = FavOk (bool_decide (pid ∈ favs))
  ∧ (∀ x, x ∈ default [] (user_favorites second.1 !! uid) ↔ x ∈ favs)
  ∧ (pid ∉ favs → default [] (user_favorites second.1 !! uid) = favs)
  ∧ (∀ other, other ≠ uid →
       user_favorites second.1 !! other = user_favorites st !! other).
Proof.
  intros Hlog Hok favs first second. subst second first.
  assert (NoDup favs) as Hnd.
  { subst favs. destruct (user_favorites st !! uid) as [l|] eqn:E; simpl.
    - exact (Hok _ _ E).
    - constructor. }
  rewrite (favorites_lookup_toggle st sess uid pid Hlog). fold favs.
  destruct (decide (pid ∈ favs)) as [Hin|Hin].
  - rewrite (bool_decide_eq_true_2 _ Hin). cbn [fst snd negb].
    set (st1 := set_user_favorites _ st).
    assert (logged_in st1 sess uid) as Hlog1 by (by apply (logged_in_ext st)).
    rewrite (favorites_lookup_toggle st1 sess uid pid Hlog1).
    unfold st1. cbn [user_favorites set_user_favorites].
    rewrite lookup_insert_eq. cbn [default from_option id].
    destruct (list_remove_first_NoDup pid favs Hnd) as [Hnd' Hout].
    rewrite (bool_decide_eq_false_2 _ Hout). cbn [fst snd user_favorites set_user_favorites].
    rewrite lookup_insert_eq. cbn [default from_option id].
    split_and!; [done | done | | done |].
    + intros x. rewrite elem_of_app, list_elem_of_singleton. split.
      * intros [Hx| ->]; [by apply list_remove_first_elem in Hx | done].
      * intros Hx. destruct (decide (x = pid)) as [->|Hne]; [by right|]. left.
        clear -Hx Hne. induction favs as [|y l IH]; [done|]. simpl.
        case_bool_decide as Hy.
        -- apply elem_of_cons in Hx as [->|Hx]; [congruence | done].
        -- apply elem_of_cons in Hx as [->|Hx];
             [apply list_elem_of_here | apply list_elem_of_further; auto].
    + intros other Hne. by rewrite !lookup_insert_ne.
  - rewrite (bool_decide_eq_false_2 _ Hin). cbn [fst snd negb].
    set (st1 := set_user_favorites _ st).
    assert (logged_in st1 sess uid) as Hlog1 by (by apply (logged_in_ext st)).
    rewrite (favorites_lookup_toggle st1 sess uid pid Hlog1).
    unfold st1. cbn [user_favorites set_user_favorites].
    rewrite lookup_insert_eq. cbn [default from_option id].
    rewrite bool_decide_eq_true_2
      by (apply elem_of_app; right; apply list_elem_of_here).
    cbn [fst snd user_favorites set_user_favorites].
    rewrite lookup_insert_eq. cbn [default from_option id].
    rewrite list_remove_first_snoc by done.
    split_and!; [done | done | done | done |].
    intros other Hne. by rewrite !lookup_insert_ne.
Qed.

Lemma toggle_favorite_twice_witness :
  let favs := default [] (user_favorites campus_with_favorite !! lit "7c2e9b41") in
  let first := api_toggle_favorite campus_with_favorite kim (lit "a1b2c3d4") in
  let second := api_toggle_favorite first.1 kim (lit "a1b2c3d4") in
  first.2 = FavOk (negb (bool_decide (lit "a1b2c3d4" ∈ favs)))
  ∧ second.2 = FavOk (bool_decide (lit "a1b2c3d4" ∈ favs))
  ∧ (∀ x, x ∈ default [] (user_favorites second.1 !! lit "7c2e9b41") ↔ x ∈ favs)
  ∧ (lit "a1b2c3d4" ∉ favs →
       default [] (user_favorites second.1 !! lit "7c2e9b41") = favs)
  ∧ (∀ other, other ≠ lit "7c2e9b41" →
       user_favorites second.1 !! other = user_favorites campus_with_favorite !! other).
Proof.
  apply (toggle_favorite_twice campus_with_favorite kim (lit "7c2e9b41") (lit "a1b2c3d4")).
  - eexists. split; reflexivity.
  - apply api_toggle_favorite_keeps_ok. apply map_Forall_empty.
Defined.

Lemma filter_sublist {A} (f : A → bool) (l : list A) : sublist (List.filter f l) l.
Proof.
  induction l as [|x l IH]; simpl; [constructor|].
  destruct (f x); by constructor.
Qed.

(** X27. [api_get_favorites] lists existing posts only, in the order of
    [experience_posts]: a post is listed right after the
    [api_toggle_favorite] request that answered [favorited = True] and is
    not listed after the one that answered [False]; an ID among the
    favourites that no post carries adds nothing to the list. *)
Theorem favorites_listing_follows_toggle
    (st : state) (sess : session) (uid pid : str) (i : nat) (p : post) :
  logged_in st sess uid →
  favorites_ok st →
  find_by_id p_id pid (experience_posts st) = Some (i, p) →
  let out := api_toggle_favorite st sess pid in
  (p ∈ listed_posts (api_get_favorites out.1 sess) ↔ out.2 = FavOk true)
  ∧ sublist (listed_posts (api_get_favorites out.1 sess)) (experience_posts st)
  ∧ (∀ q, q ∈ listed_posts (api_get_favorites out.1 sess) ↔
          q ∈ experience_posts st
          ∧ p_id q ∈ default [] (user_favorites out.1 !! uid)).
Proof.
  intros Hlog Hok Hf out. subst out.
  destruct (find_by_id_id _ _ _ _ _ Hf) as [Hi Hid].
  assert (p ∈ experience_posts st) as Hp by (apply list_elem_of_lookup; eauto).
  assert (NoDup (default [] (user_favorites st !! uid))) as Hnd.
  { destruct (user_favorites st !! uid) as [l|] eqn:E; simpl.
    - exact (Hok _ _ E).
    - constructor. }
  assert (∀ st', users_db st' = users_db st → experience_posts st' = experience_posts st →
            ∀ q, q ∈ listed_posts (api_get_favorites st' sess) ↔
                 q ∈ experience_posts st
                 ∧ p_id q ∈ default [] (user_favorites st' !! uid)) as Hlist.
  { intros st' Hdb Hposts q.
    destruct (logged_in_session _ _ _ (logged_in_ext st st' sess uid Hdb Hlog))
      as (user & x & Hs & Hu & <-).
    unfold api_get_favorites. rewrite Hs, Hu, Hposts. cbn [listed_posts].
    rewrite <- list_fmap_compose, (list_fmap_ext _ id _) by done.
    rewrite list_fmap_id, list_elem_of_In, List.filter_In, <- list_elem_of_In.
    by rewrite bool_decide_eq_true. }
  assert (∀ st', users_db st' = users_db st → experience_posts st' = experience_posts st →
            sublist (listed_posts (api_get_favorites st' sess)) (experience_posts st))
    as Hsub.
  { intros st' Hdb Hposts.
    destruct (logged_in_session _ _ _ (logged_in_ext st st' sess uid Hdb Hlog))
      as (user & x & Hs & Hu & <-).
    unfold api_get_favorites. rewrite Hs, Hu, Hposts. cbn [listed_posts].
    rewrite <- list_fmap_compose, (list_fmap_ext _ id _) by done.
    rewrite list_fmap_id. apply filter_sublist. }
  rewrite (favorites_lookup_toggle st sess uid pid Hlog).
  destruct (decide (pid ∈ default [] (user_favorites st !! uid))) as [Hin|Hin].
  - rewrite (bool_decide_eq_true_2 _ Hin). cbn [fst snd].
    split_and!; [| by apply Hsub | by apply Hlist].
    rewrite Hlist by done. cbn [user_favorites set_user_favorites].
    rewrite lookup_insert_eq. cbn [default from_option id]. rewrite Hid.
    split; [|done]. intros [_ Hbad].
    by destruct (list_remove_first_NoDup pid _ Hnd) as [_ Hout].
  - rewrite (bool_decide_eq_false_2 _ Hin). cbn [fst snd].
    split_and!; [| by apply Hsub | by apply Hlist].
    rewrite Hlist by done. cbn [user_favorites set_user_favorites].
    rewrite lookup_insert_eq. cbn [default from_option id]. rewrite Hid.
    split; [done|]. intros _. split; [done|].
    apply elem_of_app. right. apply list_elem_of_here.
Qed.

Lemma favorites_listing_follows_toggle_witness :
  let out := api_toggle_favorite campus_with_post kim (lit "3") in
  (seed_post "3" 35 ∈ listed_posts (api_get_favorites out.1 kim) ↔ out.2 = FavOk true)
  ∧ sublist (listed_posts (api_get_favorites out.1 kim)) (experience_posts campus_with_post)
  ∧ (∀ q, q ∈ listed_posts (api_get_favorites out.1 kim) ↔
          q ∈ experience_posts campus_with_post
          ∧ p_id q ∈ default [] (user_favorites out.1 !! lit "7c2e9b41")).
Proof.
  apply (favorites_listing_follows_toggle campus_with_post kim (lit "7c2e9b41")
           (lit "3") 3 (seed_post "3" 35)).
  - eexists. split; reflexivity.
  - apply map_Forall_empty.
  - reflexivity.
Defined.

(** ** Creating posts *)

Lemma occurs_app_sep (w a b : str) (c : N) :
  c ∉ w → w ≠ [] →
  occurs w (a ++ c :: b) ↔ occurs w a ∨ occurs w b.
Proof.
  intros Hc Hw. unfold occurs. split.
  - intros (pre & post & H).
    apply app_eq_inv in H as [(k & Ha & Hk)|(k & Hpre & Hk)].
    + apply app_eq_inv in Hk as [(k' & Hw' & Hk')|(k' & Hk' & Hpost)].
      * destruct k' as [|x k'].
        -- left. exists pre, []. rewrite app_nil_r in Hw'. rewrite app_nil_r. by subst.
        -- simpl in Hk'. injection Hk' as <- _. destruct Hc. rewrite Hw'.
           apply elem_of_app. right. apply list_elem_of_here.
      * left. exists pre, k'. by subst.
    + destruct k as [|x k].
      * simpl in Hk. destruct w as [|y w]; [done|]. injection Hk as <- _.
        destruct Hc. apply list_elem_of_here.
      * injection Hk as _ ->. right. by exists k, post.
  - intros [(pre & post & ->)|(pre & post & ->)].
    + exists pre, (post ++ c :: b). by rewrite <- !app_assoc.
    + exists (a ++ c :: pre), post. by rewrite <- app_assoc.
Qed.

Lemma prohibited_words_plain :
  Forall (λ w, (32%N ∉ w) ∧ w ≠ []) PROHIBITED_WORDS.
Proof.
  repeat constructor; try discriminate;
    apply (bool_decide_unpack _); vm_compute; exact I.
Qed.

(** X28. [api_create_post] needs no login and refuses a post exactly when a
    prohibited word occurs in the title or in the content; a word that
    would only arise across the two, which are joined by a space for the
    check, does not count. A refused post changes nothing. An accepted post
    is put first in [experience_posts], in front of the unchanged older
    posts, with 0 likes, an empty [liked_by], and the user's ID or
    ["anonymous"] as author. *)
Theorem api_create_post_effect
    (st : state) (sess : session) (new_id title content : str) :
  let out := api_create_post st sess new_id title content in
  ((∃ p, out.2 = CreateOk p) ↔
     Forall (λ w, ¬ occurs w title ∧ ¬ occurs w content) PROHIBITED_WORDS)
  ∧ ((∀ p, out.2 ≠ CreateOk p) → out.1 = st)
  ∧ (∀ p, out.2 = CreateOk p →
       experience_posts out.1 = p :: experience_posts st
       ∧ p = Post new_id
               (Some (match get_current_user st sess with
                      | Some user => u_user_id user
                      | None => lit "anonymous"
                      end))
               0 (Some [])
       ∧ post_ok p).
Proof.
  intros out. subst out. unfold api_create_post.
  assert (Forall (λ w, ¬ occurs w (title ++ lit " " ++ content)) PROHIBITED_WORDS
          ↔ Forall (λ w, ¬ occurs w title ∧ ¬ occurs w content) PROHIBITED_WORDS) as Hwords.
  { rewrite !Forall_forall. split; intros H w Hw.
    - pose proof prohibited_words_plain as Hplain. rewrite Forall_forall in Hplain.
      destruct (Hplain w Hw) as [Hsp Hne]. specialize (H w Hw).
      change (title ++ lit " " ++ content) with (title ++ 32%N :: content) in H.
      rewrite occurs_app_sep in H by done. tauto.
    - pose proof prohibited_words_plain as Hplain. rewrite Forall_forall in Hplain.
      destruct (Hplain w Hw) as [Hsp Hne]. specialize (H w Hw).
      change (title ++ lit " " ++ content) with (title ++ 32%N :: content).
      rewrite occurs_app_sep by done. tauto. }
  rewrite <- Hwords. unfold check_content_moderation.
  destruct (moderation_scan_spec PROHIBITED_WORDS (title ++ lit " " ++ content))
    as [(before & w & after & Hlist & Ho & _ & ->)|[Hall ->]]; cbn [negb fst snd].
  - split_and!; [|done|done]. split; [by intros [? ?]|].
    intros Hall. rewrite Forall_forall in Hall. destruct (Hall w); [|done].
    rewrite Hlist. apply elem_of_app. right. apply list_elem_of_here.
  - split_and!.
    + split; [done | intros _; eauto].
    + intros Hno. by destruct (Hno _ eq_refl).
    + intros p [= <-]. split_and!; [done | by destruct (get_current_user st sess) |].
      unfold post_ok, like_surplus, liked_list. simpl. split; [constructor | lia].
Qed.

(** * Account IDs and the conversation key *)












(** *** The membership test *)












